(** * Exam allocation system: the chatbot's context-assembly pipeline

    A shallow embedding of
    - [backend/controllers/chatbotController.js] (intent router, context
      formatter, response generator),
    - [backend/routes/chatbotRoutes.js] (entity summarizer, cache rebuild,
      semantic admin endpoint),
    - [backend/controllers/chatbot.js] (validated LangChain endpoint),
    followed by the properties established about them. *)

From Stdlib Require Import ZArith Ascii String DecimalString List Bool Lia PrimFloat.
From stdpp Require Import base option list strings gmap.

Set Warnings "-register-all,-inexact-float".
Local Open Scope Z_scope.

(* ===================================================================== *)
(** * JavaScript data and the built-ins the sources rely on               *)
(* ===================================================================== *)

Module JS.

(** Values exchanged with the data layer and the HTTP clients: JSON-like
    data.  Numbers are the integers (counts, years, capacities); objects are
    property lists in insertion order, which is the order [Object.keys]
    enumerates; objects carry data properties only, no methods. *)
Inductive value : Type :=
| JUndef
| JNull
| JBool (b : bool)
| JNum (n : Z)
| JStr (s : string)
| JArr (items : list value)
| JObj (props : list (string * value)).

(** Exceptions.  The message of a [TypeError] is the engine's; the text used
    here is V8's. *)
Inductive error : Type :=
| TypeError (message : string)
| ReferenceError (message : string)
| Error (message : string).

Definition message (e : error) : string :=
  match e with
  | TypeError m | ReferenceError m | Error m => m
  end.

(** The result of evaluating code that may throw (or of awaiting a promise
    that may reject). *)
Inductive outcome (A : Type) : Type :=
| Returned (a : A)
| Thrown (e : error).
Arguments Returned {A} a.
Arguments Thrown {A} e.

Definition obind {A B} (o : outcome A) (k : A -> outcome B) : outcome B :=
  match o with
  | Returned a => k a
  | Thrown e => Thrown e
  end.

Definition omap {A B} (f : A -> B) (o : outcome A) : outcome B :=
  obind o (fun a => Returned (f a)).

(** [mapM f l]: [l.map(f)] for a callback that may throw. *)
Fixpoint mapM {A B} (f : A -> outcome B) (l : list A) : outcome (list B) :=
  match l with
  | [] => Returned []
  | x :: rest =>
      obind (f x) (fun y => obind (mapM f rest) (fun ys => Returned (y :: ys)))
  end.

(** [l.forEach((x, index) => ...)] / [l.map((x, index) => ...)], the index
    starting at [i]. *)
Fixpoint imapM {A B} (i : Z) (f : Z -> A -> outcome B) (l : list A)
  : outcome (list B) :=
  match l with
  | [] => Returned []
  | x :: rest =>
      obind (f i x) (fun y =>
      obind (imapM (i + 1) f rest) (fun ys => Returned (y :: ys)))
  end.

(** ** Truthiness, [typeof], [||] *)

Definition truthy (v : value) : bool :=
  match v with
  | JUndef | JNull => false
  | JBool b => b
  | JNum n => negb (n =? 0)
  | JStr s => negb (String.eqb s "")
  | JArr _ | JObj _ => true
  end.

(** [typeof v === 'object'] (which holds of [null] too). *)
Definition typeof_object (v : value) : bool :=
  match v with
  | JNull | JArr _ | JObj _ => true
  | _ => false
  end.

Definition typeof_string (v : value) : bool :=
  match v with JStr _ => true | _ => false end.

Definition isArray (v : value) : bool :=
  match v with JArr _ => true | _ => false end.

(** [a || b] *)
Definition or_else (a b : value) : value := if truthy a then a else b.

(** [v === 'literal'] *)
Definition is_str (v : value) (lit : string) : bool :=
  match v with JStr s => String.eqb s lit | _ => false end.

(** ** Property access *)

Fixpoint assoc (k : string) (props : list (string * value)) : option value :=
  match props with
  | [] => None
  | (k', v) :: rest => if String.eqb k' k then Some v else assoc k rest
  end.

(** [obj[k] = v]: an existing key keeps its place, a new one goes last. *)
Fixpoint set_prop (k : string) (v : value) (props : list (string * value))
  : list (string * value) :=
  match props with
  | [] => [(k, v)]
  | (k', v') :: rest =>
      if String.eqb k' k then (k, v) :: rest else (k', v') :: set_prop k v rest
  end.

Definition describe_nullish (v : value) : string :=
  match v with JNull => "null" | _ => "undefined" end.

Definition cannot_read (v : value) (k : string) : error :=
  TypeError ("Cannot read properties of " +:+ describe_nullish v
             +:+ " (reading '" +:+ k +:+ "')").

(** [v.k] *)
Definition get (v : value) (k : string) : outcome value :=
  match v with
  | JUndef | JNull => Thrown (cannot_read v k)
  | JObj props => Returned (default JUndef (assoc k props))
  | JArr items =>
      Returned (if String.eqb k "length" then JNum (Z.of_nat (length items))
                else JUndef)
  | JStr s =>
      Returned (if String.eqb k "length" then JNum (Z.of_nat (String.length s))
                else JUndef)
  | JBool _ | JNum _ => Returned JUndef
  end.

(** [v[i]] *)
Definition get_index (v : value) (i : nat) : outcome value :=
  match v with
  | JUndef | JNull => Thrown (cannot_read v (NilZero.string_of_uint (Nat.to_uint i)))
  | JArr items => Returned (default JUndef (items !! i))
  | JStr s =>
      Returned (match String.get i s with
                | Some c => JStr (String c EmptyString)
                | None => JUndef
                end)
  | JObj props =>
      Returned (default JUndef
                  (assoc (NilZero.string_of_uint (Nat.to_uint i)) props))
  | JBool _ | JNum _ => Returned JUndef
  end.

(** ** Conversion to text: template literals, [join] *)

Definition string_of_Z (n : Z) : string :=
  NilZero.string_of_int (Z.to_int n).

Fixpoint join (sep : string) (parts : list string) : string :=
  match parts with
  | [] => ""
  | [p] => p
  | p :: rest => p +:+ sep +:+ join sep rest
  end.

(** [`${v}`], [String(v)]. *)
Fixpoint to_str (v : value) : string :=
  match v with
  | JUndef => "undefined"
  | JNull => "null"
  | JBool true => "true"
  | JBool false => "false"
  | JNum n => string_of_Z n
  | JStr s => s
  | JArr items =>
      join "," (map (fun x => match x with
                              | JUndef | JNull => ""
                              | _ => to_str x
                              end) items)
  | JObj _ => "[object Object]"
  end.

(** The text [join] gives an element: empty for [null] and [undefined]. *)
Definition join_item (v : value) : string :=
  match v with
  | JUndef | JNull => ""
  | _ => to_str v
  end.

(** [v.toString()] *)
Definition toString (v : value) : outcome string :=
  match v with
  | JUndef | JNull => Thrown (cannot_read v "toString")
  | _ => Returned (to_str v)
  end.

(** [l.filter(f)] for a callback that may throw. *)
Fixpoint filterM {A} (f : A -> outcome bool) (l : list A) : outcome (list A) :=
  match l with
  | [] => Returned []
  | x :: rest =>
      obind (f x) (fun keep =>
      obind (filterM f rest) (fun kept =>
      Returned (if keep : bool then x :: kept else kept)))
  end.

(** ** Numbers: [ToNumber] on the integer model ([None] is [NaN]) *)

Definition to_number (v : value) : option Z :=
  match v with
  | JUndef => None
  | JNull => Some 0
  | JBool b => Some (if b then 1 else 0)
  | JNum n => Some n
  | JStr s =>
      if String.eqb s "" then Some 0
      else option_map Z.of_int (NilZero.int_of_string s)
  | JArr items =>
      let s := join "," (map join_item items) in
      if String.eqb s "" then Some 0
      else option_map Z.of_int (NilZero.int_of_string s)
  | JObj _ => None
  end.

(** [v > 0] *)
Definition gt_zero (v : value) : bool :=
  match to_number v with
  | Some n => 0 <? n
  | None => false
  end.

(** [v > n] *)
Definition gt (v : value) (n : Z) : bool :=
  match to_number v with
  | Some m => n <? m
  | None => false
  end.

(** ** Array methods *)

Definition not_a_function (what : string) : error :=
  TypeError (what +:+ " is not a function").

(** The receiver of [.map], [.forEach], [.join], [.filter]: the elements of
    an array; anything else has no such method. *)
Definition array_of (method : string) (v : value) : outcome (list value) :=
  match v with
  | JArr items => Returned items
  | JUndef | JNull => Thrown (cannot_read v method)
  | _ => Thrown (not_a_function method)
  end.

Fixpoint string_take (n : nat) (s : string) : string :=
  match n, s with
  | O, _ => ""
  | S n', EmptyString => ""
  | S n', String c rest => String c (string_take n' rest)
  end.

(** [v.slice(0, n)]: arrays and strings both have it. *)
Definition slice0 (n : nat) (v : value) : outcome value :=
  match v with
  | JArr items => Returned (JArr (take n items))
  | JStr s => Returned (JStr (string_take n s))
  | JUndef | JNull => Thrown (cannot_read v "slice")
  | _ => Thrown (not_a_function "slice")
  end.

(** [a.slice(-n)] on an array: its last [n] elements, all of them when there
    are fewer. *)
Definition slice_last {A} (n : nat) (a : list A) : list A :=
  drop (length a - n) a.

(** ** Strings *)

(** The line feed and the double quote, which a string literal here cannot
    hold. *)
Definition nl : string := String "010"%char EmptyString.
Definition dq : string := String "034"%char EmptyString.

(** The pieces of a template literal, put together. *)
Definition cat (pieces : list string) : string := join "" pieces.

Definition upper_char (c : ascii) : ascii :=
  let n := nat_of_ascii c in
  if (97 <=? n)%nat && (n <=? 122)%nat then ascii_of_nat (n - 32) else c.

Fixpoint string_map (f : ascii -> ascii) (s : string) : string :=
  match s with
  | EmptyString => EmptyString
  | String c rest => String (f c) (string_map f rest)
  end.

(** [s.toUpperCase()] on ASCII text (the dataset names are ASCII
    identifiers). *)
Definition toUpperCase (s : string) : string := string_map upper_char s.

(** The receiver of a string method such as [.toLowerCase()] or [.trim()]. *)
Definition string_of (method : string) (v : value) : outcome string :=
  match v with
  | JStr s => Returned s
  | JUndef | JNull => Thrown (cannot_read v method)
  | _ => Thrown (not_a_function method)
  end.

Fixpoint prefixb (p s : string) : bool :=
  match p, s with
  | EmptyString, _ => true
  | String a p', String b s' => Ascii.eqb a b && prefixb p' s'
  | String _ _, EmptyString => false
  end.

(** [s.includes(p)].  Text is held as its UTF-8 bytes: on well-formed text
    a run of bytes occurs in another exactly where the run of code units
    does. *)
Fixpoint includes (s p : string) : bool :=
  prefixb p s ||
  match s with
  | EmptyString => false
  | String _ rest => includes rest p
  end.

(** A record: an object, as the data layer returns one. *)
Definition is_record (v : value) : Prop :=
  match v with JObj _ => True | _ => False end.

(** [piece] occurs in [text]. *)
Definition occurs (piece text : string) : Prop :=
  exists before after, text = before +:+ piece +:+ after.

End JS.

(* ===================================================================== *)
(** * Effects: external calls, mutation and exceptions                    *)
(* ===================================================================== *)

Module Eff.
Import JS.

(** A computation over a world [W] (the log of external calls, with whatever
    mutable objects the code holds): it always leaves a world behind, also
    when it throws, as mutations made before a [throw] stay made. *)
Definition M (W A : Type) : Type := W -> W * outcome A.

Definition ret {W A} (a : A) : M W A := fun w => (w, Returned a).

Definition throw {W A} (e : error) : M W A := fun w => (w, Thrown e).

Definition lift {W A} (o : outcome A) : M W A := fun w => (w, o).

Definition bind {W A B} (m : M W A) (k : A -> M W B) : M W B :=
  fun w =>
    match m w with
    | (w', Returned a) => k a w'
    | (w', Thrown e) => (w', Thrown e)
    end.

(** [try { m } catch (e) { h e }] *)
Definition try_catch {W A} (m : M W A) (h : error -> M W A) : M W A :=
  fun w =>
    match m w with
    | (w', Thrown e) => h e w'
    | r => r
    end.

(** [if (c) { m }] *)
Definition when {W} (c : bool) (m : M W unit) : M W unit :=
  if c then m else ret tt.

(** A block with a mutable local object of type [S], starting as [s0]: the
    outcome of the block together with the object as the block left it. *)
Definition with_local {W S A} (s0 : S) (m : M (W * S) A) : W -> W * (S * outcome A) :=
  fun w => let '((w', s), r) := m (w, s0) in (w', (s, r)).

End Eff.

Declare Scope outcome_scope.
Delimit Scope outcome_scope with outcome.
Declare Scope eff_scope.
Delimit Scope eff_scope with eff.

Notation "x <~ o ;; k" := (JS.obind o (fun x => k))
  (at level 100, o at next level, right associativity) : outcome_scope.
Notation "x <- m ;; k" := (Eff.bind m (fun x => k))
  (at level 100, m at next level, right associativity) : eff_scope.
Notation "x <~ o ;; k" := (Eff.bind (Eff.lift o) (fun x => k))
  (at level 100, o at next level, right associativity) : eff_scope.
Notation "m ;;; k" := (Eff.bind m (fun _ => k))
  (at level 100, right associativity) : eff_scope.

(* ===================================================================== *)
(** * backend/controllers/chatbotController.js                            *)
(* ===================================================================== *)

Module Controller.
Import JS Eff.

(** The body of the POST to [/chat/completions], with the request timeout. *)
Record ChatRequest : Type := {
  url : string;
  model : string;
  messages : list value;
  temperature : float;
  max_tokens : Z;
  timeout : Z
}.

(** The calls that leave the controller. *)
Inductive event : Type :=
| AnalyzeQuery (query : value)
| DbCall (method : string) (args : list value)
| ChatCompletions (request : ChatRequest).

(** [services/chatbotDatabaseService]: each lookup resolves to a value or
    rejects. *)
Record DbService : Type := {
  findExams : value -> outcome value;
  findSubjects : value -> outcome value;
  findFacultyAllocations : value -> outcome value;
  findFaculty : value -> outcome value;
  findRooms : value -> outcome value;
  findStudentAllocations : value -> outcome value;
  getSystemStats : outcome value;
  searchAll : value -> outcome value
}.

(** The object [fetchRelevantData] builds and [formatContextData] reads. *)
Record ContextData : Type := {
  intent : value;
  data : list (string * value);
  userRole : value;
  userName : value
}.

Definition CONVERSATION_HISTORY_LENGTH : nat := 5.

Definition processQuery_apology : string :=
  "I'm sorry, I encountered an error while processing your query. Please try again.".

Definition generateResponse_apology : string :=
  "I'm sorry, I encountered an error while generating a response. Please try again.".

(** The world inside [fetchRelevantData]: the log of calls and the current
    [contextData.data]. *)
Definition W : Type := list event * list (string * value).

(** [await dbService.method(...args)] *)
Definition await_db (method : string) (args : list value)
    (result : outcome value) : M W value :=
  fun w => ((fst w ++ [DbCall method args], snd w), result).

(** [contextData.data.k = v] *)
Definition set_data (k : string) (v : value) : M W unit :=
  fun w => ((fst w, set_prop k v (snd w)), Returned tt).

(** [user && user.role === r] *)
Definition role_is (user : value) (r : string) : outcome bool :=
  if truthy user then (role <~ get user "role" ;; Returned (is_str role r))%outcome
  else Returned false.

(** [alloc => alloc.roomId ? alloc.roomId._id || alloc.roomId : null] *)
Definition room_id_of (alloc : value) : outcome value :=
  (roomId <~ get alloc "roomId" ;;
   if truthy roomId then (id <~ get roomId "_id" ;; Returned (or_else id roomId))
   else Returned JNull)%outcome.

(** [alloc => alloc.roomId ? alloc.roomId.roomNumber : null] *)
Definition room_number_of (alloc : value) : outcome value :=
  (roomId <~ get alloc "roomId" ;;
   if truthy roomId then get roomId "roomNumber" else Returned JNull)%outcome.

(** [user ? user.k : null], the way [contextData] records the caller. *)
Definition user_field (user : value) (k : string) : value :=
  if truthy user
  then match get user k with Returned x => x | Thrown _ => JUndef end
  else JNull.

(** [analysisResult.k] of a classification that is an object. *)
Definition slot (analysisResult : value) (k : string) : value :=
  match get analysisResult k with
  | Returned x => x
  | Thrown _ => JUndef
  end.

(** [user && user.role === r], for a total reading of it. *)
Definition has_role (user : value) (r : string) : bool :=
  truthy user && is_str (user_field user "role") r.

(** [user && user.role === 'Faculty' ? user._id : null] *)
Definition faculty_id_of (user : value) : value :=
  if has_role user "Faculty" then user_field user "_id" else JNull.

(** [user && user.role === 'Faculty' ? user.name
    : analysisResult.faculty_name] *)
Definition faculty_name_of (analysisResult user : value) : value :=
  if has_role user "Faculty" then user_field user "name"
  else slot analysisResult "faculty_name".


Section Router.

(** [String.prototype.toLowerCase], the host's: it follows Unicode's case
    mapping, which no function on bytes gives. *)
Variable toLowerCase : string -> string.

Variable dbService : DbService.

Local Open Scope eff_scope.

(** The [switch] of [fetchRelevantData], one definition per [case].  Each
    reads the slots of [analysisResult] it needs, awaits the lookup and
    stores the result under its key, whatever the result is. *)

Definition case_exam_info (analysisResult facultyId : value)
    (timeParams : list (string * value)) : M W unit :=
  exam_name <~ get analysisResult "exam_name" ;;
  exam_year <~ get analysisResult "exam_year" ;;
  semester <~ get analysisResult "semester" ;;
  let args := JObj [("name", exam_name); ("year", exam_year);
                    ("semester", semester)] in
  exams <- await_db "findExams" [args] (findExams dbService args) ;;
  set_data "exams" exams ;;;
  subject_name <~ get analysisResult "subject_name" ;;
  subject_code <~ get analysisResult "subject_code" ;;
  when (truthy (or_else subject_name subject_code))
    (semester <~ get analysisResult "semester" ;;
     date <~ get analysisResult "date" ;;
     let args := JObj [("name", subject_name); ("subjectCode", subject_code);
                       ("semester", semester); ("date", date)] in
     subjects <- await_db "findSubjects" [args] (findSubjects dbService args) ;;
     set_data "subjects" subjects) ;;;
  when (truthy facultyId)
    (let args := JObj (("facultyId", facultyId) :: timeParams) in
     facultyExams <- await_db "findFacultyAllocations" [args]
                       (findFacultyAllocations dbService args) ;;
     set_data "facultyExams" facultyExams).

Definition case_faculty_allocation (analysisResult facultyId facultyName : value)
    (timeParams : list (string * value)) : M W unit :=
  faculty_id <~ get analysisResult "faculty_id" ;;
  room_id <~ get analysisResult "room_id" ;;
  date <~ get analysisResult "date" ;;
  let args := JObj ([("facultyName", facultyName);
                     ("facultyId", or_else facultyId faculty_id);
                     ("roomId", room_id); ("date", date)] ++ timeParams) in
  allocations <- await_db "findFacultyAllocations" [args]
                   (findFacultyAllocations dbService args) ;;
  set_data "allocations" allocations ;;;
  when (truthy facultyName)
    (let args := JObj [("name", facultyName)] in
     faculty <- await_db "findFaculty" [args] (findFaculty dbService args) ;;
     set_data "faculty" faculty).

Definition case_room_info (analysisResult facultyId : value)
    (timeParams : list (string * value)) : M W unit :=
  building <~ get analysisResult "building" ;;
  room_number <~ get analysisResult "room_number" ;;
  floor <~ get analysisResult "floor" ;;
  let args := JObj [("building", building); ("roomNumber", room_number);
                    ("floor", floor)] in
  rooms <- await_db "findRooms" [args] (findRooms dbService args) ;;
  set_data "rooms" rooms ;;;
  room_number <~ get analysisResult "room_number" ;;
  when (truthy room_number)
    (date <~ get analysisResult "date" ;;
     let args := JObj ([("roomNumber", room_number); ("date", date)]
                       ++ timeParams) in
     roomAllocations <- await_db "findStudentAllocations" [args]
                          (findStudentAllocations dbService args) ;;
     set_data "roomAllocations" roomAllocations ;;;
     facultyRoomAllocations <- await_db "findFacultyAllocations" [args]
                                 (findFacultyAllocations dbService args) ;;
     set_data "facultyRoomAllocations" facultyRoomAllocations) ;;;
  when (truthy facultyId)
    (let args := JObj (("facultyId", facultyId) :: timeParams) in
     facultyRooms <- await_db "findFacultyAllocations" [args]
                       (findFacultyAllocations dbService args) ;;
     set_data "facultyRooms" facultyRooms).

Definition case_student_allocation (analysisResult facultyId : value)
    (timeParams : list (string * value)) : M W unit :=
  room_number <~ get analysisResult "room_number" ;;
  semester <~ get analysisResult "semester" ;;
  student <~ get analysisResult "student" ;;
  date <~ get analysisResult "date" ;;
  let args := JObj ([("roomNumber", room_number); ("semester", semester);
                     ("student", student); ("date", date)] ++ timeParams) in
  studentAllocations <- await_db "findStudentAllocations" [args]
                          (findStudentAllocations dbService args) ;;
  set_data "studentAllocations" studentAllocations ;;;
  when (truthy facultyId && negb (truthy room_number))
    (let args := JObj ([("facultyId", facultyId); ("date", date)]
                       ++ timeParams) in
     facultyAllocations <- await_db "findFacultyAllocations" [args]
                             (findFacultyAllocations dbService args) ;;
     has_some <~ (if truthy facultyAllocations
                  then (n <~ get facultyAllocations "length" ;;
                        Returned (gt_zero n))%outcome
                  else Returned false) ;;
     when has_some
       (allocs <~ array_of "map" facultyAllocations ;;
        ids <~ mapM room_id_of allocs ;;
        let roomIds := List.filter truthy ids in
        numbers <~ mapM room_number_of allocs ;;
        let roomNumbers := List.filter truthy numbers in
        let args := JObj ([("roomIds", JArr roomIds);
                           ("roomNumbers", JArr roomNumbers);
                           ("date", date)] ++ timeParams) in
        facultyRoomStudents <- await_db "findStudentAllocations" [args]
                                 (findStudentAllocations dbService args) ;;
        set_data "facultyRoomStudents" facultyRoomStudents)).

Definition case_faculty_info (analysisResult user facultyId facultyName : value)
  : M W unit :=
  faculty_name <~ get analysisResult "faculty_name" ;;
  about_self <~ (if truthy facultyId then
                   if negb (truthy faculty_name) then Returned true
                   else (mine <~ string_of "toLowerCase" facultyName ;;
                         asked <~ string_of "toLowerCase" faculty_name ;;
                         Returned (includes (toLowerCase mine)
                                            (toLowerCase asked)))%outcome
                 else Returned false) ;;
  if about_self : bool then set_data "faculty" (JArr [user])
  else
    email <~ get analysisResult "email" ;;
    designation <~ get analysisResult "designation" ;;
    let args := JObj [("name", faculty_name); ("email", email);
                      ("designation", designation)] in
    faculty <- await_db "findFaculty" [args] (findFaculty dbService args) ;;
    set_data "faculty" faculty.

(** [(await dbService.findFacultyAllocations(args)).length] *)
Definition count_allocations (args : value) : M W value :=
  found <- await_db "findFacultyAllocations" [args]
             (findFacultyAllocations dbService args) ;;
  n <~ get found "length" ;;
  ret n.

Definition case_system_stats (user facultyId : value) : M W unit :=
  is_admin <~ role_is user "Admin" ;;
  if negb (truthy user) || is_admin then
    stats <- await_db "getSystemStats" [] (getSystemStats dbService) ;;
    set_data "stats" stats
  else
    totalAllocations <- count_allocations (JObj [("facultyId", facultyId)]) ;;
    upcomingAllocations <- count_allocations
      (JObj [("facultyId", facultyId); ("future", JBool true)]) ;;
    pastAllocations <- count_allocations
      (JObj [("facultyId", facultyId); ("past", JBool true)]) ;;
    set_data "facultyStats"
      (JObj [("totalAllocations", totalAllocations);
             ("upcomingAllocations", upcomingAllocations);
             ("pastAllocations", pastAllocations)]).

(** The [default] case passes [query] to [searchAll], a name that is bound
    nowhere in [fetchRelevantData] or around it: evaluating the argument
    throws before the call is made. *)
Definition case_default : M W unit :=
  throw (ReferenceError "query is not defined").

(** The [switch] on [contextData.intent]. *)
Definition switch_intent (analysisResult user intent facultyId facultyName : value)
    (timeParams : list (string * value)) : M W unit :=
  if is_str intent "exam_info" then
    case_exam_info analysisResult facultyId timeParams
  else if is_str intent "faculty_allocation" then
    case_faculty_allocation analysisResult facultyId facultyName timeParams
  else if is_str intent "room_info" then
    case_room_info analysisResult facultyId timeParams
  else if is_str intent "student_allocation" then
    case_student_allocation analysisResult facultyId timeParams
  else if is_str intent "faculty_info" then
    case_faculty_info analysisResult user facultyId facultyName
  else if is_str intent "system_stats" then
    case_system_stats user facultyId
  else case_default.

(** The [try] block: the faculty's own identity, then the [switch]. *)
Definition fetch_try (analysisResult user intent : value)
    (timeParams : list (string * value)) : M W unit :=
  is_faculty <~ role_is user "Faculty" ;;
  facultyId <~ (if is_faculty : bool then get user "_id" else Returned JNull) ;;
  facultyName <~ (if is_faculty then get user "name"
                  else get analysisResult "faculty_name") ;;
  switch_intent analysisResult user intent facultyId facultyName timeParams.

Definition time_params (time_period : value) : list (string * value) :=
  if is_str time_period "past" then [("past", JBool true)]
  else if is_str time_period "future" then [("future", JBool true)]
  else if is_str time_period "present" then [("present", JBool true)]
  else [].

(** [fetchRelevantData(analysisResult, user = null)]: [contextData] is built
    before the [try]; the [catch] returns it as the lookups left it. *)
Definition fetchRelevantData (analysisResult user : value)
  : M (list event) ContextData :=
  intent0 <~ get analysisResult "intent" ;;
  let intent := or_else intent0 (JStr "general_query") in
  userRole <~ (if truthy user then get user "role" else Returned JNull) ;;
  userName <~ (if truthy user then get user "name" else Returned JNull) ;;
  time_period <~ get analysisResult "time_period" ;;
  let timeParams := time_params time_period in
  fun log =>
    let '(log', (data, _)) :=
      with_local []
        (try_catch (fetch_try analysisResult user intent timeParams)
                   (fun _ => ret tt)) log in
    (log', Returned {| intent := intent; data := data;
                       userRole := userRole; userName := userName |}).

(** [(await dbService.findFacultyAllocations(args)).length], as a value. *)
Definition allocation_count (args : value) : outcome value :=
  (found <~ findFacultyAllocations dbService args ;; get found "length")%outcome.

End Router.

Section Formatter.

(** [new Date(v).toLocaleDateString()]: the host's locale decides the text. *)
Variable toLocaleDateString : value -> string.

Local Open Scope outcome_scope.

(** [v && v.length > 0] *)
Definition non_empty (v : value) : outcome bool :=
  if truthy v then (n <~ get v "length" ;; Returned (gt_zero n))
  else Returned false.

(** [typeof ref === 'object' ? ref.name : ref], for a reference that is
    either a raw id or a populated record. *)
Definition name_or_id (ref : value) : outcome value :=
  if typeof_object ref then get ref "name" else Returned ref.

Definition render_exam (index : Z) (exam : value) : outcome string :=
  name <~ get exam "name" ;;
  year <~ get exam "year" ;;
  let head := cat ["Exam "; string_of_Z (index + 1); ": "; to_str name;
                   " ("; to_str year; ")"; nl] in
  semesters <~ get exam "semesters" ;;
  has_semesters <~ non_empty semesters ;;
  sems <~ (if has_semesters : bool then
             items <~ array_of "map" semesters ;;
             numbers <~ mapM (fun s => get s "semester") items ;;
             Returned (cat ["  Semesters: ";
                            join ", " (map join_item numbers); nl])
           else Returned "") ;;
  subjects <~ get exam "subjects" ;;
  has_subjects <~ non_empty subjects ;;
  subs <~ (if has_subjects : bool then
             count <~ get subjects "length" ;;
             sampleSubjects <~ slice0 3 subjects ;;
             items <~ array_of "map" sampleSubjects ;;
             names <~ mapM (fun s => n <~ get s "name" ;; Returned (or_else n s))
                        items ;;
             Returned (cat ["  Subjects: "; to_str count; " subjects"; nl;
                            "  Sample Subjects: ";
                            join ", " (map join_item names);
                            (if gt count 3 then "..." else ""); nl])
           else Returned "") ;;
  Returned (cat [head; sems; subs; nl]).

Definition render_subject (index : Z) (subject : value) : outcome string :=
  name <~ get subject "name" ;;
  subjectCode <~ get subject "subjectCode" ;;
  semester <~ get subject "semester" ;;
  date <~ get subject "date" ;;
  startTime <~ get subject "startTime" ;;
  endTime <~ get subject "endTime" ;;
  exam <~ get subject "exam" ;;
  exam_line <~ (if truthy exam then
                  label <~ name_or_id exam ;;
                  Returned (cat ["  Exam: "; to_str label; nl])
                else Returned "") ;;
  Returned (cat [
    "Subject "; string_of_Z (index + 1); ": "; to_str name;
    " ("; to_str subjectCode; ")"; nl;
    "  Semester: "; to_str semester; nl;
    (if truthy date then
       cat ["  Date: "; toLocaleDateString date; nl;
            "  Time: "; to_str (or_else startTime (JStr "N/A")); " - ";
            to_str (or_else endTime (JStr "N/A")); nl]
     else "");
    exam_line; nl]).

Definition render_room (index : Z) (room : value) : outcome string :=
  building <~ get room "building" ;;
  roomNumber <~ get room "roomNumber" ;;
  floor <~ get room "floor" ;;
  capacity <~ get room "capacity" ;;
  Returned (cat [
    "Room "; string_of_Z (index + 1); ": "; to_str building; " - ";
    to_str roomNumber; nl;
    "  Floor: "; to_str floor; ", Capacity: "; to_str capacity; nl; nl]).

Definition render_allocation (index : Z) (allocation : value) : outcome string :=
  named <~ get allocation "facultyName" ;;
  facultyId <~ get allocation "facultyId" ;;
  fallback <~ (if truthy facultyId && typeof_object facultyId
               then get facultyId "name" else Returned (JStr "Unknown")) ;;
  let facultyName := or_else named fallback in
  examId <~ get allocation "examId" ;;
  exam_line <~ (if truthy examId then
                  examName <~ name_or_id examId ;;
                  Returned (cat ["  Exam: "; to_str examName; nl])
                else Returned "") ;;
  subjectId <~ get allocation "subjectId" ;;
  subject_line <~ (if truthy subjectId then
                     subjectName <~ name_or_id subjectId ;;
                     code <~ (if typeof_object subjectId
                              then get subjectId "subjectCode"
                              else Returned JUndef) ;;
                     let subjectCode :=
                       if typeof_object subjectId && truthy code
                       then code else JStr "" in
                     Returned (cat ["  Subject: "; to_str subjectName;
                                    (if truthy subjectCode
                                     then cat [" ("; to_str subjectCode; ")"]
                                     else "");
                                    nl])
                   else Returned "") ;;
  roomId <~ get allocation "roomId" ;;
  room_line <~ (if truthy roomId then
                  building <~ (if typeof_object roomId
                               then get roomId "building"
                               else Returned (JStr "")) ;;
                  roomNumber <~ (if typeof_object roomId
                                 then get roomId "roomNumber"
                                 else Returned roomId) ;;
                  Returned (cat ["  Room: ";
                                 (if truthy building
                                  then cat [to_str building; " - "] else "");
                                 to_str roomNumber; nl])
                else Returned "") ;;
  date <~ get allocation "date" ;;
  startTime <~ get allocation "startTime" ;;
  endTime <~ get allocation "endTime" ;;
  Returned (cat [
    "Allocation "; string_of_Z (index + 1); ":"; nl;
    "  Faculty: "; to_str facultyName; nl;
    exam_line; subject_line; room_line;
    (if truthy date then
       cat ["  Date: "; toLocaleDateString date; nl;
            "  Time: "; to_str (or_else startTime (JStr "N/A")); " - ";
            to_str (or_else endTime (JStr "N/A")); nl]
     else "");
    nl]).

Definition render_student_allocation (index : Z) (allocation : value)
  : outcome string :=
  roomNumber <~ get allocation "roomNumber" ;;
  roomId <~ get allocation "roomId" ;;
  via_room <~ (if truthy roomId then get roomId "roomNumber"
               else Returned roomId) ;;
  let room := or_else (or_else roomNumber via_room) (JStr "Unknown") in
  examId <~ get allocation "examId" ;;
  exam_line <~ (if truthy examId then
                  examName <~ name_or_id examId ;;
                  Returned (cat ["  Exam: "; to_str examName; nl])
                else Returned "") ;;
  subjectId <~ get allocation "subjectId" ;;
  subjectIds <~ get allocation "subjectIds" ;;
  subject_line <~ (if truthy subjectId then
                     subjectName <~ name_or_id subjectId ;;
                     Returned (cat ["  Subject: "; to_str subjectName; nl])
                   else
                     several <~ non_empty subjectIds ;;
                     if several : bool then
                       items <~ array_of "map" subjectIds ;;
                       subjectNames <~ mapM name_or_id items ;;
                       Returned (cat ["  Subjects: ";
                                      join ", " (map join_item subjectNames);
                                      nl])
                     else Returned "") ;;
  date <~ get allocation "date" ;;
  students <~ get allocation "students" ;;
  count <~ (if truthy students then get students "length"
            else Returned (JNum 0)) ;;
  has_students <~ non_empty students ;;
  sample_line <~ (if has_students : bool then
                    sampleStudents <~ slice0 5 students ;;
                    items <~ array_of "join" sampleStudents ;;
                    n <~ get students "length" ;;
                    Returned (cat ["  Sample Students: ";
                                   join ", " (map join_item items);
                                   (if gt n 5 then "..." else ""); nl])
                  else Returned "") ;;
  Returned (cat [
    "Student Allocation "; string_of_Z (index + 1); ":"; nl;
    "  Room: "; to_str room; nl;
    exam_line; subject_line;
    (if truthy date then cat ["  Date: "; toLocaleDateString date; nl] else "");
    "  Students Count: "; to_str count; nl;
    sample_line; nl]).

Definition render_faculty (index : Z) (faculty : value) : outcome string :=
  name <~ get faculty "name" ;;
  email <~ get faculty "email" ;;
  designation <~ get faculty "designation" ;;
  available <~ get faculty "available" ;;
  Returned (cat [
    "Faculty "; string_of_Z (index + 1); ": "; to_str name; nl;
    "  Email: "; to_str (or_else email (JStr "Not provided")); nl;
    "  Designation: "; to_str (or_else designation (JStr "Not specified")); nl;
    "  Available: "; (if truthy available then "Yes" else "No"); nl; nl]).

Definition render_stats (data : value) : outcome string :=
  totalExams <~ get data "totalExams" ;;
  totalRooms <~ get data "totalRooms" ;;
  totalFaculty <~ get data "totalFaculty" ;;
  totalSubjects <~ get data "totalSubjects" ;;
  currentAllocations <~ get data "currentAllocations" ;;
  upcomingExams <~ get data "upcomingExams" ;;
  Returned (cat [
    "  Total Exams: "; to_str totalExams; nl;
    "  Total Rooms: "; to_str totalRooms; nl;
    "  Total Faculty: "; to_str totalFaculty; nl;
    "  Total Subjects: "; to_str totalSubjects; nl;
    "  Current Allocations: "; to_str currentAllocations; nl;
    "  Upcoming Exams: "; to_str upcomingExams; nl; nl]).

Definition render_faculty_stats (data : value) : outcome string :=
  totalAllocations <~ get data "totalAllocations" ;;
  upcomingAllocations <~ get data "upcomingAllocations" ;;
  pastAllocations <~ get data "pastAllocations" ;;
  Returned (cat [
    "  Total Allocations: "; to_str totalAllocations; nl;
    "  Upcoming Allocations: "; to_str upcomingAllocations; nl;
    "  Past Allocations: "; to_str pastAllocations; nl; nl]).

(** One group of [searchResults]: the count, then the first three entries. *)
Definition render_found (label : string) (entry : value -> outcome string)
    (found : value) : outcome string :=
  some <~ non_empty found ;;
  if some : bool then
    count <~ get found "length" ;;
    first <~ slice0 3 found ;;
    items <~ array_of "forEach" first ;;
    lines <~ mapM entry items ;;
    Returned (cat ["  "; label; " found: "; to_str count; nl; cat lines])
  else Returned "".

Definition render_search_results (data : value) : outcome string :=
  exams <~ get data "exams" ;;
  exams_text <~ render_found "Exams"
    (fun exam => name <~ get exam "name" ;; year <~ get exam "year" ;;
       Returned (cat ["    - "; to_str name; " ("; to_str year; ")"; nl]))
    exams ;;
  subjects <~ get data "subjects" ;;
  subjects_text <~ render_found "Subjects"
    (fun subject => name <~ get subject "name" ;;
       subjectCode <~ get subject "subjectCode" ;;
       Returned (cat ["    - "; to_str name; " ("; to_str subjectCode; ")"; nl]))
    subjects ;;
  rooms <~ get data "rooms" ;;
  rooms_text <~ render_found "Rooms"
    (fun room => building <~ get room "building" ;;
       roomNumber <~ get room "roomNumber" ;;
       Returned (cat ["    - "; to_str building; " - "; to_str roomNumber; nl]))
    rooms ;;
  faculty <~ get data "faculty" ;;
  faculty_text <~ render_found "Faculty"
    (fun faculty => name <~ get faculty "name" ;;
       email <~ get faculty "email" ;;
       Returned (cat ["    - "; to_str name; " ("; to_str email; ")"; nl]))
    faculty ;;
  Returned (cat [exams_text; subjects_text; rooms_text; faculty_text; nl]).

(** [data.forEach((record, index) => ...)] with one renderer. *)
Definition for_each (render : Z -> value -> outcome string) (data : value)
  : outcome string :=
  items <~ array_of "forEach" data ;;
  blocks <~ imapM 0 render items ;;
  Returned (cat blocks).

(** [Object.keys(v).length]: the indices of an array or string, the keys of
    an object, nothing for the other values. *)
Definition keys_count (v : value) : nat :=
  match v with
  | JArr items => length items
  | JObj props => length props
  | JStr s => String.length s
  | _ => O
  end.

(** The guard that skips a dataset:
    [!data || (Array.isArray(data) && data.length === 0) ||
     (typeof data === 'object' && Object.keys(data).length === 0)]. *)
Definition is_empty_dataset (data : value) : bool :=
  negb (truthy data)
  || (isArray data && (keys_count data =? 0)%nat)
  || (typeof_object data && (keys_count data =? 0)%nat).

(** The [if]/[else if] chain over [dataType]; a name that no branch tests
    gets nothing after its header. *)
Definition render_dataset (dataType : string) (data : value) : outcome string :=
  if String.eqb dataType "exams" then for_each render_exam data
  else if String.eqb dataType "subjects" then for_each render_subject data
  else if String.eqb dataType "rooms" then for_each render_room data
  else if String.eqb dataType "allocations" || String.eqb dataType "facultyExams"
          || String.eqb dataType "facultyRooms"
       then for_each render_allocation data
  else if String.eqb dataType "studentAllocations"
          || String.eqb dataType "roomAllocations"
          || String.eqb dataType "facultyRoomStudents"
       then for_each render_student_allocation data
  else if String.eqb dataType "faculty" then for_each render_faculty data
  else if String.eqb dataType "stats" then render_stats data
  else if String.eqb dataType "facultyStats" then render_faculty_stats data
  else if String.eqb dataType "searchResults" then render_search_results data
  else Returned "".

(** What one turn of [Object.keys(contextData.data).forEach] appends. *)
Definition format_dataset (entry : string * value) : outcome string :=
  let '(dataType, data) := entry in
  if is_empty_dataset data then Returned ""
  else
    body <~ render_dataset dataType data ;;
    Returned (cat [toUpperCase dataType; ":"; nl; body]).

Definition format_header (contextData : ContextData) : string :=
  cat ["CONTEXT INFORMATION FOR QUERY:"; nl;
       "Intent: "; to_str (intent contextData); nl;
       (if truthy (userRole contextData) then
          cat ["User Role: "; to_str (userRole contextData); nl;
               (if truthy (userName contextData) then
                  cat ["User Name: "; to_str (userName contextData); nl]
                else "")]
        else "");
       nl].

Definition formatContextData (contextData : ContextData) : outcome string :=
  sections <~ mapM format_dataset (data contextData) ;;
  Returned (format_header contextData +:+ cat sections).

End Formatter.

Section Generator.

(** [process.env.LM_STUDIO_API_URL || 'http://localhost:1234/v1'] and
    [process.env.LLM_MODEL_NAME || 'local-model'], as the constructor left
    them. *)
Variable LM_STUDIO_API_URL : string.
Variable MODEL_NAME : string.

(** [axios.post(url, body, {timeout})]: the response, or a rejection (no
    connection, timeout, a status outside 2xx). *)
Variable axios_post : ChatRequest -> outcome value.

(** [String.prototype.trim]. *)
Variable trim : string -> string.

(** [services/queryAnalyzerService]. *)
Variable analyzeQuery : value -> outcome value.

(** [String.prototype.toLowerCase], as in the router. *)
Variable toLowerCase : string -> string.

Variable dbService : DbService.
Variable toLocaleDateString : value -> string.

Local Open Scope eff_scope.

Definition guidelines : string :=
  cat [nl; nl;
    "Respond in a helpful, concise manner. Use the provided context information to answer the user's query accurately. If the context doesn't contain enough information to answer the query, politely indicate that you don't have that specific information.";
    nl; nl;
    "Important guidelines:"; nl;
    "1. Only provide information that's supported by the context data."; nl;
    "2. Don't make up information that's not in the context."; nl;
    "3. For dates and times, use the exact format provided in the context."; nl;
    "4. Keep responses clear and structured for easy understanding."; nl;
    "5. When listing multiple items, use numbered or bulleted lists for clarity."; nl;
    "6. If context shows no relevant data was found, politely tell the user that information isn't available.";
    nl; nl].

(** The role-dependent part of the system prompt. *)
Definition role_prompt (user : value) : outcome string :=
  (if truthy user then
     role <~ get user "role" ;;
     if is_str role "Admin" then
       Returned (cat [
         " You are speaking with an administrator who manages the exam system.";
         " You should provide comprehensive information about exams, rooms, faculty allocations, and student seating arrangements."])
     else if is_str role "Faculty" then
       name <~ get user "name" ;;
       Returned (cat [
         " You are speaking with a faculty member named "; to_str name; ".";
         " You should focus on information relevant to their exam duties, assigned rooms, and student allocations for their supervision.";
         " For faculty, prioritize information about their own allocations and duties."])
     else Returned ""
   else Returned "")%outcome.

Definition system_prompt (context : string) (user : value) : outcome string :=
  (by_role <~ role_prompt user ;;
   Returned (cat [
     "You are an intelligent assistant for a university exam management system.";
     by_role; guidelines; context]))%outcome.

Definition message_of (role : string) (content : value) : value :=
  JObj [("role", JStr role); ("content", content)].

(** The array [messages] as it stands when the request is posted. *)
Definition build_messages (systemPrompt : string) (query : value)
    (conversationHistory : list value) : list value :=
  let messages := [message_of "system" (JStr systemPrompt)] in
  let limitedHistory := slice_last CONVERSATION_HISTORY_LENGTH conversationHistory in
  let messages := messages ++ limitedHistory in
  messages ++ [message_of "user" query].

Definition chat_request (messages : list value) : ChatRequest :=
  {| url := LM_STUDIO_API_URL +:+ "/chat/completions";
     model := MODEL_NAME;
     messages := messages;
     temperature := 0.7%float;
     max_tokens := 800;
     timeout := 30000 |}.

(** The request posted for a given system prompt. *)
Definition request_sent (query : value) (prompt : string)
    (conversationHistory : list value) : ChatRequest :=
  chat_request (build_messages prompt query conversationHistory).

(** [response.data.choices[0].message.content.trim()] *)
Definition response_text (response : value) : outcome string :=
  (body <~ get response "data" ;;
   choices <~ get body "choices" ;;
   first <~ get_index choices 0 ;;
   msg <~ get first "message" ;;
   content <~ get msg "content" ;;
   text <~ string_of "trim" content ;;
   Returned (trim text))%outcome.

(** [generateResponse(query, context, conversationHistory, user = null)] *)
Definition generateResponse (query : value) (context : string)
    (conversationHistory : list value) (user : value) : M (list event) string :=
  try_catch
    (systemPrompt <~ system_prompt context user ;;
     let request := chat_request (build_messages systemPrompt query
                                    conversationHistory) in
     response <- (fun log => (log ++ [ChatCompletions request],
                              axios_post request)) ;;
     responseText <~ response_text response ;;
     ret responseText)
    (fun _ => ret generateResponse_apology).

(** [processQuery(query, conversationHistory = [], user = null)] *)
Definition processQuery (query : value) (conversationHistory : list value)
    (user : value) : M (list event) string :=
  try_catch
    (analysisResult <- (fun log => (log ++ [AnalyzeQuery query],
                                    analyzeQuery query)) ;;
     contextData <- fetchRelevantData toLowerCase dbService analysisResult
                      user ;;
     formattedContext <~ formatContextData toLocaleDateString contextData ;;
     response <- generateResponse query formattedContext conversationHistory
                   user ;;
     ret response)
    (fun _ => ret processQuery_apology).

End Generator.

End Controller.

(* ===================================================================== *)
(** * backend/routes/chatbotRoutes.js                                     *)
(* ===================================================================== *)

Module Routes.
Import JS Eff.

(** [metadata.type] of a document of the vector collection. *)
Inductive DocType : Type := type_exam | type_allocation | type_room_allocation.

Definition type_name (t : DocType) : string :=
  match t with
  | type_exam => "exam"
  | type_allocation => "allocation"
  | type_room_allocation => "room_allocation"
  end.

(** What [insertOne] receives.  [/cache-data] is the only writer of the
    collection, so these are its documents. *)
Record IndexedDocument : Type := {
  _id : string;
  content : string;
  embedding : value;
  type : DocType;
  metadata : list (string * value)     (* the other keys of [metadata] *)
}.

(** A search result: the document with its [$similarity]. *)
Record SearchHit : Type := {
  document : IndexedDocument;
  similarity : float
}.

Record ChatRequest : Type := {
  model : string;
  messages : list value;
  temperature : float;
  max_tokens : Z
}.

(** What the handlers send back. *)
Inductive Response : Type :=
| Cached (message : string)
    (* 200 [{success: true, message}] *)
| Answer (answer : value) (matchedResults : list DocType)
         (topSimilarity : option float)
    (* 200 [{success: true, answer, _debug: {matchedResults, topSimilarity}}] *)
| NoData (answer : string)
    (* 200 [{success: true, answer}] *)
| Failed (error : string).
    (* 500 [{success: false, error}] *)

Definition status (r : Response) : Z :=
  match r with Failed _ => 500 | _ => 200 end.

(** The calls that leave the router. *)
Inductive event : Type :=
| MongoFind (model : string)
| Embeddings (input : value)
| DeleteAll
| InsertOne (doc : IndexedDocument)
| VectorFind (vector : value) (limit : Z) (minSimilarity : float)
| ChatCompletions (request : ChatRequest).

(** The log of calls and the documents of [exam_embeddings]; [None] while
    [astraCollection] is still [undefined]. *)
Record World : Type := {
  log : list event;
  astraCollection : option (list IndexedDocument)
}.

Definition logged (e : event) (w : World) : World :=
  {| log := log w ++ [e]; astraCollection := astraCollection w |}.

Definition CHAT_MODEL : string := "llama-3.2-1b-instruct".

Section Summarizer.

(** [formatDate]: [new Date(date).toLocaleDateString('en-US', ...)], which
    depends on the host's time zone. *)
Variable formatDate : value -> string.

Local Open Scope outcome_scope.

Definition exam_subject_line (s : value) : outcome string :=
  name <~ get s "name" ;;
  subjectCode <~ get s "subjectCode" ;;
  date <~ get s "date" ;;
  startTime <~ get s "startTime" ;;
  endTime <~ get s "endTime" ;;
  Returned (cat [to_str name; " ("; to_str subjectCode; ") on ";
                 formatDate date; " "; to_str startTime; "-"; to_str endTime]).

Definition exam_faculty_line (f : value) : outcome string :=
  name <~ get f "name" ;;
  designation <~ get f "designation" ;;
  Returned (cat [to_str name; " ("; to_str designation; ")"]).

Definition exam_room_line (r : value) : outcome string :=
  building <~ get r "building" ;;
  roomNumber <~ get r "roomNumber" ;;
  capacity <~ get r "capacity" ;;
  Returned (cat [to_str building; " Room "; to_str roomNumber;
                 " (Capacity: "; to_str capacity; ")"]).

Definition exam_semester_item (s : value) : outcome string :=
  semester <~ get s "semester" ;;
  totalStudents <~ get s "totalStudents" ;;
  Returned (cat ["Sem "; to_str semester; " ("; to_str totalStudents;
                 " students)"]).

Definition item_separator : string := nl +:+ "  - ".

Definition buildExamText (exam : value) (subjects faculties rooms : list value)
  : outcome string :=
  subjectLines <~ mapM exam_subject_line subjects ;;
  let subjectList := join item_separator subjectLines in
  facultyLines <~ mapM exam_faculty_line faculties ;;
  let facultyList := join item_separator facultyLines in
  roomLines <~ mapM exam_room_line rooms ;;
  let roomList := join item_separator roomLines in
  name <~ get exam "name" ;;
  year <~ get exam "year" ;;
  semesters <~ get exam "semesters" ;;
  items <~ array_of "map" semesters ;;
  semesterItems <~ mapM exam_semester_item items ;;
  Returned (cat [
    "Exam: "; to_str name; " (Year: "; to_str year; ")"; nl;
    "- Semesters: "; join ", " semesterItems; nl;
    "- Subjects:"; nl;
    "  - "; subjectList; nl;
    "- Faculties:"; nl;
    "  - "; facultyList; nl;
    "- Rooms:"; nl;
    "  - "; roomList]).

Definition buildAllocationText (alloc exam subject room faculty : value)
  : outcome string :=
  examName <~ get exam "name" ;;
  facultyName <~ get faculty "name" ;;
  designation <~ get faculty "designation" ;;
  subjectName <~ get subject "name" ;;
  semester <~ get subject "semester" ;;
  building <~ get room "building" ;;
  roomNumber <~ get room "roomNumber" ;;
  date <~ get alloc "date" ;;
  startTime <~ get alloc "startTime" ;;
  endTime <~ get alloc "endTime" ;;
  Returned (cat [
    "Allocation for "; to_str examName; ":"; nl;
    "- Faculty: "; to_str facultyName; " ("; to_str designation; ")"; nl;
    "- Subject: "; to_str subjectName; " (Sem "; to_str semester; ")"; nl;
    "- Room: "; to_str building; " Room "; to_str roomNumber; nl;
    "- Date: "; formatDate date; nl;
    "- Time: "; to_str startTime; " to "; to_str endTime]).

Definition room_subject_item (s : value) : outcome string :=
  name <~ get s "name" ;;
  semester <~ get s "semester" ;;
  Returned (cat [to_str name; " (Sem "; to_str semester; ")"]).

Definition buildRoomAllocationText (roomAlloc exam room : value)
    (subjects : list value) : outcome string :=
  subjectList <~ (if (0 <? length subjects)%nat then
                    items <~ mapM room_subject_item subjects ;;
                    Returned (join " and " items)
                  else Returned "No subjects specified") ;;
  examName <~ get exam "name" ;;
  building <~ get room "building" ;;
  roomNumber <~ get room "roomNumber" ;;
  capacity <~ get room "capacity" ;;
  students <~ get roomAlloc "students" ;;
  count <~ get students "length" ;;
  date <~ get roomAlloc "date" ;;
  startTime <~ get roomAlloc "startTime" ;;
  endTime <~ get roomAlloc "endTime" ;;
  Returned (cat [
    "Room Allocation for "; to_str examName; ":"; nl;
    "- Room: "; to_str building; " Room "; to_str roomNumber;
    " (Capacity: "; to_str capacity; ")"; nl;
    "- Subjects: "; subjectList; nl;
    "- Students: "; to_str count; " students"; nl;
    "- Date: "; formatDate date; nl;
    "- Time: "; to_str startTime; " to "; to_str endTime]).

End Summarizer.

Section Handlers.

Variable formatDate : value -> string.

(** [axios.post(LLAMA_API_URL + '/embeddings', {input, model})]. *)
Variable embeddings_post : value -> outcome value.

(** The vector store: what [deleteAll], [insertOne] and
    [find(...).toArray()] resolve to. *)
Variable deleteAll_result : outcome value.
Variable insertOne_result : IndexedDocument -> outcome value.
Variable find_result : value -> outcome (list SearchHit).

(** [axios.post(LLAMA_API_URL + '/chat/completions', request)]. *)
Variable chat_post : ChatRequest -> outcome value.

(** The Mongoose queries of [/cache-data], populated and lean. *)
Variable Exam_find Room_find Subject_find Allocation_find
         RoomAllocation_find Faculty_find : outcome (list value).

Local Open Scope eff_scope.

Definition call {A} (e : event) (result : outcome A) : M World A :=
  fun w => (logged e w, result).

(** [response.data.data[0].embedding] *)
Definition embedding_of (response : value) : outcome value :=
  (body <~ get response "data" ;;
   items <~ get body "data" ;;
   first <~ get_index items 0 ;;
   get first "embedding")%outcome.

(** [getEmbedding(text)] *)
Definition getEmbedding (text : value) : M World value :=
  try_catch
    (response <- call (Embeddings text) (embeddings_post text) ;;
     vector <~ embedding_of response ;;
     ret vector)
    (fun _ => throw (Error "Failed to generate embeddings")).

(** [astraCollection.insertOne(doc)]: the document is in the collection once
    the call resolves. *)
Definition insertOne (doc : IndexedDocument) : M World value :=
  fun w =>
    match insertOne_result doc with
    | Returned v =>
        ({| log := log w ++ [InsertOne doc];
            astraCollection := (fun docs => docs ++ [doc]) <$> astraCollection w |},
         Returned v)
    | Thrown e => (logged (InsertOne doc) w, Thrown e)
    end.

(** [astraCollection.deleteAll()] *)
Definition deleteAll : M World value :=
  fun w =>
    match deleteAll_result with
    | Returned v =>
        ({| log := log w ++ [DeleteAll];
            astraCollection := (fun _ => []) <$> astraCollection w |},
         Returned v)
    | Thrown e => (logged DeleteAll w, Thrown e)
    end.

(** [r._id.toString()] *)
Definition id_string (r : value) : outcome string :=
  (id <~ get r "_id" ;; toString id)%outcome.

(** [new Map(records.map(r => [r._id.toString(), r]))]: a later record
    replaces an earlier one of the same key. *)
Definition by_id (records : list value) : outcome (gmap string value) :=
  (keys <~ mapM id_string records ;;
   Returned (foldl (fun m entry => <[fst entry := snd entry]> m) ∅
                   (zip keys records)))%outcome.

(** [map.get(k)] *)
Definition map_get (m : gmap string value) (k : string) : value :=
  default JUndef (m !! k).

(** [ids.map(id => map.get(id.toString())).filter(Boolean)] *)
Definition resolve_all (m : gmap string value) (ids : list value)
  : outcome (list value) :=
  (found <~ mapM (fun id => k <~ toString id ;; Returned (map_get m k)) ids ;;
   Returned (List.filter truthy found))%outcome.

(** [record.ref._id.toString()] *)
Definition ref_id (record : value) (ref : string) : outcome string :=
  (target <~ get record ref ;; id_string target)%outcome.

(** [`${r.startTime}-${r.endTime}`] *)
Definition time_span (r : value) : outcome value :=
  (startTime <~ get r "startTime" ;;
   endTime <~ get r "endTime" ;;
   Returned (JStr (cat [to_str startTime; "-"; to_str endTime])))%outcome.

(** What an [async] callback has in hand when it reaches its [await]:
    nothing when it returned [null] before, else the content to embed and
    the rest of the document, to be built once the vector is there. *)
Definition Prepared : Type :=
  option (string * (value -> outcome IndexedDocument)).

(** From the [await getEmbedding(content)] on: the vector, the rest of the
    object literal, [insertOne]. *)
Definition index_document (prepared : outcome Prepared) : M World value :=
  ready <~ prepared ;;
  match ready with
  | None => ret JNull
  | Some (content, build) =>
      vector <- getEmbedding (JStr content) ;;
      doc <~ build vector ;;
      insertOne doc
  end.

Local Open Scope outcome_scope.

(** [exams.map(async exam => ...)] *)
Definition prepare_exam (subjects : list value)
    (facultyMap roomMap : gmap string value) (exam : value) : outcome Prepared :=
  examSubjects <~ filterM (fun s => of_exam <~ ref_id s "exam" ;;
                                    this <~ id_string exam ;;
                                    Returned (String.eqb of_exam this))
                          subjects ;;
  faculty <~ get exam "faculty" ;;
  facultyIds <~ array_of "map" faculty ;;
  examFaculties <~ resolve_all facultyMap facultyIds ;;
  rooms <~ get exam "rooms" ;;
  roomIds <~ array_of "map" rooms ;;
  examRooms <~ resolve_all roomMap roomIds ;;
  content <~ buildExamText formatDate exam examSubjects examFaculties examRooms ;;
  id <~ get exam "_id" ;;
  Returned (Some (content, fun vector =>
    examId <~ id_string exam ;;
    name <~ get exam "name" ;;
    year <~ get exam "year" ;;
    semesters <~ get exam "semesters" ;;
    items <~ array_of "map" semesters ;;
    numbers <~ mapM (fun s => get s "semester") items ;;
    Returned {| _id := "exam_" +:+ to_str id;
                content := content;
                embedding := vector;
                type := type_exam;
                metadata := [("examId", JStr examId); ("name", name);
                             ("year", year); ("semesters", JArr numbers)] |})).

(** [allocations.map(async alloc => ...)] *)
Definition prepare_alloc (examMap subjectMap roomMap facultyMap : gmap string value)
    (alloc : value) : outcome Prepared :=
  examKey <~ ref_id alloc "examId" ;;
  let exam := map_get examMap examKey in
  subjectKey <~ ref_id alloc "subjectId" ;;
  let subject := map_get subjectMap subjectKey in
  roomKey <~ ref_id alloc "roomId" ;;
  let room := map_get roomMap roomKey in
  facultyKey <~ ref_id alloc "facultyId" ;;
  let faculty := map_get facultyMap facultyKey in
  if negb (truthy exam) || negb (truthy subject) || negb (truthy room)
     || negb (truthy faculty)
  then Returned None
  else
    content <~ buildAllocationText formatDate alloc exam subject room faculty ;;
    id <~ get alloc "_id" ;;
    Returned (Some (content, fun vector =>
      allocationId <~ id_string alloc ;;
      examId <~ id_string exam ;;
      subjectId <~ id_string subject ;;
      roomId <~ id_string room ;;
      facultyId <~ id_string faculty ;;
      date <~ get alloc "date" ;;
      time <~ time_span alloc ;;
      Returned {| _id := "alloc_" +:+ to_str id;
                  content := content;
                  embedding := vector;
                  type := type_allocation;
                  metadata := [("allocationId", JStr allocationId);
                               ("examId", JStr examId);
                               ("subjectId", JStr subjectId);
                               ("roomId", JStr roomId);
                               ("facultyId", JStr facultyId);
                               ("date", date); ("time", time)] |})).

(** [roomAllocations.map(async roomAlloc => ...)] *)
Definition prepare_room_alloc (examMap roomMap subjectMap : gmap string value)
    (roomAlloc : value) : outcome Prepared :=
  examKey <~ ref_id roomAlloc "examId" ;;
  let exam := map_get examMap examKey in
  roomKey <~ ref_id roomAlloc "roomId" ;;
  let room := map_get roomMap roomKey in
  subjectId <~ get roomAlloc "subjectId" ;;
  subjectIds <~ (if truthy subjectId
                 then (k <~ id_string subjectId ;; Returned [k])
                 else (several <~ get roomAlloc "subjectIds" ;;
                       items <~ array_of "map" several ;;
                       mapM id_string items)) ;;
  let roomSubjects := List.filter truthy (map (map_get subjectMap) subjectIds) in
  if negb (truthy exam) || negb (truthy room)
     || (length roomSubjects =? 0)%nat
  then Returned None
  else
    content <~ buildRoomAllocationText formatDate roomAlloc exam room
                 roomSubjects ;;
    id <~ get roomAlloc "_id" ;;
    Returned (Some (content, fun vector =>
      roomAllocationId <~ id_string roomAlloc ;;
      examId <~ id_string exam ;;
      roomId <~ id_string room ;;
      subjectKeys <~ mapM id_string roomSubjects ;;
      students <~ get roomAlloc "students" ;;
      studentCount <~ get students "length" ;;
      date <~ get roomAlloc "date" ;;
      time <~ time_span roomAlloc ;;
      Returned {| _id := "roomalloc_" +:+ to_str id;
                  content := content;
                  embedding := vector;
                  type := type_room_allocation;
                  metadata := [("roomAllocationId", JStr roomAllocationId);
                               ("examId", JStr examId);
                               ("roomId", JStr roomId);
                               ("subjectIds", JArr (map JStr subjectKeys));
                               ("studentCount", studentCount);
                               ("date", date); ("time", time)] |})).

Local Open Scope eff_scope.

(** The callbacks are all started by [map], each up to its first [await],
    and each then runs to its end whatever becomes of the others;
    [.filter(Boolean)] keeps every one of them, a promise being truthy.
    The event loop may interleave them in any order.  The tasks are settled
    here one after the other in array order, which is one of these
    schedules, and the world given is the one reached when every task has
    settled.  Under another schedule the calls are logged and the documents
    inserted in another order; which tasks reject and which documents are
    in the collection in the end is the same, the services answering by the
    request alone. *)
Fixpoint settle_all {A} (tasks : list (M World A)) (w : World)
  : World * list (outcome A) :=
  match tasks with
  | [] => (w, [])
  | task :: rest =>
      let '(w1, r) := task w in
      let '(w2, rs) := settle_all rest w1 in
      (w2, r :: rs)
  end.

(** [await Promise.all(promises)]: the values when all are fulfilled, else a
    rejection.  With one task rejecting it is that task's error.  With
    several, the code has the error of the task that rejects first in time,
    and answers while the others are still running; the schedule taken here
    makes it the first one in array order, and the world is the one after
    the others have settled too. *)
Definition promise_all {A} (tasks : list (M World A)) : M World (list A) :=
  fun w => let '(w', settled) := settle_all tasks w in (w', mapM id settled).

(** A promise that has been started and is awaited later, with others. *)
Definition settled {A} (task : M World A) : M World (outcome A) :=
  fun w => let '(w', r) := task w in (w', Returned r).

Definition find_all (model : string) (result : outcome (list value))
  : M World (list value) :=
  call (MongoFind model) result.

Definition lengths_message (exams allocations roomAllocations : list value)
  : string :=
  cat ["Data cached successfully: ";
       string_of_Z (Z.of_nat (length exams)); " exams, ";
       string_of_Z (Z.of_nat (length allocations)); " allocations, ";
       string_of_Z (Z.of_nat (length roomAllocations)); " room allocations"].

(** The lookup maps, then the promises
    [[...examInserts, ...allocInserts, ...roomAllocInserts]]. *)
Definition rebuild_tasks
    (exams rooms subjects allocations roomAllocations faculties : list value)
  : outcome (list (M World value)) :=
  (examMap <~ by_id exams ;;
   roomMap <~ by_id rooms ;;
   subjectMap <~ by_id subjects ;;
   facultyMap <~ by_id faculties ;;
   let examInserts :=
     map (fun exam => index_document
                        (prepare_exam subjects facultyMap roomMap exam))
         exams in
   let allocInserts :=
     map (fun alloc => index_document
                         (prepare_alloc examMap subjectMap roomMap facultyMap
                            alloc))
         allocations in
   let roomAllocInserts :=
     map (fun roomAlloc => index_document
                             (prepare_room_alloc examMap roomMap subjectMap
                                roomAlloc))
         roomAllocations in
   Returned (examInserts ++ allocInserts ++ roomAllocInserts))%outcome.

(** The world once the collection is emptied and the six queries are out. *)
Definition sweep_started (w : World) : World :=
  {| log := log w ++ [DeleteAll; MongoFind "Exam"; MongoFind "Room";
                      MongoFind "Subject"; MongoFind "Allocation";
                      MongoFind "RoomAllocation"; MongoFind "User"];
     astraCollection := Some [] |}.

(** The [try] block of [POST /cache-data]. *)
Definition cache_data_try : M World string :=
  ready <- (fun w => (w, Returned (match astraCollection w with
                                   | Some _ => true
                                   | None => false
                                   end))) ;;
  if negb ready then throw (Error "Database not ready")
  else
    deleteAll ;;;
    exams' <- settled (find_all "Exam" Exam_find) ;;
    rooms' <- settled (find_all "Room" Room_find) ;;
    subjects' <- settled (find_all "Subject" Subject_find) ;;
    allocations' <- settled (find_all "Allocation" Allocation_find) ;;
    roomAllocations' <- settled (find_all "RoomAllocation" RoomAllocation_find) ;;
    faculties' <- settled (find_all "User" Faculty_find) ;;
    exams <~ exams' ;;
    rooms <~ rooms' ;;
    subjects <~ subjects' ;;
    allocations <~ allocations' ;;
    roomAllocations <~ roomAllocations' ;;
    faculties <~ faculties' ;;
    tasks <~ rebuild_tasks exams rooms subjects allocations roomAllocations
               faculties ;;
    promise_all tasks ;;;
    ret (lengths_message exams allocations roomAllocations).

(** [router.post('/cache-data', ...)], past the admin check. *)
Definition cache_data (w : World) : World * Response :=
  match cache_data_try w with
  | (w', Returned message) => (w', Cached message)
  | (w', Thrown err) => (w', Failed ("Cache failed: " +:+ JS.message err))
  end.

Definition relevance_threshold : float := 0.3%float.

(** [results.filter(r => r.$similarity >= 0.3)] *)
Definition relevant (results : list SearchHit) : list SearchHit :=
  List.filter (fun r => PrimFloat.leb relevance_threshold (similarity r)) results.

(** The contents the [switch] on [result.metadata.type] pushes into the
    array of one [case]. *)
Definition contexts_of (case : string) (results : list SearchHit) : list string :=
  map (fun r => content (document r))
      (List.filter (fun r => String.eqb (type_name (type (document r))) case)
                   results).

Definition section (title : string) (contexts : list string) : string :=
  if (0 <? length contexts)%nat
  then cat [title; nl; join (nl +:+ nl) contexts; nl; nl]
  else "".

Definition build_context (relevantResults : list SearchHit) : string :=
  cat ["Exam System Information:"; nl; nl;
       section "EXAMS:" (contexts_of "exam" relevantResults);
       section "FACULTY ALLOCATIONS:" (contexts_of "allocation" relevantResults);
       section "ROOM ALLOCATIONS:"
               (contexts_of "room_allocation" relevantResults)].

Definition admin_system_prompt (context : string) : string :=
  cat ["You are an exam administration assistant. Strictly use ONLY the following information.";
       nl;
       "If data is missing, respond with "; dq; "No data available"; dq; "."; nl;
       nl;
       "RULES:"; nl;
       "1. Be specific about dates, times, rooms, and faculty"; nl;
       "2. For student counts, provide exact numbers"; nl;
       "3. For room allocations, mention building and room number"; nl;
       "4. Never invent information"; nl;
       nl;
       context].

Definition admin_request (context : string) (query : value) : ChatRequest :=
  {| model := CHAT_MODEL;
     messages := [JObj [("role", JStr "system");
                        ("content", JStr (admin_system_prompt context))];
                  JObj [("role", JStr "user"); ("content", query)]];
     temperature := 0.1%float;
     max_tokens := 600 |}.

Definition no_relevant_data : string :=
  "No relevant exam data available for this query.".

(** [astraCollection.find({}, {sort: {$vector}, limit: 7,
    includeSimilarity: true, minSimilarity: 0.25})] and [.toArray()]. *)
Definition vector_search (queryEmbedding : value) : M World (list SearchHit) :=
  fun w =>
    match astraCollection w with
    | None => (w, Thrown (cannot_read JUndef "find"))
    | Some _ =>
        (logged (VectorFind queryEmbedding 7 0.25%float) w,
         find_result queryEmbedding)
    end.

(** [const { k } = v] *)
Definition destructure (v : value) (k : string) : outcome value :=
  match v with
  | JUndef | JNull =>
      Thrown (TypeError (cat ["Cannot destructure property '"; k;
                              "' of 'req.body' as it is ";
                              describe_nullish v; "."]))
  | _ => get v k
  end.

(** [response.data.choices[0].message.content] *)
Definition answer_of (response : value) : outcome value :=
  (data <~ get response "data" ;;
   choices <~ get data "choices" ;;
   first <~ get_index choices 0 ;;
   msg <~ get first "message" ;;
   get msg "content")%outcome.

(** The [try] block of [POST /admin], given [req.body]. *)
Definition admin_try (body : value) : M World Response :=
  query <~ destructure body "query" ;;
  if negb (truthy query) then throw (Error "Query is required")
  else
    queryEmbedding <- getEmbedding query ;;
    results <- vector_search queryEmbedding ;;
    let relevantResults := relevant results in
    if (length relevantResults =? 0)%nat then ret (NoData no_relevant_data)
    else
      let context := build_context relevantResults in
      let request := admin_request context query in
      response <- call (ChatCompletions request) (chat_post request) ;;
      answer <~ answer_of response ;;
      ret (Answer answer
                  (map (fun r => type (document r)) relevantResults)
                  (similarity <$> head relevantResults)).

(** [router.post('/admin', ...)], past the admin check. *)
Definition admin (body : value) (w : World) : World * Response :=
  match admin_try body w with
  | (w', Returned response) => (w', response)
  | (w', Thrown err) => (w', Failed ("Chatbot failed: " +:+ JS.message err))
  end.

End Handlers.

End Routes.

(* ===================================================================== *)
(** * backend/controllers/chatbot.js                                      *)
(* ===================================================================== *)

Module Chatbot.
Import JS Eff.

(** LangChain's message classes. *)
Inductive Message : Type :=
| SystemMessage (content : value)
| HumanMessage (content : value)
| AIMessage (content : value).

(** The calls that leave the module. *)
Inductive event : Type :=
| KbInitialize
| KbQuery (userInput : value)
| ModelInvoke (messages : list Message)
| AddMessage (sessionId : value) (role : string) (content userId : value).

Definition system_text : string :=
  cat ["You are a helpful assistant for an Exam Allocation System."; nl;
       "    "; nl;
       "    Your role is to help users with information about exams, room allocations, faculty assignments, and other related queries."; nl;
       "    "; nl;
       "    For faculty users, you can provide information about their current, past, and future exam invigilation duties."; nl;
       "    "; nl;
       "    For admin users, you can help with information about room capacities, faculty availability, and allocation status."; nl;
       "    "; nl;
       "    When answering questions, try to be specific and use the context provided. If you don't have the information, politely say so."; nl;
       "    "; nl;
       "    Always be professional and helpful."].

Definition createSystemMessage : Message := SystemMessage (JStr system_text).

Section Chatbot.

(** [String.prototype.trim]. *)
Variable trim : string -> string.

(** [process.env.GROQ_API_KEY]. *)
Variable GROQ_API_KEY : value.

(** [services/knowledgeBase]: its [vectorStore] field when the request
    arrives, and what [initialize()] and [query(text)] resolve to. *)
Variable vectorStore : value.
Variable kb_initialize : outcome value.
Variable kb_query : value -> outcome value.

(** [formatDocumentsAsString] of [langchain/util/document]. *)
Variable formatDocumentsAsString : value -> outcome string.

(** [model.invoke(messages)] and [conversationService.addMessage(...)]. *)
Variable invoke : list Message -> outcome value.
Variable addMessage : value -> string -> value -> value -> outcome value.

Local Open Scope eff_scope.

Definition call {A} (e : event) (result : outcome A) : M (list event) A :=
  fun log => (log ++ [e], result).

(** [initChatModel()]: the model handle, which [invoke] stands for. *)
Definition initChatModel : outcome unit :=
  if negb (truthy GROQ_API_KEY)
  then Thrown (Error "GROQ_API_KEY environment variable is not set")
  else Returned tt.

(** [!message || typeof message !== 'string' || message.trim() === ''] *)
Definition invalid_message (message : value) : bool :=
  negb (truthy message) || negb (typeof_string message)
  || match message with
     | JStr s => String.eqb (trim s) ""
     | _ => false
     end.

Definition validateMessage (message : value) : outcome bool :=
  if invalid_message message then Thrown (Error "Invalid message format")
  else Returned true.

(** The predicate of the [filter] in [validateChatHistory]. *)
Definition valid_entry (msg : value) : bool :=
  truthy msg && typeof_object msg
  && match get msg "role" with
     | Returned role => is_str role "user" || is_str role "assistant"
     | Thrown _ => false
     end
  && match get msg "content" with
     | Returned content => typeof_string content
     | Thrown _ => false
     end.

Definition validateChatHistory (chatHistory : value) : list value :=
  match chatHistory with
  | JArr entries => List.filter valid_entry entries
  | _ => []
  end.

(** The loop that turns the validated history into LangChain messages. *)
Fixpoint history_messages (validatedHistory : list value) : outcome (list Message) :=
  match validatedHistory with
  | [] => Returned []
  | message :: rest =>
      (role <~ get message "role" ;;
       content <~ get message "content" ;;
       others <~ history_messages rest ;;
       Returned (if is_str role "user" then HumanMessage content :: others
                 else if is_str role "assistant" then AIMessage content :: others
                 else others))%outcome
  end.

Definition context_message (context : string) : Message :=
  SystemMessage (JStr (cat [
    "Here is some relevant information that might help answer the user's question:";
    nl; context])).

(** [generateResponse(userInput, chatHistory = [], sessionId = null,
    userId = null)]; its [catch] logs the error and throws it again. *)
Definition generateResponse (userInput chatHistory sessionId userId : value)
  : M (list event) value :=
  try_catch
    (_ <~ validateMessage userInput ;;
     let validatedHistory := validateChatHistory chatHistory in
     when (negb (truthy vectorStore))
       (call KbInitialize kb_initialize ;;; ret tt) ;;;
     relevantDocs <- call (KbQuery userInput) (kb_query userInput) ;;
     context <~ formatDocumentsAsString relevantDocs ;;
     let messages := [createSystemMessage] in
     let messages := if negb (String.eqb context "")
                     then messages ++ [context_message context]
                     else messages in
     past <~ history_messages validatedHistory ;;
     let messages := messages ++ past ++ [HumanMessage userInput] in
     _ <~ initChatModel ;;
     response <- call (ModelInvoke messages) (invoke messages) ;;
     responseContent <~ get response "content" ;;
     when (truthy sessionId)
       (call (AddMessage sessionId "user" userInput userId)
             (addMessage sessionId "user" userInput userId) ;;;
        call (AddMessage sessionId "assistant" responseContent userId)
             (addMessage sessionId "assistant" responseContent userId) ;;;
        ret tt) ;;;
     ret responseContent)
    (fun error => throw error).

End Chatbot.

End Chatbot.

(* ===================================================================== *)
(** * backend/routes/chatbotRoutes.js: the start of the service           *)
(* ===================================================================== *)

Module Startup.
Import JS Eff.

(** The calls [initializeServices] makes. *)
Inductive event : Type :=
| Connect
| DropCollection (name : string)
| CreateCollection (name : string) (dimension : Z) (metric : string).

(** The log of these calls, beside the world of the router. *)
Definition W : Type := (list event * Routes.World)%type.

Section Startup.

(** [new DataAPIClient(ASTRA_DB_TOKEN)] with [astraClient.db(url, {namespace})]:
    the handle, or what the client throws on its configuration. *)
Variable connect_result : outcome value.

(** What [db.dropCollection] resolves to. *)
Variable dropCollection_result : outcome value.

(** [db.createCollection] resolves to the collection, known here by the
    documents it holds. *)
Variable createCollection_result : outcome (list Routes.IndexedDocument).

Local Open Scope eff_scope.

Definition call {A} (e : event) (result : outcome A) : M W A :=
  fun w => ((fst w ++ [e], snd w), result).

(** [astraCollection = collection] *)
Definition set_collection (docs : list Routes.IndexedDocument) : M W unit :=
  fun w => ((fst w, {| Routes.log := Routes.log (snd w);
                       Routes.astraCollection := Some docs |}),
            Returned tt).

(** [initializeServices()]: the inner [catch] reads the message of the error
    (errors are [Error] objects here) and only decides what is written to
    the console; the outer one logs the error and throws it again. *)
Definition initializeServices : M W unit :=
  try_catch
    (call Connect connect_result ;;;
     try_catch
       (call (DropCollection "exam_embeddings") dropCollection_result ;;;
        ret tt)
       (fun _ => ret tt) ;;;
     collection <- call (CreateCollection "exam_embeddings" 768 "cosine")
                     createCollection_result ;;
     set_collection collection)
    (fun err => throw err).

(** The call at the end of the module:
    [initializeServices().catch(err => console.error(...))]. *)
Definition startup : M W unit :=
  try_catch initializeServices (fun _ => ret tt).

End Startup.

End Startup.

(* ===================================================================== *)
(** * Readings of the code, for the statements below                      *)
(* ===================================================================== *)

Module Views.
Import JS Eff.

(** The intents the [switch] of [fetchRelevantData] has a [case] for. *)
Definition handled_intents : list string :=
  ["exam_info"; "faculty_allocation"; "room_info"; "student_allocation";
   "faculty_info"; "system_stats"].

Definition handled (intent : value) : bool :=
  existsb (is_str intent) handled_intents.

(** The keys [fetchRelevantData] stores under in the cases that get as far
    as a lookup. *)
Definition router_keys : list string :=
  ["exams"; "subjects"; "facultyExams"; "allocations"; "faculty"; "rooms";
   "roomAllocations"; "facultyRoomAllocations"; "facultyRooms";
   "studentAllocations"; "facultyRoomStudents"; "stats"; "facultyStats"].

Definition known_keys (data : list (string * value)) : Prop :=
  Forall (fun entry => In (fst entry) router_keys) data.

(** A step of the router that stores under these keys only. *)
Definition keeps_keys {A} (m : M Controller.W A) : Prop :=
  forall w, known_keys (snd w) -> known_keys (snd (fst (m w))).

(** A value with nothing in it, in the words of the specification: a falsy
    value, an empty list or an empty object. *)
Definition nothing_in (v : value) : bool :=
  match v with
  | JUndef | JNull | JBool false | JArr [] | JObj [] => true
  | JNum n => n =? 0
  | JStr s => match s with EmptyString => true | String _ _ => false end
  | _ => false
  end.

(** The datasets of a bundle that have something in them. *)
Definition with_something (data : list (string * value))
  : list (string * value) :=
  List.filter (fun entry => negb (nothing_in (snd entry))) data.

(** A history entry as the specification wants it: an object with [role]
    the text [user] or [assistant] and [content] a text. *)
Definition well_formed_entry (entry : value) : bool :=
  match entry with
  | JObj props =>
      match assoc "role" props, assoc "content" props with
      | Some (JStr role), Some (JStr _) =>
          String.eqb role "user" || String.eqb role "assistant"
      | _, _ => false
      end
  | _ => false
  end.

(** A history as it is used: nothing of one that is not an array, else the
    well-formed entries in their order. *)
Definition sanitized (chatHistory : value) : list value :=
  match chatHistory with
  | JArr entries => List.filter well_formed_entry entries
  | _ => []
  end.

Definition same_type (a b : Routes.DocType) : bool :=
  match a, b with
  | Routes.type_exam, Routes.type_exam
  | Routes.type_allocation, Routes.type_allocation
  | Routes.type_room_allocation, Routes.type_room_allocation => true
  | _, _ => false
  end.

(** The contents of the results of one type, in the order of the results. *)
Definition contents_of_type (t : Routes.DocType)
    (results : list Routes.SearchHit) : list string :=
  map (fun r => Routes.content (Routes.document r))
      (List.filter (fun r => same_type (Routes.type (Routes.document r)) t)
                   results).

(** One group of the context: nothing when it has no item, else its title
    on a line, the items a blank line apart, and a blank line. *)
Definition titled_group (title : string) (items : list string) : string :=
  match items with
  | [] => ""
  | _ => title +:+ nl +:+ join (nl +:+ nl) items +:+ nl +:+ nl
  end.

(** The context of [POST /admin], as the specification has it: the results
    grouped by type, exams first, then faculty allocations, then room
    allocations. *)
Definition grouped_context (kept : list Routes.SearchHit) : string :=
  "Exam System Information:" +:+ nl +:+ nl
  +:+ titled_group "EXAMS:" (contents_of_type Routes.type_exam kept)
  +:+ titled_group "FACULTY ALLOCATIONS:"
        (contents_of_type Routes.type_allocation kept)
  +:+ titled_group "ROOM ALLOCATIONS:"
        (contents_of_type Routes.type_room_allocation kept).


(** [s.name || s]: how the formatter names a subject of an exam, a
    populated record or a raw id. *)
Definition subject_label (s : value) : value :=
  or_else (Controller.slot s "name") s.

(** The LangChain message a valid history entry becomes. *)
Definition to_message (entry : value) : Chatbot.Message :=
  if is_str (Controller.slot entry "role") "user"
  then Chatbot.HumanMessage (Controller.slot entry "content")
  else Chatbot.AIMessage (Controller.slot entry "content").

(** The messages [generateResponse] of [chatbot.js] hands to the model: the
    system message, the context message when there is context, the history
    entries that are valid, the user's message. *)
Definition prompt_messages (context : string) (chatHistory userInput : value)
  : list Chatbot.Message :=
  ([Chatbot.createSystemMessage]
   ++ (if negb (String.eqb context "") then [Chatbot.context_message context]
       else []))
  ++ map to_message (Chatbot.validateChatHistory chatHistory)
  ++ [Chatbot.HumanMessage userInput].

Definition is_add_message (e : Chatbot.event) : bool :=
  match e with
  | Chatbot.AddMessage _ _ _ _ => true
  | _ => false
  end.

Definition is_model_invoke (e : Chatbot.event) : bool :=
  match e with
  | Chatbot.ModelInvoke _ => true
  | _ => false
  end.

(** A computation of the router that reads nothing of the world but the
    collection: on two worlds with the same collection it has the same
    outcome and leaves the same collection. *)
Definition store_only {A} (m : M Routes.World A) : Prop :=
  forall w1 w2,
    Routes.astraCollection w1 = Routes.astraCollection w2 ->
    snd (m w1) = snd (m w2) /\
    Routes.astraCollection (fst (m w1)) = Routes.astraCollection (fst (m w2)).

(** The prefix of a document id, by kind. *)
Definition kind_prefix (t : Routes.DocType) : string :=
  match t with
  | Routes.type_exam => "exam_"
  | Routes.type_allocation => "alloc_"
  | Routes.type_room_allocation => "roomalloc_"
  end.

(** A task of the rebuild that adds at most one document to a collection
    that is there. *)
Definition adds_at_most_one {A} (task : M Routes.World A) : Prop :=
  forall w docs,
    Routes.astraCollection w = Some docs ->
    exists docs',
      Routes.astraCollection (fst (task w)) = Some docs' /\
      (length docs' <= length docs + 1)%nat.

(** A computation of the router that leaves a collection that is there in
    place. *)
Definition keeps_ready {A} (m : M Routes.World A) : Prop :=
  forall w docs,
    Routes.astraCollection w = Some docs ->
    exists docs', Routes.astraCollection (fst (m w)) = Some docs'.

End Views.

(* ===================================================================== *)
(** * Sample data                                                         *)
(* ===================================================================== *)

Module Samples.
Import JS Eff.

(** Dates left as they are stored. *)
Definition plain_date (v : value) : string := to_str v.

Definition midterm : value :=
  JObj [("_id", JStr "e1"); ("name", JStr "Midterm"); ("year", JNum 2025);
        ("semesters", JArr [JObj [("semester", JNum 3);
                                  ("totalStudents", JNum 60)]]);
        ("faculty", JArr [JStr "f1"]); ("rooms", JArr [JStr "r1"])].

Definition maths : value :=
  JObj [("_id", JStr "s1"); ("name", JStr "Maths");
        ("subjectCode", JStr "MA301"); ("semester", JNum 3);
        ("date", JStr "2025-03-01"); ("startTime", JStr "09:00");
        ("endTime", JStr "12:00"); ("exam", midterm)].

Definition room12 : value :=
  JObj [("_id", JStr "r1"); ("building", JStr "A"); ("roomNumber", JNum 12);
        ("capacity", JNum 40)].

Definition rao : value :=
  JObj [("_id", JStr "f1"); ("name", JStr "Dr. Rao");
        ("designation", JStr "Professor"); ("role", JStr "Faculty")].

(** An allocation as [populate] returns it, its references resolved. *)
Definition duty (id : string) (examRef : value) : value :=
  JObj [("_id", JStr id); ("examId", examRef); ("subjectId", maths);
        ("roomId", room12); ("facultyId", rao); ("date", JStr "2025-03-01");
        ("startTime", JStr "09:00"); ("endTime", JStr "12:00")].

(** The embedding service answering every request. *)
Definition embeddings_up (input : value) : outcome value :=
  Returned (JObj [("data", JObj [("data",
              JArr [JObj [("embedding", JArr [JNum 1; JNum 2])]])])]).

(** The embedding service timing out on the summaries of exams. *)
Definition embeddings_down_for_exams (input : value) : outcome value :=
  match input with
  | JStr text => if prefixb "Exam:" text
                 then Thrown (Error "timeout of 30000ms exceeded")
                 else embeddings_up input
  | _ => embeddings_up input
  end.

(** A subject of the midterm, by number. *)
Definition paper (n : Z) : value :=
  JObj [("_id", JStr ("s" +:+ string_of_Z n));
        ("name", JStr ("Paper " +:+ string_of_Z n));
        ("subjectCode", JStr ("P" +:+ string_of_Z n)); ("semester", JNum 3);
        ("date", JStr "2025-03-01"); ("startTime", JStr "09:00");
        ("endTime", JStr "12:00"); ("exam", midterm)].



Definition fresh : Routes.World :=
  {| Routes.log := []; Routes.astraCollection := Some [] |}.

(** A rebuild over one exam, one room, one subject, one faculty member and
    the given allocations. *)
Definition rebuild (embeddings_post : value -> outcome value)
    (allocations : list value) : Routes.World * Routes.Response :=
  Routes.cache_data plain_date embeddings_post (Returned JUndef)
    (fun _ => Returned JUndef)
    (Returned [midterm]) (Returned [room12]) (Returned [maths])
    (Returned allocations) (Returned []) (Returned [rao]) fresh.

(** The ids of the documents a rebuild left in the collection. *)
Definition indexed (result : Routes.World * Routes.Response) : list string :=
  map Routes._id (default [] (Routes.astraCollection (fst result))).

(** A data service that finds nothing. *)
Definition empty_db : Controller.DbService :=
  {| Controller.findExams := fun _ => Returned (JArr []);
     Controller.findSubjects := fun _ => Returned (JArr []);
     Controller.findFacultyAllocations := fun _ => Returned (JArr []);
     Controller.findFaculty := fun _ => Returned (JArr []);
     Controller.findRooms := fun _ => Returned (JArr []);
     Controller.findStudentAllocations := fun _ => Returned (JArr []);
     Controller.getSystemStats :=
       Returned (JObj [("totalExams", JNum 3); ("totalRooms", JNum 8)]);
     Controller.searchAll := fun _ => Returned (JObj []) |}.

Definition classified (intent : string) : value :=
  JObj [("intent", JStr intent)].

(** A data service with one room and one duty on record. *)
Definition campus_db : Controller.DbService :=
  {| Controller.findExams := fun _ => Returned (JArr [midterm]);
     Controller.findSubjects := fun _ => Returned (JArr [maths]);
     Controller.findFacultyAllocations :=
       fun _ => Returned (JArr [duty "a1" midterm]);
     Controller.findFaculty := fun _ => Returned (JArr [rao]);
     Controller.findRooms := fun _ => Returned (JArr [room12]);
     Controller.findStudentAllocations := fun _ => Returned (JArr []);
     Controller.getSystemStats := Returned (JObj [("totalExams", JNum 1)]);
     Controller.searchAll := fun _ => Returned (JObj []) |}.

Definition admin_user : value :=
  JObj [("_id", JStr "u0"); ("name", JStr "Registrar"); ("role", JStr "Admin")].

(** [toLowerCase] on ASCII text, where only the letters A to Z change. *)
Definition lower_char (c : ascii) : ascii :=
  let n := nat_of_ascii c in
  if (65 <=? n)%nat && (n <=? 90)%nat then ascii_of_nat (n + 32) else c.

Definition ascii_lower (s : string) : string := string_map lower_char s.

(** [trim] on text whose white space is ASCII. *)
Fixpoint trim_start (s : string) : string :=
  match s with
  | String c rest => if Ascii.is_space c then trim_start rest else s
  | EmptyString => EmptyString
  end.

Definition ascii_trim (s : string) : string :=
  String.rev (trim_start (String.rev (trim_start s))).

(** A chat-completion endpoint that cannot be reached. *)
Definition chat_down (request : Controller.ChatRequest) : outcome value :=
  Thrown (Error "connect ECONNREFUSED 127.0.0.1:1234").

(** [generateResponse] of [chatbot.js] with a knowledge base that is ready
    and finds nothing, and a model that greets. *)
Definition chatbot (userInput chatHistory : value)
  : list Chatbot.event * outcome value :=
  Chatbot.generateResponse ascii_trim (JStr "key") (JObj [])
    (Returned JUndef) (fun _ => Returned (JArr []))
    (fun _ => Returned "") (fun _ => Returned (JObj [("content", JStr "Hello!")]))
    (fun _ _ _ _ => Returned JUndef)
    userInput chatHistory JNull JNull [].

(** Three search results around the relevance threshold. *)
Definition hit (id : string) (t : Routes.DocType) (score : float)
  : Routes.SearchHit :=
  {| Routes.document := {| Routes._id := id;
                           Routes.content := "summary of " +:+ id;
                           Routes.embedding := JArr [];
                           Routes.type := t;
                           Routes.metadata := [] |};
     Routes.similarity := score |}.

Definition three_hits : list Routes.SearchHit :=
  [hit "alloc_a1" Routes.type_allocation 0.41%float;
   hit "exam_e1" Routes.type_exam 0.3%float;
   hit "roomalloc_ra1" Routes.type_room_allocation 0.27%float].

(** [POST /admin] with the embedding service up and the given results. *)
Definition ask (results : list Routes.SearchHit) (body : value)
  : Routes.World * Routes.Response :=
  Routes.admin embeddings_up (fun _ => Returned results)
    (fun _ => Returned (JObj [("data", JObj [("choices",
        JArr [JObj [("message", JObj [("content", JStr "On 1 March.")])]])])]))
    body fresh.

(** An exam with four subjects, three populated and one left as an id. *)
Definition crowded_exam : value :=
  JObj [("_id", JStr "e3"); ("name", JStr "Finals"); ("year", JNum 2025);
        ("subjects", JArr [maths; paper 2; paper 3; JStr "s9"])].

(** The seating of a room with six students. *)
Definition seating : value :=
  JObj [("roomNumber", JNum 12);
        ("students", JArr [JStr "U01"; JStr "U02"; JStr "U03"; JStr "U04";
                           JStr "U05"; JStr "U06"])].

(** An exam whose semesters were stored as text. *)
Definition mistyped_exam : value :=
  JObj [("name", JStr "Midterm"); ("year", JNum 2025);
        ("semesters", JStr "3,5")].

(** The campus data service with its subject lookup failing. *)
Definition db_without_subjects : Controller.DbService :=
  {| Controller.findExams := Controller.findExams campus_db;
     Controller.findSubjects := fun _ => Thrown (Error "subjects unavailable");
     Controller.findFacultyAllocations :=
       Controller.findFacultyAllocations campus_db;
     Controller.findFaculty := Controller.findFaculty campus_db;
     Controller.findRooms := Controller.findRooms campus_db;
     Controller.findStudentAllocations :=
       Controller.findStudentAllocations campus_db;
     Controller.getSystemStats := Controller.getSystemStats campus_db;
     Controller.searchAll := Controller.searchAll campus_db |}.

(** A chat-completion endpoint that answers without a choice. *)
Definition chat_garbled (request : Controller.ChatRequest) : outcome value :=
  Returned (JObj [("data", JObj [("choices", JArr [])])]).

(** An allocation whose faculty reference names a user that is not among
    the faculty. *)
Definition stray_duty : value :=
  JObj [("_id", JStr "a3"); ("examId", midterm); ("subjectId", maths);
        ("roomId", room12);
        ("facultyId", JObj [("_id", JStr "u9"); ("name", JStr "Registrar")]);
        ("date", JStr "2025-03-01"); ("startTime", JStr "09:00");
        ("endTime", JStr "12:00")].

(** The router before [astraCollection] is set, and with a document of an
    earlier rebuild in the collection. *)
Definition unready : Routes.World :=
  {| Routes.log := []; Routes.astraCollection := None |}.

Definition stale : Routes.World :=
  {| Routes.log := [];
     Routes.astraCollection :=
       Some [Routes.document (hit "exam_e0" Routes.type_exam 0.5%float)] |}.

(** [generateResponse] of [chatbot.js] within the session [s1], the
    knowledge base ready and the conversation store as given. *)
Definition chatbot_in_session
    (addMessage : value -> string -> value -> value -> outcome value)
    (userInput chatHistory : value) : list Chatbot.event * outcome value :=
  Chatbot.generateResponse ascii_trim (JStr "key") (JObj [])
    (Returned JUndef) (fun _ => Returned (JArr []))
    (fun _ => Returned "") (fun _ => Returned (JObj [("content", JStr "Hello!")]))
    addMessage userInput chatHistory (JStr "s1") (JStr "u1") [].

End Samples.

(* ===================================================================== *)
(** * Properties                                                          *)
(* ===================================================================== *)

Import JS Eff.

(** ** JavaScript built-ins *)

Lemma get_of_truthy (v : value) (k : string) :
  truthy v = true -> exists x, get v k = Returned x.
Proof.
  destruct v; simpl; intros H; try discriminate; eauto.
Qed.

Lemma get_after_get (v : value) (k k' : string) (x : value) :
  get v k = Returned x -> exists y, get v k' = Returned y.
Proof.
  destruct v; simpl; intros H; try discriminate; eauto.
Qed.

Lemma get_slot (v : value) (k k' : string) (x : value) :
  get v k = Returned x -> get v k' = Returned (Controller.slot v k').
Proof.
  intros H. unfold Controller.slot.
  now destruct (get_after_get v k k' x H) as [y ->].
Qed.

Lemma slice_last_suffix {A} (n : nat) (a : list A) :
  exists dropped,
    a = dropped ++ slice_last n a /\
    length (slice_last n a) = Nat.min n (length a).
Proof.
  exists (take (length a - n) a). unfold slice_last. split.
  - symmetry. apply take_drop.
  - rewrite length_drop. lia.
Qed.

(** ** The response generator *)

Section GeneratorFacts.

Variable LM_STUDIO_API_URL MODEL_NAME : string.
Variable axios_post : Controller.ChatRequest -> outcome value.
Variable trim : string -> string.

Lemma role_prompt_total (user : value) :
  exists text, Controller.role_prompt user = Returned text.
Proof.
  unfold Controller.role_prompt.
  destruct (truthy user) eqn:Huser; [| eauto].
  destruct (get_of_truthy user "role" Huser) as [role Hrole].
  destruct (get_of_truthy user "name" Huser) as [name Hname].
  rewrite Hrole, Hname. simpl.
  destruct (is_str role "Admin"); [eauto |].
  destruct (is_str role "Faculty"); eauto.
Qed.

Lemma system_prompt_total (context : string) (user : value) :
  exists prompt, Controller.system_prompt context user = Returned prompt.
Proof.
  unfold Controller.system_prompt.
  destruct (role_prompt_total user) as [text ->]. simpl. eauto.
Qed.

Lemma generateResponse_run (query : value) (context : string)
    (conversationHistory : list value) (user : value)
    (log : list Controller.event) :
  exists prompt,
    Controller.system_prompt context user = Returned prompt /\
    let request := Controller.request_sent LM_STUDIO_API_URL MODEL_NAME query
                   prompt conversationHistory in
    Controller.generateResponse LM_STUDIO_API_URL MODEL_NAME axios_post trim
      query context conversationHistory user log
    = (log ++ [Controller.ChatCompletions request],
       match obind (axios_post request) (Controller.response_text trim) with
       | Returned text => Returned text
       | Thrown _ => Returned Controller.generateResponse_apology
       end).
Proof.
  destruct (system_prompt_total context user) as [prompt Hprompt].
  exists prompt. split; [exact Hprompt |].
  unfold Controller.generateResponse, try_catch, bind, lift, ret,
    Controller.request_sent.
  rewrite Hprompt.
  destruct (axios_post _) as [response | e]; simpl; [| reflexivity].
  destruct (Controller.response_text trim response); reflexivity.
Qed.

End GeneratorFacts.

(** C7. The message sequence posted to the chat-completion endpoint is the
    system prompt, then the last five turns of the conversation history in
    their order (all of them when there are fewer), then the current user
    turn; the older turns are dropped and nothing stands in for them. *)
Theorem generateResponse_messages
    (LM_STUDIO_API_URL MODEL_NAME : string)
    (axios_post : Controller.ChatRequest -> outcome value)
    (trim : string -> string)
    (query : value) (context : string) (conversationHistory : list value)
    (user : value) (log : list Controller.event) :
  exists prompt dropped kept request,
    Controller.system_prompt context user = Returned prompt /\
    conversationHistory = dropped ++ kept /\
    length kept = Nat.min 5 (length conversationHistory) /\
    fst (Controller.generateResponse LM_STUDIO_API_URL MODEL_NAME axios_post
           trim query context conversationHistory user log)
    = log ++ [Controller.ChatCompletions request] /\
    Controller.messages request
    = [Controller.message_of "system" (JStr prompt)] ++ kept
      ++ [Controller.message_of "user" query].
Proof.
  destruct (generateResponse_run LM_STUDIO_API_URL MODEL_NAME axios_post trim
              query context conversationHistory user log)
    as (prompt & Hprompt & Hrun).
  destruct (slice_last_suffix Controller.CONVERSATION_HISTORY_LENGTH
              conversationHistory) as (dropped & Hsplit & Hlen).
  exists prompt, dropped,
    (slice_last Controller.CONVERSATION_HISTORY_LENGTH conversationHistory),
    (Controller.request_sent LM_STUDIO_API_URL MODEL_NAME query prompt
       conversationHistory).
  split; [exact Hprompt |]. split; [exact Hsplit |]. split; [exact Hlen |].
  split.
  - cbv zeta in Hrun. rewrite Hrun. reflexivity.
  - unfold Controller.request_sent, Controller.chat_request,
      Controller.build_messages.
    simpl. reflexivity.
Qed.

(** C8. When the chat-completion request fails (no connection, timeout, a
    status outside 2xx), [generateResponse] returns the fixed apology; the
    error does not reach its caller. *)
Theorem generateResponse_failure_apology
    (LM_STUDIO_API_URL MODEL_NAME : string)
    (axios_post : Controller.ChatRequest -> outcome value)
    (trim : string -> string)
    (query : value) (context : string) (conversationHistory : list value)
    (user : value) (log : list Controller.event)
    (failure : Controller.ChatRequest -> error)
    (Hfails : forall request, axios_post request = Thrown (failure request)) :
  snd (Controller.generateResponse LM_STUDIO_API_URL MODEL_NAME axios_post
         trim query context conversationHistory user log)
  = Returned Controller.generateResponse_apology.
Proof.
  destruct (generateResponse_run LM_STUDIO_API_URL MODEL_NAME axios_post trim
              query context conversationHistory user log)
    as (prompt & _ & Hrun).
  cbv zeta in Hrun. rewrite Hrun, Hfails. reflexivity.
Qed.

(** Whatever the endpoint does, [generateResponse] returns a text. *)
Lemma generateResponse_never_throws
    (LM_STUDIO_API_URL MODEL_NAME : string)
    (axios_post : Controller.ChatRequest -> outcome value)
    (trim : string -> string)
    (query : value) (context : string) (conversationHistory : list value)
    (user : value) (log : list Controller.event) :
  exists text,
    snd (Controller.generateResponse LM_STUDIO_API_URL MODEL_NAME axios_post
           trim query context conversationHistory user log)
    = Returned text.
Proof.
  destruct (generateResponse_run LM_STUDIO_API_URL MODEL_NAME axios_post trim
              query context conversationHistory user log)
    as (prompt & _ & Hrun).
  cbv zeta in Hrun. rewrite Hrun. simpl.
  destruct (obind _ _); eauto.
Qed.

(** A [try] whose [catch] returns has no exception left. *)
Lemma try_catch_returns {W A} (m : M W A) (fallback : A) (w : W) :
  exists a, snd (try_catch m (fun _ => ret fallback) w) = Returned a.
Proof.
  unfold try_catch, ret. destruct (m w) as [w' [a | e]]; cbn; eauto.
Qed.

(** [processQuery] too returns a text whatever happens on the way. *)
Lemma processQuery_never_throws
    (LM_STUDIO_API_URL MODEL_NAME : string)
    (axios_post : Controller.ChatRequest -> outcome value)
    (trim : string -> string) (analyzeQuery : value -> outcome value)
    (toLowerCase : string -> string)
    (dbService : Controller.DbService) (toLocaleDateString : value -> string)
    (query : value) (conversationHistory : list value) (user : value)
    (log : list Controller.event) :
  exists text,
    snd (Controller.processQuery LM_STUDIO_API_URL MODEL_NAME axios_post trim
           analyzeQuery toLowerCase dbService toLocaleDateString query
           conversationHistory user log)
    = Returned text.
Proof. apply try_catch_returns. Qed.

(** ** The intent router *)

Section RouterFacts.

Variable toLowerCase : string -> string.
Variable dbService : Controller.DbService.

Lemma role_is_total (user : value) (r : string) :
  exists b, Controller.role_is user r = Returned b.
Proof.
  unfold Controller.role_is.
  destruct (truthy user) eqn:Huser; [| eauto].
  destruct (get_of_truthy user "role" Huser) as [role ->]. simpl. eauto.
Qed.

Lemma user_field_get (user : value) (k : string) :
  (if truthy user then get user k else Returned JNull)
  = Returned (Controller.user_field user k).
Proof.
  unfold Controller.user_field. destruct (truthy user) eqn:Huser; [| reflexivity].
  destruct (get_of_truthy user k Huser) as [x ->]. reflexivity.
Qed.

(** [fetchRelevantData] on a classification that is an object: the bundle
    holds whatever the [try] block stored before it ended or threw. *)
Lemma fetchRelevantData_run (analysisResult user intent0 : value)
    (log : list Controller.event) :
  get analysisResult "intent" = Returned intent0 ->
  let intent := or_else intent0 (JStr "general_query") in
  let w := fst (Controller.fetch_try toLowerCase dbService analysisResult user intent
                  (Controller.time_params (Controller.slot analysisResult "time_period"))
                  (log, [])) in
  Controller.fetchRelevantData toLowerCase dbService analysisResult user log
  = (fst w, Returned {| Controller.intent := intent;
                        Controller.data := snd w;
                        Controller.userRole := Controller.user_field user "role";
                        Controller.userName := Controller.user_field user "name" |}).
Proof.
  intros Hintent. cbv zeta.
  unfold Controller.fetchRelevantData, bind, lift.
  rewrite Hintent, !user_field_get.
  rewrite (get_slot _ _ "time_period" _ Hintent).
  unfold with_local, try_catch, ret.
  destruct (Controller.fetch_try _ _ _ _ _ _) as [[log' data'] [[] | e]];
    reflexivity.
Qed.

Lemma role_is_has_role (user : value) (r : string) :
  Controller.role_is user r = Returned (Controller.has_role user r).
Proof.
  unfold Controller.role_is, Controller.has_role, Controller.user_field.
  destruct (truthy user) eqn:Huser; [| reflexivity].
  destruct (get_of_truthy user "role" Huser) as [role ->]. reflexivity.
Qed.

(** Inside the [try], on a classification that is an object, the faculty's
    identity is read without failure and the [switch] runs. *)
Lemma fetch_try_run (analysisResult user intent intent0 : value)
    (timeParams : list (string * value)) :
  get analysisResult "intent" = Returned intent0 ->
  Controller.fetch_try toLowerCase dbService analysisResult user intent timeParams
  = fun w =>
      Controller.switch_intent toLowerCase dbService analysisResult user intent
        (Controller.faculty_id_of user)
        (Controller.faculty_name_of analysisResult user) timeParams w.
Proof.
  intros Hintent.
  unfold Controller.fetch_try, bind, lift.
  rewrite role_is_has_role.
  unfold Controller.faculty_id_of, Controller.faculty_name_of.
  destruct (Controller.has_role user "Faculty") eqn:Hrole.
  - assert (Huser : truthy user = true).
    { unfold Controller.has_role in Hrole.
      destruct (truthy user); [reflexivity | discriminate]. }
    pose proof (user_field_get user "_id") as Hid.
    pose proof (user_field_get user "name") as Hname.
    rewrite Huser in Hid, Hname. rewrite Hid, Hname. reflexivity.
  - now rewrite (get_slot _ _ "faculty_name" _ Hintent).
Qed.

Lemma count_allocations_run (args : value) (w : Controller.W) :
  Controller.count_allocations dbService args w
  = ((fst w ++ [Controller.DbCall "findFacultyAllocations" [args]], snd w),
     Controller.allocation_count dbService args).
Proof.
  unfold Controller.count_allocations, Controller.allocation_count,
    Controller.await_db, bind, lift, ret.
  destruct (Controller.findFacultyAllocations dbService args) as [found | e];
    simpl; [| reflexivity].
  destruct (get found "length"); reflexivity.
Qed.

(** The global branch of [case 'system_stats']. *)
Lemma case_system_stats_global (user facultyId : value) (w : Controller.W) :
  negb (truthy user) || Controller.has_role user "Admin" = true ->
  snd (fst (Controller.case_system_stats dbService user facultyId w))
  = match Controller.getSystemStats dbService with
    | Returned stats => set_prop "stats" stats (snd w)
    | Thrown _ => snd w
    end.
Proof.
  intros Hglobal.
  unfold Controller.case_system_stats, bind, lift.
  rewrite role_is_has_role, Hglobal.
  destruct (Controller.getSystemStats dbService); reflexivity.
Qed.

(** The personal branch: the three counts in turn, then the object. *)
Lemma case_system_stats_personal (user facultyId : value) (w : Controller.W) :
  negb (truthy user) || Controller.has_role user "Admin" = false ->
  snd (fst (Controller.case_system_stats dbService user facultyId w))
  = match
      Controller.allocation_count dbService (JObj [("facultyId", facultyId)]),
      Controller.allocation_count dbService
        (JObj [("facultyId", facultyId); ("future", JBool true)]),
      Controller.allocation_count dbService
        (JObj [("facultyId", facultyId); ("past", JBool true)])
    with
    | Returned total, Returned upcoming, Returned past =>
        set_prop "facultyStats"
          (JObj [("totalAllocations", total);
                 ("upcomingAllocations", upcoming);
                 ("pastAllocations", past)]) (snd w)
    | _, _, _ => snd w
    end.
Proof.
  intros Hpersonal.
  unfold Controller.case_system_stats, bind, lift.
  rewrite role_is_has_role, Hpersonal.
  rewrite count_allocations_run.
  destruct (Controller.allocation_count dbService (JObj [("facultyId", facultyId)]));
    [| reflexivity].
  rewrite count_allocations_run.
  destruct (Controller.allocation_count dbService
              (JObj [("facultyId", facultyId); ("future", JBool true)]));
    [| reflexivity].
  rewrite count_allocations_run.
  destruct (Controller.allocation_count dbService
              (JObj [("facultyId", facultyId); ("past", JBool true)]));
    reflexivity.
Qed.

(** [case 'exam_info']: what [findExams] resolves to is stored under
    [exams] as it is, and stays first. *)
Lemma case_exam_info_stores_exams (analysisResult facultyId intent0 exams : value)
    (timeParams : list (string * value)) (log : list Controller.event) :
  get analysisResult "intent" = Returned intent0 ->
  Controller.findExams dbService
    (JObj [("name", Controller.slot analysisResult "exam_name");
           ("year", Controller.slot analysisResult "exam_year");
           ("semester", Controller.slot analysisResult "semester")])
  = Returned exams ->
  exists rest,
    snd (fst (Controller.case_exam_info dbService analysisResult facultyId
                timeParams (log, [])))
    = ("exams", exams) :: rest.
Proof.
  intros Hintent Hexams.
  unfold Controller.case_exam_info, Controller.await_db, Controller.set_data,
    when, bind, lift, ret.
  rewrite !(get_slot _ _ _ _ Hintent), Hexams. cbn [fst snd set_prop].
  destruct (truthy (or_else _ _)).
  - destruct (Controller.findSubjects dbService _); cbn [fst snd].
    + destruct (truthy facultyId); [| eexists; reflexivity].
      destruct (Controller.findFacultyAllocations dbService _);
        eexists; reflexivity.
    + eexists; reflexivity.
  - destruct (truthy facultyId); [| eexists; reflexivity].
    destruct (Controller.findFacultyAllocations dbService _);
      eexists; reflexivity.
Qed.

(** [case 'room_info'] with a room-number slot: the room's seating and its
    faculty allocations are both fetched and stored. *)
Lemma case_room_info_stores_allocations
    (analysisResult facultyId intent0 rooms seats duties : value)
    (timeParams : list (string * value)) (log : list Controller.event) :
  get analysisResult "intent" = Returned intent0 ->
  truthy (Controller.slot analysisResult "room_number") = true ->
  Controller.findRooms dbService
    (JObj [("building", Controller.slot analysisResult "building");
           ("roomNumber", Controller.slot analysisResult "room_number");
           ("floor", Controller.slot analysisResult "floor")])
  = Returned rooms ->
  Controller.findStudentAllocations dbService
    (JObj ([("roomNumber", Controller.slot analysisResult "room_number");
            ("date", Controller.slot analysisResult "date")] ++ timeParams))
  = Returned seats ->
  Controller.findFacultyAllocations dbService
    (JObj ([("roomNumber", Controller.slot analysisResult "room_number");
            ("date", Controller.slot analysisResult "date")] ++ timeParams))
  = Returned duties ->
  exists rest,
    snd (fst (Controller.case_room_info dbService analysisResult facultyId
                timeParams (log, [])))
    = [("rooms", rooms); ("roomAllocations", seats);
       ("facultyRoomAllocations", duties)] ++ rest.
Proof.
  intros Hintent Hnumber Hrooms Hseats Hduties.
  unfold Controller.case_room_info, Controller.await_db, Controller.set_data,
    when, bind, lift, ret.
  rewrite !(get_slot _ _ _ _ Hintent), Hrooms, Hnumber.
  cbn [fst snd set_prop]. rewrite Hseats. cbn [fst snd]. rewrite Hduties.
  cbn [fst snd set_prop String.eqb Ascii.eqb Bool.eqb].
  destruct (truthy facultyId); [| exists []; reflexivity].
  destruct (Controller.findFacultyAllocations dbService (JObj (_ :: _)));
    eexists; cbn; reflexivity.
Qed.

End RouterFacts.

(** An [exam_info] query: the bundle holds [exams] with whatever the lookup
    found, an empty list included. *)
Lemma exam_info_keeps_lookup_result (toLowerCase : string -> string)
    (dbService : Controller.DbService)
    (analysisResult user exams : value) (log : list Controller.event) :
  get analysisResult "intent" = Returned (JStr "exam_info") ->
  Controller.findExams dbService
    (JObj [("name", Controller.slot analysisResult "exam_name");
           ("year", Controller.slot analysisResult "exam_year");
           ("semester", Controller.slot analysisResult "semester")])
  = Returned exams ->
  exists log' contextData rest,
    Controller.fetchRelevantData toLowerCase dbService analysisResult user log
    = (log', Returned contextData) /\
    Controller.data contextData = ("exams", exams) :: rest.
Proof.
  intros Hintent Hexams.
  pose proof (fetchRelevantData_run toLowerCase dbService analysisResult user _ log Hintent)
    as Hrun.
  cbv zeta in Hrun. rewrite Hrun. clear Hrun.
  rewrite (fetch_try_run toLowerCase dbService analysisResult user _ _ _ Hintent).
  unfold Controller.switch_intent. simpl (is_str _ _).
  destruct (case_exam_info_stores_exams dbService analysisResult
              (Controller.faculty_id_of user) _ exams
              (Controller.time_params (Controller.slot analysisResult "time_period"))
              log Hintent Hexams) as [rest Hrest].
  eexists _, _, rest. split; [reflexivity | exact Hrest].
Qed.

(** A [room_info] query that names a room: the bundle holds the room's
    faculty allocations under [facultyRoomAllocations]. *)
Lemma room_info_fetches_faculty_room_allocations
    (toLowerCase : string -> string)
    (dbService : Controller.DbService)
    (analysisResult user rooms seats duties : value)
    (log : list Controller.event) :
  get analysisResult "intent" = Returned (JStr "room_info") ->
  truthy (Controller.slot analysisResult "room_number") = true ->
  let timeParams :=
    Controller.time_params (Controller.slot analysisResult "time_period") in
  Controller.findRooms dbService
    (JObj [("building", Controller.slot analysisResult "building");
           ("roomNumber", Controller.slot analysisResult "room_number");
           ("floor", Controller.slot analysisResult "floor")])
  = Returned rooms ->
  Controller.findStudentAllocations dbService
    (JObj ([("roomNumber", Controller.slot analysisResult "room_number");
            ("date", Controller.slot analysisResult "date")] ++ timeParams))
  = Returned seats ->
  Controller.findFacultyAllocations dbService
    (JObj ([("roomNumber", Controller.slot analysisResult "room_number");
            ("date", Controller.slot analysisResult "date")] ++ timeParams))
  = Returned duties ->
  exists log' contextData rest,
    Controller.fetchRelevantData toLowerCase dbService analysisResult user log
    = (log', Returned contextData) /\
    Controller.data contextData
    = [("rooms", rooms); ("roomAllocations", seats)]
      ++ [("facultyRoomAllocations", duties)] ++ rest.
Proof.
  intros Hintent Hnumber timeParams Hrooms Hseats Hduties.
  pose proof (fetchRelevantData_run toLowerCase dbService analysisResult user _ log Hintent)
    as Hrun.
  cbv zeta in Hrun. rewrite Hrun. clear Hrun.
  rewrite (fetch_try_run toLowerCase dbService analysisResult user _ _ _ Hintent).
  unfold Controller.switch_intent. simpl (is_str _ _).
  destruct (case_room_info_stores_allocations dbService analysisResult
              (Controller.faculty_id_of user) _ rooms seats duties timeParams
              log Hintent Hnumber Hrooms Hseats Hduties) as [rest Hrest].
  eexists _, _, rest. split; [reflexivity | exact Hrest].
Qed.

(** C1, as the code has it.  The test is [!user || user.role === 'Admin'],
    under the comment that only an admin gets the overall stats: a request
    without a user passes it as an admin does.  For a query classified as
    [system_stats]: when
    no user is given or the user's role is Admin, the bundle never holds
    [facultyStats], and its data is exactly the global [stats] once
    [getSystemStats] resolves (nothing when it rejects); when a user is
    given whose role is not Admin, the bundle never holds [stats], and its
    data is exactly
    [facultyStats = {totalAllocations, upcomingAllocations, pastAllocations}]
    once the three counts resolve (nothing when one rejects). *)
Theorem system_stats_by_caller (toLowerCase : string -> string)
    (dbService : Controller.DbService)
    (analysisResult user : value) (log : list Controller.event) :
  get analysisResult "intent" = Returned (JStr "system_stats") ->
  exists log' contextData,
    Controller.fetchRelevantData toLowerCase dbService analysisResult user log
    = (log', Returned contextData) /\
    let data := Controller.data contextData in
    let facultyId := Controller.faculty_id_of user in
    if negb (truthy user) || Controller.has_role user "Admin" then
      assoc "facultyStats" data = None /\
      data = match Controller.getSystemStats dbService with
             | Returned stats => [("stats", stats)]
             | Thrown _ => []
             end
    else
      assoc "stats" data = None /\
      data = match
               Controller.allocation_count dbService
                 (JObj [("facultyId", facultyId)]),
               Controller.allocation_count dbService
                 (JObj [("facultyId", facultyId); ("future", JBool true)]),
               Controller.allocation_count dbService
                 (JObj [("facultyId", facultyId); ("past", JBool true)])
             with
             | Returned total, Returned upcoming, Returned past =>
                 [("facultyStats",
                   JObj [("totalAllocations", total);
                         ("upcomingAllocations", upcoming);
                         ("pastAllocations", past)])]
             | _, _, _ => []
             end.
Proof.
  intros Hintent.
  pose proof (fetchRelevantData_run toLowerCase dbService analysisResult user _ log Hintent)
    as Hrun.
  cbv zeta in Hrun. rewrite Hrun. clear Hrun.
  eexists _, _. split; [reflexivity |].
  cbn [Controller.data].
  rewrite (fetch_try_run toLowerCase dbService analysisResult user _ _ _ Hintent).
  unfold Controller.switch_intent. simpl (is_str _ _).
  destruct (negb (truthy user) || Controller.has_role user "Admin") eqn:Hwho.
  - rewrite (case_system_stats_global dbService user _ _ Hwho). cbn [snd].
    destruct (Controller.getSystemStats dbService); split; reflexivity.
  - rewrite (case_system_stats_personal dbService user _ _ Hwho). cbn [snd].
    destruct (Controller.allocation_count _ _); [| split; reflexivity].
    destruct (Controller.allocation_count _ _); [| split; reflexivity].
    destruct (Controller.allocation_count _ _); split; reflexivity.
Qed.

(** ** The context formatter *)

Lemma append_nil_r (a : string) : a +:+ "" = a.
Proof.
  induction a as [| ch a IH]; [reflexivity |].
  change (String ch (a +:+ "") = String ch a). now f_equal.
Qed.

Lemma append_assoc (a b c : string) : (a +:+ b) +:+ c = a +:+ (b +:+ c).
Proof.
  induction a as [| ch a IH]; [reflexivity |].
  change (String ch ((a +:+ b) +:+ c) = String ch (a +:+ (b +:+ c))).
  now f_equal.
Qed.

Lemma cat_cons (piece : string) (pieces : list string) :
  cat (piece :: pieces) = piece +:+ cat pieces.
Proof.
  unfold cat. destruct pieces as [| next rest].
  - cbn [join]. now rewrite append_nil_r.
  - reflexivity.
Qed.

Lemma cat_app (before after : list string) :
  cat (before ++ after) = cat before +:+ cat after.
Proof.
  induction before as [| piece before IH].
  - reflexivity.
  - rewrite <- app_comm_cons, !cat_cons, IH, append_assoc. reflexivity.
Qed.

Lemma mapM_app {A B} (f : A -> outcome B) (before after : list A) :
  mapM f (before ++ after)
  = obind (mapM f before) (fun xs =>
    obind (mapM f after) (fun ys => Returned (xs ++ ys))).
Proof.
  induction before as [| x before IH]; simpl.
  - destruct (mapM f after); reflexivity.
  - destruct (f x) as [y | e]; simpl; [| reflexivity].
    rewrite IH. destruct (mapM f before); simpl; [| reflexivity].
    destruct (mapM f after); reflexivity.
Qed.

Lemma occurs_refl (text : string) : occurs text text.
Proof. exists "", "". cbn. now rewrite append_nil_r. Qed.

Lemma occurs_trans (a b c : string) : occurs a b -> occurs b c -> occurs a c.
Proof.
  intros (p1 & q1 & ->) (p2 & q2 & ->).
  exists (p2 +:+ p1), (q1 +:+ q2). now rewrite !append_assoc.
Qed.

Lemma occurs_append_r (piece a b : string) :
  occurs piece b -> occurs piece (a +:+ b).
Proof.
  intros (p & q & ->). exists (a +:+ p), q. now rewrite !append_assoc.
Qed.

Lemma occurs_append_l (piece a b : string) :
  occurs piece a -> occurs piece (a +:+ b).
Proof.
  intros (p & q & ->). exists p, (q +:+ b). now rewrite !append_assoc.
Qed.

(** Every element joined occurs in the result. *)
Lemma occurs_join (sep piece : string) (pieces : list string) :
  In piece pieces -> occurs piece (join sep pieces).
Proof.
  induction pieces as [| first rest IH]; [intros [] |].
  intros [-> | Hin].
  - destruct rest as [| next rest]; [apply occurs_refl |].
    cbn [join]. apply occurs_append_l, occurs_refl.
  - destruct rest as [| next rest]; [destruct Hin |].
    cbn [join]. apply occurs_append_r, occurs_append_r, IH, Hin.
Qed.

Lemma occurs_cat (piece : string) (pieces : list string) :
  In piece pieces -> occurs piece (cat pieces).
Proof. apply occurs_join. Qed.

Lemma mapM_length {A B} (f : A -> outcome B) (l : list A) (ys : list B) :
  mapM f l = Returned ys -> length ys = length l.
Proof.
  revert ys. induction l as [| x l IH]; intros ys; cbn.
  - now intros [= <-].
  - destruct (f x) as [y | e]; cbn; [| discriminate].
    destruct (mapM f l) as [ys' | e]; cbn; [| discriminate].
    intros [= <-]. cbn. f_equal. now apply IH.
Qed.


(** A callback that returns on every element makes [map] return. *)
Lemma mapM_total {A B} (f : A -> outcome B) (l : list A) :
  Forall (fun x => exists y, f x = Returned y) l ->
  exists ys, mapM f l = Returned ys.
Proof.
  induction 1 as [| x l [y Hy] _ [ys IH]]; cbn; [eauto |].
  rewrite Hy, IH. cbn. eauto.
Qed.

Section FormatterFacts.

Variable toLocaleDateString : value -> string.

(** A dataset the guard skips contributes nothing. *)
Lemma format_dataset_empty (dataType : string) (data : value) :
  Controller.is_empty_dataset data = true ->
  Controller.format_dataset toLocaleDateString (dataType, data) = Returned "".
Proof.
  intros Hempty. unfold Controller.format_dataset. now rewrite Hempty.
Qed.

(** Dropping the skipped datasets changes nothing in what is rendered. *)
Lemma mapM_format_dataset_filter (entries : list (string * value)) :
  omap cat (mapM (Controller.format_dataset toLocaleDateString)
              (List.filter (fun entry =>
                 negb (Controller.is_empty_dataset (snd entry))) entries))
  = omap cat (mapM (Controller.format_dataset toLocaleDateString) entries).
Proof.
  induction entries as [| [dataType data] entries IH]; [reflexivity |].
  cbn [List.filter snd].
  destruct (Controller.is_empty_dataset data) eqn:Hempty; cbn [negb].
  - cbn [mapM]. rewrite (format_dataset_empty _ _ Hempty). cbn [obind].
    rewrite IH. unfold omap.
    destruct (mapM _ entries); cbn [obind]; [| reflexivity].
    now rewrite cat_cons.
  - cbn [mapM].
    destruct (Controller.format_dataset _ _) as [text | e]; cbn [obind];
      [| reflexivity].
    unfold omap in *.
    destruct (mapM _ (List.filter _ entries)) as [xs |];
      destruct (mapM _ entries) as [ys |]; cbn [obind] in *;
      try congruence.
    rewrite !cat_cons. congruence.
Qed.

End FormatterFacts.

(** The guard of the formatter skips the values with nothing in them, and
    no other. *)
Lemma is_empty_dataset_nothing_in (data : value) :
  Controller.is_empty_dataset data = Views.nothing_in data.
Proof.
  unfold Controller.is_empty_dataset.
  destruct data as [| | flag | n | text | items | props]; try reflexivity.
  - now destruct flag.
  - cbn. now destruct (n =? 0).
  - now destruct text.
  - now destruct items.
  - now destruct props.
Qed.

Section FirstLookups.

Variable toLowerCase : string -> string.
Variable dbService : Controller.DbService.

(** What is left of a case once its first lookup is stored: whatever the
    later lookups do, the first dataset stays first. *)
Ltac first_dataset_stays :=
  repeat match goal with
         | |- context [if ?c then _ else _] => destruct c
         | |- context [match ?o with Returned _ => _ | Thrown _ => _ end] =>
             destruct o
         | _ => progress cbn [fst snd obind]
         end;
  eexists _, _, _; split; reflexivity.

Lemma room_info_keeps_lookup_result (analysisResult user found : value)
    (log : list Controller.event) :
  get analysisResult "intent" = Returned (JStr "room_info") ->
  Controller.findRooms dbService
    (JObj [("building", Controller.slot analysisResult "building");
           ("roomNumber", Controller.slot analysisResult "room_number");
           ("floor", Controller.slot analysisResult "floor")])
  = Returned found ->
  exists log' contextData rest,
    Controller.fetchRelevantData toLowerCase dbService analysisResult user log
    = (log', Returned contextData) /\
    Controller.data contextData = ("rooms", found) :: rest.
Proof.
  intros Hintent Hfound.
  pose proof (fetchRelevantData_run toLowerCase dbService analysisResult user
                _ log Hintent) as Hrun.
  cbv zeta in Hrun. rewrite Hrun. clear Hrun.
  rewrite (fetch_try_run toLowerCase dbService analysisResult user _ _ _
             Hintent).
  unfold Controller.switch_intent. simpl (is_str _ _).
  unfold Controller.case_room_info, Controller.await_db, Controller.set_data,
    when, bind, lift, ret.
  rewrite !(get_slot _ _ _ _ Hintent), Hfound. cbn [fst snd set_prop].
  first_dataset_stays.
Qed.

Lemma faculty_allocation_keeps_lookup_result
    (analysisResult user found : value) (log : list Controller.event) :
  get analysisResult "intent" = Returned (JStr "faculty_allocation") ->
  Controller.findFacultyAllocations dbService
    (JObj ([("facultyName", Controller.faculty_name_of analysisResult user);
            ("facultyId",
             or_else (Controller.faculty_id_of user)
                     (Controller.slot analysisResult "faculty_id"));
            ("roomId", Controller.slot analysisResult "room_id");
            ("date", Controller.slot analysisResult "date")]
           ++ Controller.time_params
                (Controller.slot analysisResult "time_period")))
  = Returned found ->
  exists log' contextData rest,
    Controller.fetchRelevantData toLowerCase dbService analysisResult user log
    = (log', Returned contextData) /\
    Controller.data contextData = ("allocations", found) :: rest.
Proof.
  intros Hintent Hfound.
  pose proof (fetchRelevantData_run toLowerCase dbService analysisResult user
                _ log Hintent) as Hrun.
  cbv zeta in Hrun. rewrite Hrun. clear Hrun.
  rewrite (fetch_try_run toLowerCase dbService analysisResult user _ _ _
             Hintent).
  unfold Controller.switch_intent. simpl (is_str _ _).
  unfold Controller.case_faculty_allocation, Controller.await_db,
    Controller.set_data, when, bind, lift, ret.
  rewrite !(get_slot _ _ _ _ Hintent), Hfound. cbn [fst snd set_prop].
  first_dataset_stays.
Qed.

Lemma student_allocation_keeps_lookup_result
    (analysisResult user found : value) (log : list Controller.event) :
  get analysisResult "intent" = Returned (JStr "student_allocation") ->
  Controller.findStudentAllocations dbService
    (JObj ([("roomNumber", Controller.slot analysisResult "room_number");
            ("semester", Controller.slot analysisResult "semester");
            ("student", Controller.slot analysisResult "student");
            ("date", Controller.slot analysisResult "date")]
           ++ Controller.time_params
                (Controller.slot analysisResult "time_period")))
  = Returned found ->
  exists log' contextData rest,
    Controller.fetchRelevantData toLowerCase dbService analysisResult user log
    = (log', Returned contextData) /\
    Controller.data contextData = ("studentAllocations", found) :: rest.
Proof.
  intros Hintent Hfound.
  pose proof (fetchRelevantData_run toLowerCase dbService analysisResult user
                _ log Hintent) as Hrun.
  cbv zeta in Hrun. rewrite Hrun. clear Hrun.
  rewrite (fetch_try_run toLowerCase dbService analysisResult user _ _ _
             Hintent).
  unfold Controller.switch_intent. simpl (is_str _ _).
  unfold Controller.case_student_allocation, Controller.await_db,
    Controller.set_data, when, bind, lift, ret.
  rewrite !(get_slot _ _ _ _ Hintent), Hfound. cbn [fst snd set_prop].
  first_dataset_stays.
Qed.

End FirstLookups.

(** A dataset with something in it is rendered under its header. *)
Lemma format_dataset_with_something (toLocaleDateString : value -> string)
    (dataType : string) (data : value) :
  Views.nothing_in data = false ->
  Controller.format_dataset toLocaleDateString (dataType, data)
  = obind (Controller.render_dataset toLocaleDateString dataType data)
      (fun body => Returned (cat [toUpperCase dataType; ":"; nl; body])).
Proof.
  intros Hsome. unfold Controller.format_dataset.
  now rewrite is_empty_dataset_nothing_in, Hsome.
Qed.

(** C5, as the code has it.  The router does not leave empty results out:
    in the cases [exam_info], [room_info], [faculty_allocation] and
    [student_allocation], whatever the first lookup of the case resolves to,
    an empty list or object included, is stored under [exams], [rooms],
    [allocations], [studentAllocations], and stays there.  It is the
    formatter that leaves such datasets out: formatting a bundle gives the
    same text (or the same error) as formatting it without the keys whose
    value is falsy, an empty list or an empty object; such a key contributes
    nothing, not even its header, and a key of the router whose value is
    none of these contributes its header line followed by its rendering. *)
Theorem formatContextData_omits_empty_datasets
    (toLowerCase : string -> string)
    (toLocaleDateString : value -> string) :
  (forall dbService analysisResult user found log,
     get analysisResult "intent" = Returned (JStr "exam_info") ->
     Controller.findExams dbService
       (JObj [("name", Controller.slot analysisResult "exam_name");
              ("year", Controller.slot analysisResult "exam_year");
              ("semester", Controller.slot analysisResult "semester")])
     = Returned found ->
     exists log' contextData rest,
       Controller.fetchRelevantData toLowerCase dbService analysisResult user
         log
       = (log', Returned contextData) /\
       Controller.data contextData = ("exams", found) :: rest)
  /\ (forall dbService analysisResult user found log,
        get analysisResult "intent" = Returned (JStr "room_info") ->
        Controller.findRooms dbService
          (JObj [("building", Controller.slot analysisResult "building");
                 ("roomNumber", Controller.slot analysisResult "room_number");
                 ("floor", Controller.slot analysisResult "floor")])
        = Returned found ->
        exists log' contextData rest,
          Controller.fetchRelevantData toLowerCase dbService analysisResult
            user log
          = (log', Returned contextData) /\
          Controller.data contextData = ("rooms", found) :: rest)
  /\ (forall dbService analysisResult user found log,
        get analysisResult "intent" = Returned (JStr "faculty_allocation") ->
        Controller.findFacultyAllocations dbService
          (JObj ([("facultyName",
                   Controller.faculty_name_of analysisResult user);
                  ("facultyId",
                   or_else (Controller.faculty_id_of user)
                           (Controller.slot analysisResult "faculty_id"));
                  ("roomId", Controller.slot analysisResult "room_id");
                  ("date", Controller.slot analysisResult "date")]
                 ++ Controller.time_params
                      (Controller.slot analysisResult "time_period")))
        = Returned found ->
        exists log' contextData rest,
          Controller.fetchRelevantData toLowerCase dbService analysisResult
            user log
          = (log', Returned contextData) /\
          Controller.data contextData = ("allocations", found) :: rest)
  /\ (forall dbService analysisResult user found log,
        get analysisResult "intent" = Returned (JStr "student_allocation") ->
        Controller.findStudentAllocations dbService
          (JObj ([("roomNumber", Controller.slot analysisResult "room_number");
                  ("semester", Controller.slot analysisResult "semester");
                  ("student", Controller.slot analysisResult "student");
                  ("date", Controller.slot analysisResult "date")]
                 ++ Controller.time_params
                      (Controller.slot analysisResult "time_period")))
        = Returned found ->
        exists log' contextData rest,
          Controller.fetchRelevantData toLowerCase dbService analysisResult
            user log
          = (log', Returned contextData) /\
          Controller.data contextData = ("studentAllocations", found) :: rest)
  /\ (forall contextData,
        Controller.formatContextData toLocaleDateString contextData
        = Controller.formatContextData toLocaleDateString
            {| Controller.intent := Controller.intent contextData;
               Controller.data :=
                 Views.with_something (Controller.data contextData);
               Controller.userRole := Controller.userRole contextData;
               Controller.userName := Controller.userName contextData |})
  /\ (forall dataType data,
        Views.nothing_in data = true ->
        Controller.format_dataset toLocaleDateString (dataType, data)
        = Returned "")
  /\ (forall dataType data,
        In dataType Views.router_keys ->
        Views.nothing_in data = false ->
        Controller.format_dataset toLocaleDateString (dataType, data)
        = obind (Controller.render_dataset toLocaleDateString dataType data)
            (fun body => Returned (cat [toUpperCase dataType; ":"; nl; body]))).
Proof.
  split; [intros; now apply exam_info_keeps_lookup_result |].
  split; [intros; now apply room_info_keeps_lookup_result |].
  split; [intros; now apply faculty_allocation_keeps_lookup_result |].
  split; [intros; now apply student_allocation_keeps_lookup_result |].
  split; [| split].
  - intros contextData.
    unfold Controller.formatContextData, Views.with_something.
    cbn [Controller.data].
    pose proof (mapM_format_dataset_filter toLocaleDateString
                  (Controller.data contextData)) as Hsame.
    rewrite (filter_ext _ (fun entry => negb (Views.nothing_in (snd entry))))
      in Hsame
      by (intros entry; now rewrite is_empty_dataset_nothing_in).
    unfold omap in Hsame.
    destruct (mapM _ (List.filter _ _)) as [xs | e1];
      destruct (mapM _ (Controller.data contextData)) as [ys | e2];
      cbn [obind] in *; try congruence.
    injection Hsame as Hcat. unfold Controller.format_header.
    cbn [Controller.intent Controller.userRole Controller.userName].
    now rewrite Hcat.
  - intros dataType data Hnothing. apply format_dataset_empty.
    now rewrite is_empty_dataset_nothing_in.
  - intros dataType data _. apply format_dataset_with_something.
Qed.

(** C10. A bundle whose data holds a non-empty [facultyRoomAllocations]
    list is formatted as: the header, the sections of the keys before it,
    the bare line [FACULTYROOMALLOCATIONS:], the sections of the keys after
    it.  None of the list's records is rendered. *)
Theorem facultyRoomAllocations_bare_header
    (toLocaleDateString : value -> string)
    (intent userRole userName : value)
    (before after : list (string * value))
    (record : value) (records : list value) :
  let contextData :=
    {| Controller.intent := intent;
       Controller.data :=
         before
         ++ [("facultyRoomAllocations", JArr (record :: records))]
         ++ after;
       Controller.userRole := userRole;
       Controller.userName := userName |} in
  Controller.formatContextData toLocaleDateString contextData
  = obind (mapM (Controller.format_dataset toLocaleDateString) before)
      (fun earlier =>
       obind (mapM (Controller.format_dataset toLocaleDateString) after)
         (fun later =>
          Returned (Controller.format_header contextData
                    +:+ cat earlier
                    +:+ ("FACULTYROOMALLOCATIONS:" +:+ nl)
                    +:+ cat later))).
Proof.
  cbv zeta. unfold Controller.formatContextData. cbn [Controller.data].
  rewrite mapM_app.
  destruct (mapM _ before) as [earlier | e]; cbn [obind]; [| reflexivity].
  change (mapM (Controller.format_dataset toLocaleDateString)
            ([("facultyRoomAllocations", JArr (record :: records))] ++ after))
    with (obind (Returned ("FACULTYROOMALLOCATIONS:" +:+ nl))
            (fun y => obind (mapM (Controller.format_dataset toLocaleDateString)
                               after)
                        (fun ys => Returned (y :: ys)))).
  cbn [obind].
  destruct (mapM _ after) as [later | e]; cbn [obind]; [| reflexivity].
  now rewrite cat_app, cat_cons.
Qed.

(** ** The entity summarizer *)

Lemma get_of_record (v : value) (k : string) :
  is_record v -> exists x, get v k = Returned x.
Proof. destruct v; cbn; intros []; eauto. Qed.

Ltac in_list := cbn [In]; repeat (first [left; reflexivity | right]).

Section SummarizerFacts.

Variable formatDate : value -> string.




(** On records the allocation summary is returned. *)
Lemma buildAllocationText_total (alloc exam subject room faculty : value) :
  is_record alloc -> is_record exam -> is_record subject -> is_record room ->
  is_record faculty ->
  exists text,
    Routes.buildAllocationText formatDate alloc exam subject room faculty
    = Returned text.
Proof.
  intros Halloc Hexam Hsubject Hroom Hfaculty.
  unfold Routes.buildAllocationText.
  destruct (get_of_record exam "name" Hexam) as [? ->].
  destruct (get_of_record faculty "name" Hfaculty) as [? ->].
  destruct (get_of_record faculty "designation" Hfaculty) as [? ->].
  destruct (get_of_record subject "name" Hsubject) as [? ->].
  destruct (get_of_record subject "semester" Hsubject) as [? ->].
  destruct (get_of_record room "building" Hroom) as [? ->].
  destruct (get_of_record room "roomNumber" Hroom) as [? ->].
  destruct (get_of_record alloc "date" Halloc) as [? ->].
  destruct (get_of_record alloc "startTime" Halloc) as [? ->].
  destruct (get_of_record alloc "endTime" Halloc) as [? ->].
  cbn [obind]. eauto.
Qed.



(** *** On records: every field as its text, and when the text is there *)












End SummarizerFacts.


(** ** The semantic endpoint and the cache rebuild *)

Section RoutesFacts.

Variable formatDate : value -> string.
Variable embeddings_post : value -> outcome value.
Variable deleteAll_result : outcome value.
Variable insertOne_result : Routes.IndexedDocument -> outcome value.
Variable find_result : value -> outcome (list Routes.SearchHit).
Variable chat_post : Routes.ChatRequest -> outcome value.
Variable Exam_find Room_find Subject_find Allocation_find
         RoomAllocation_find Faculty_find : outcome (list value).

(** [getEmbedding] logs the call and returns the vector of the response;
    any failure on the way becomes the one error, and no vector. *)
Lemma getEmbedding_run (text : value) (w : Routes.World) :
  Routes.getEmbedding embeddings_post text w
  = (Routes.logged (Routes.Embeddings text) w,
     match obind (embeddings_post text) Routes.embedding_of with
     | Returned vector => Returned vector
     | Thrown _ => Thrown (Error "Failed to generate embeddings")
     end).
Proof.
  unfold Routes.getEmbedding, Routes.call, try_catch, bind, lift, ret, throw.
  destruct (embeddings_post text) as [response | e]; cbn [obind];
    [| reflexivity].
  destruct (Routes.embedding_of response); reflexivity.
Qed.

Lemma relevant_spec (results : list Routes.SearchHit) (r : Routes.SearchHit) :
  In r (Routes.relevant results)
  <-> In r results
      /\ PrimFloat.leb Routes.relevance_threshold (Routes.similarity r) = true.
Proof. unfold Routes.relevant. apply filter_In. Qed.

(** The three groups hold the contents of the kept results, each once. *)
Lemma contexts_partition (kept : list Routes.SearchHit) :
  Permutation
    (Routes.contexts_of "exam" kept
     ++ Routes.contexts_of "allocation" kept
     ++ Routes.contexts_of "room_allocation" kept)
    (map (fun r => Routes.content (Routes.document r)) kept).
Proof.
  induction kept as [| r kept IH]; [constructor |].
  unfold Routes.contexts_of in *. cbn [List.filter map].
  destruct (Routes.type (Routes.document r)); cbn [map].
  - cbn. now constructor.
  - symmetry. apply Permutation_cons_app. now symmetry.
  - symmetry. rewrite app_assoc. apply Permutation_cons_app.
    rewrite <- app_assoc. now symmetry.
Qed.

Lemma contexts_of_own_type (kept : list Routes.SearchHit) (r : Routes.SearchHit) :
  In r kept ->
  In (Routes.content (Routes.document r))
     (Routes.contexts_of (Routes.type_name (Routes.type (Routes.document r)))
        kept).
Proof.
  intros Hin. unfold Routes.contexts_of.
  apply in_map with (f := fun r => Routes.content (Routes.document r)).
  apply filter_In. split; [exact Hin |]. apply String.eqb_refl.
Qed.

Lemma occurs_section (title piece : string) (contexts : list string) :
  In piece contexts -> occurs piece (Routes.section title contexts).
Proof.
  intros Hin. unfold Routes.section.
  destruct contexts as [| first rest]; [destruct Hin |].
  cbn [length Nat.ltb Nat.leb].
  apply occurs_trans with (join (nl +:+ nl) (first :: rest)).
  - now apply occurs_join.
  - apply occurs_cat. in_list.
Qed.

(** Every result kept has its content in the context. *)
Lemma kept_content_rendered (kept : list Routes.SearchHit) (r : Routes.SearchHit) :
  In r kept ->
  occurs (Routes.content (Routes.document r)) (Routes.build_context kept).
Proof.
  intros Hin. pose proof (contexts_of_own_type kept r Hin) as Hgroup.
  unfold Routes.build_context.
  destruct (Routes.type (Routes.document r)).
  - apply occurs_trans
      with (Routes.section "EXAMS:" (Routes.contexts_of "exam" kept)).
    + now apply occurs_section.
    + apply occurs_cat. in_list.
  - apply occurs_trans
      with (Routes.section "FACULTY ALLOCATIONS:"
              (Routes.contexts_of "allocation" kept)).
    + now apply occurs_section.
    + apply occurs_cat. in_list.
  - apply occurs_trans
      with (Routes.section "ROOM ALLOCATIONS:"
              (Routes.contexts_of "room_allocation" kept)).
    + now apply occurs_section.
    + apply occurs_cat. in_list.
Qed.

(** *** The tasks of a rebuild *)

Lemma index_document_skipped (w : Routes.World) :
  Routes.index_document embeddings_post insertOne_result (Returned None) w
  = (w, Returned JNull).
Proof. reflexivity. Qed.

Lemma index_document_thrown (e : error) (w : Routes.World) :
  Routes.index_document embeddings_post insertOne_result (Thrown e) w
  = (w, Thrown e).
Proof. reflexivity. Qed.

(** A document whose embedding fails: the call is logged, nothing is
    inserted, the task rejects. *)
Lemma index_document_embedding_failure (content : string)
    (build : value -> outcome Routes.IndexedDocument) (e : error)
    (w : Routes.World) :
  embeddings_post (JStr content) = Thrown e ->
  Routes.index_document embeddings_post insertOne_result
    (Returned (Some (content, build))) w
  = (Routes.logged (Routes.Embeddings (JStr content)) w,
     Thrown (Error "Failed to generate embeddings")).
Proof.
  intros Hfails.
  unfold Routes.index_document, bind at 1, lift at 1. cbn [obind].
  unfold bind at 1. rewrite getEmbedding_run, Hfails. reflexivity.
Qed.

Lemma settle_all_app {A} (before after : list (M Routes.World A))
    (w : Routes.World) :
  Routes.settle_all (before ++ after) w
  = (fst (Routes.settle_all after (fst (Routes.settle_all before w))),
     snd (Routes.settle_all before w)
     ++ snd (Routes.settle_all after (fst (Routes.settle_all before w)))).
Proof.
  revert w. induction before as [| task before IH]; intros w.
  - cbn. now destruct (Routes.settle_all after w).
  - cbn [app Routes.settle_all].
    destruct (task w) as [w1 r]. rewrite IH.
    now destruct (Routes.settle_all before w1).
Qed.

Lemma mapM_id_thrown {A} (before after : list (outcome A)) (e : error) :
  exists e', mapM id (before ++ Thrown e :: after) = Thrown e'.
Proof.
  induction before as [| [a | e0] before [e' IH]]; cbn; eauto.
  rewrite IH. cbn. eauto.
Qed.

(** [Promise.all] over tasks one of which rejects: every task has run, and
    the whole rejects. *)
Lemma promise_all_rejects {A} (before after : list (M Routes.World A))
    (task : M Routes.World A) (w : Routes.World) (e : error) :
  let w1 := fst (Routes.settle_all before w) in
  snd (task w1) = Thrown e ->
  exists e',
    Routes.promise_all (before ++ task :: after) w
    = (fst (Routes.settle_all after (fst (task w1))), Thrown e').
Proof.
  intros w1 Hrejects. unfold Routes.promise_all.
  rewrite settle_all_app. fold w1. cbn [Routes.settle_all].
  destruct (task w1) as [w2 r] eqn:Htask. cbn [snd fst] in *. subst r.
  destruct (Routes.settle_all after w2) as [w3 rs]. cbn [fst snd].
  destruct (mapM_id_thrown (snd (Routes.settle_all before w)) rs e) as [e' ->].
  eauto.
Qed.

(** The rebuild up to its [Promise.all]: the response is decided by
    whether the tasks all fulfil. *)
Lemma cache_data_run (w : Routes.World) (docs : list Routes.IndexedDocument)
    (deleted : value)
    (exams rooms subjects allocations roomAllocations faculties : list value)
    (tasks : list (M Routes.World value)) :
  Routes.astraCollection w = Some docs ->
  deleteAll_result = Returned deleted ->
  Exam_find = Returned exams ->
  Room_find = Returned rooms ->
  Subject_find = Returned subjects ->
  Allocation_find = Returned allocations ->
  RoomAllocation_find = Returned roomAllocations ->
  Faculty_find = Returned faculties ->
  Routes.rebuild_tasks formatDate embeddings_post insertOne_result
    exams rooms subjects allocations roomAllocations faculties
  = Returned tasks ->
  Routes.cache_data formatDate embeddings_post deleteAll_result
    insertOne_result Exam_find Room_find Subject_find Allocation_find
    RoomAllocation_find Faculty_find w
  = (fst (Routes.promise_all tasks (Routes.sweep_started w)),
     match snd (Routes.promise_all tasks (Routes.sweep_started w)) with
     | Returned _ =>
         Routes.Cached (Routes.lengths_message exams allocations roomAllocations)
     | Thrown err => Routes.Failed ("Cache failed: " +:+ message err)
     end).
Proof.
  intros Hready Hdeleted -> -> -> -> -> -> Htasks.
  unfold Routes.cache_data, Routes.cache_data_try.
  unfold bind at 1. rewrite Hready. cbn [negb].
  unfold bind at 1, Routes.deleteAll. rewrite Hdeleted, Hready.
  unfold bind, lift, ret, Routes.settled, Routes.find_all, Routes.call,
    Routes.logged.
  cbn [Routes.log Routes.astraCollection fmap option_fmap option_map obind].
  rewrite Htasks.
  replace {| Routes.log := _; Routes.astraCollection := _ |}
    with (Routes.sweep_started w).
  - destruct (Routes.promise_all tasks (Routes.sweep_started w)) as [w' [vs | e]];
      reflexivity.
  - unfold Routes.sweep_started. f_equal. now rewrite <- !app_assoc.
Qed.

(** C3, as the code has it.  When the embedding call fails for the content
    of one document of a rebuild, no vector stands in for it and the
    document is not inserted (its task leaves the embedding call in the log
    and nothing else); the tasks before and after it run to their ends; and
    the rebuild as a whole is answered with status 500 and
    [Cache failed: ...]. *)
Theorem embedding_failure_fails_rebuild (w : Routes.World)
    (docs : list Routes.IndexedDocument) (deleted : value)
    (exams rooms subjects allocations roomAllocations faculties : list value)
    (before after : list (M Routes.World value))
    (content : string) (build : value -> outcome Routes.IndexedDocument)
    (e : error) :
  Routes.astraCollection w = Some docs ->
  deleteAll_result = Returned deleted ->
  Exam_find = Returned exams ->
  Room_find = Returned rooms ->
  Subject_find = Returned subjects ->
  Allocation_find = Returned allocations ->
  RoomAllocation_find = Returned roomAllocations ->
  Faculty_find = Returned faculties ->
  Routes.rebuild_tasks formatDate embeddings_post insertOne_result
    exams rooms subjects allocations roomAllocations faculties
  = Returned (before
              ++ Routes.index_document embeddings_post insertOne_result
                   (Returned (Some (content, build)))
              :: after) ->
  embeddings_post (JStr content) = Thrown e ->
  exists reason,
    Routes.cache_data formatDate embeddings_post deleteAll_result
      insertOne_result Exam_find Room_find Subject_find Allocation_find
      RoomAllocation_find Faculty_find w
    = (fst (Routes.settle_all after
              (Routes.logged (Routes.Embeddings (JStr content))
                 (fst (Routes.settle_all before (Routes.sweep_started w))))),
       Routes.Failed ("Cache failed: " +:+ message reason)).
Proof.
  intros Hready Hdeleted Hexams Hrooms Hsubjects Hallocs Hroomallocs Hfaculties
    Htasks Hfails.
  rewrite (cache_data_run w docs deleted _ _ _ _ _ _ _ Hready Hdeleted Hexams
             Hrooms Hsubjects Hallocs Hroomallocs Hfaculties Htasks).
  pose proof (index_document_embedding_failure content build e
                (fst (Routes.settle_all before (Routes.sweep_started w)))
                Hfails) as Htask.
  destruct (promise_all_rejects before after
              (Routes.index_document embeddings_post insertOne_result
                 (Returned (Some (content, build))))
              (Routes.sweep_started w)
              (Error "Failed to generate embeddings")) as [reason Hall].
  { cbv zeta. now rewrite Htask. }
  rewrite Hall, Htask. cbn [fst snd]. eauto.
Qed.

(** [POST /admin] without a query: rejected before any call. *)
Lemma admin_rejects_missing_query (body query : value) (w : Routes.World) :
  Routes.destructure body "query" = Returned query ->
  truthy query = false ->
  Routes.admin embeddings_post find_result chat_post body w
  = (w, Routes.Failed "Chatbot failed: Query is required").
Proof.
  intros Hquery Hfalsy.
  unfold Routes.admin, Routes.admin_try, bind, lift.
  now rewrite Hquery, Hfalsy.
Qed.

(** Unresolved joins, as the guard sees them: the references are there but
    one of the lookup maps has no record for its id.  The callback returns
    [null] and nothing is indexed. *)
Lemma prepare_alloc_skips_unresolved
    (examMap subjectMap roomMap facultyMap : gmap string value)
    (alloc : value) (examKey subjectKey roomKey facultyKey : string) :
  Routes.ref_id alloc "examId" = Returned examKey ->
  Routes.ref_id alloc "subjectId" = Returned subjectKey ->
  Routes.ref_id alloc "roomId" = Returned roomKey ->
  Routes.ref_id alloc "facultyId" = Returned facultyKey ->
  truthy (Routes.map_get examMap examKey)
  && truthy (Routes.map_get subjectMap subjectKey)
  && truthy (Routes.map_get roomMap roomKey)
  && truthy (Routes.map_get facultyMap facultyKey) = false ->
  Routes.prepare_alloc formatDate examMap subjectMap roomMap facultyMap alloc
  = Returned None.
Proof.
  intros Hexam Hsubject Hroom Hfaculty Hmissing.
  unfold Routes.prepare_alloc.
  rewrite Hexam, Hsubject, Hroom, Hfaculty. cbn [obind].
  destruct (truthy (Routes.map_get examMap examKey));
    destruct (truthy (Routes.map_get subjectMap subjectKey));
    destruct (truthy (Routes.map_get roomMap roomKey));
    destruct (truthy (Routes.map_get facultyMap facultyKey));
    try discriminate; reflexivity.
Qed.

(** A reference that [populate] left [null], its target deleted: the
    callback throws on reading the reference's [_id], before the guard. *)
Lemma prepare_alloc_throws_on_null_reference
    (examMap subjectMap roomMap facultyMap : gmap string value)
    (alloc : value) :
  get alloc "examId" = Returned JNull ->
  Routes.prepare_alloc formatDate examMap subjectMap roomMap facultyMap alloc
  = Thrown (TypeError "Cannot read properties of null (reading '_id')").
Proof.
  intros Hnull. unfold Routes.prepare_alloc, Routes.ref_id.
  now rewrite Hnull.
Qed.

(** Whenever the rebuild gets as far as its tasks, one allocation whose
    exam reference is [null] is enough for the whole to be answered with
    [Cache failed]. *)
Lemma null_reference_fails_rebuild (w : Routes.World)
    (docs : list Routes.IndexedDocument) (deleted : value)
    (exams rooms subjects allocations roomAllocations faculties : list value)
    (examMap roomMap subjectMap facultyMap : gmap string value)
    (alloc : value) :
  Routes.astraCollection w = Some docs ->
  deleteAll_result = Returned deleted ->
  Exam_find = Returned exams ->
  Room_find = Returned rooms ->
  Subject_find = Returned subjects ->
  Allocation_find = Returned allocations ->
  RoomAllocation_find = Returned roomAllocations ->
  Faculty_find = Returned faculties ->
  Routes.by_id exams = Returned examMap ->
  Routes.by_id rooms = Returned roomMap ->
  Routes.by_id subjects = Returned subjectMap ->
  Routes.by_id faculties = Returned facultyMap ->
  In alloc allocations ->
  get alloc "examId" = Returned JNull ->
  exists reason,
    snd (Routes.cache_data formatDate embeddings_post deleteAll_result
           insertOne_result Exam_find Room_find Subject_find Allocation_find
           RoomAllocation_find Faculty_find w)
    = Routes.Failed ("Cache failed: " +:+ message reason).
Proof.
  intros Hready Hdeleted Hexams Hrooms Hsubjects Hallocs Hroomallocs Hfaculties
    HexamMap HroomMap HsubjectMap HfacultyMap Hin Hnull.
  destruct (in_split _ _ Hin) as (earlier & later & ->).
  assert (Htasks :
    Routes.rebuild_tasks formatDate embeddings_post insertOne_result
      exams rooms subjects (earlier ++ alloc :: later) roomAllocations faculties
    = Returned
        ((map (fun exam =>
                 Routes.index_document embeddings_post insertOne_result
                   (Routes.prepare_exam formatDate subjects facultyMap roomMap
                      exam)) exams
          ++ map (fun alloc =>
                    Routes.index_document embeddings_post insertOne_result
                      (Routes.prepare_alloc formatDate examMap subjectMap
                         roomMap facultyMap alloc)) earlier)
         ++ Routes.index_document embeddings_post insertOne_result
              (Routes.prepare_alloc formatDate examMap subjectMap roomMap
                 facultyMap alloc)
         :: (map (fun alloc =>
                    Routes.index_document embeddings_post insertOne_result
                      (Routes.prepare_alloc formatDate examMap subjectMap
                         roomMap facultyMap alloc)) later
             ++ map (fun roomAlloc =>
                       Routes.index_document embeddings_post insertOne_result
                         (Routes.prepare_room_alloc formatDate examMap roomMap
                            subjectMap roomAlloc)) roomAllocations))).
  { unfold Routes.rebuild_tasks.
    rewrite HexamMap, HroomMap, HsubjectMap, HfacultyMap. cbn [obind].
    rewrite map_app. cbn [map]. now rewrite <- !app_assoc. }
  rewrite (cache_data_run w docs deleted _ _ _ _ _ _ _ Hready Hdeleted Hexams
             Hrooms Hsubjects Hallocs Hroomallocs Hfaculties Htasks).
  match goal with
  | |- context [Routes.promise_all (?before ++ ?task :: ?after) ?w0] =>
      destruct (promise_all_rejects before after task w0
                  (TypeError "Cannot read properties of null (reading '_id')"))
        as [reason Hall]
  end.
  - cbv zeta.
    now rewrite (prepare_alloc_throws_on_null_reference _ _ _ _ _ Hnull).
  - rewrite Hall. cbn [snd]. eauto.
Qed.

(** *** The context, group by group *)

Lemma contexts_of_type (t : Routes.DocType) (kept : list Routes.SearchHit) :
  Routes.contexts_of (Routes.type_name t) kept = Views.contents_of_type t kept.
Proof.
  unfold Routes.contexts_of, Views.contents_of_type. f_equal.
  apply filter_ext. intros r.
  now destruct (Routes.type (Routes.document r)), t.
Qed.

Lemma section_titled_group (title : string) (contexts : list string) :
  Routes.section title contexts = Views.titled_group title contexts.
Proof.
  unfold Routes.section, Views.titled_group.
  destruct contexts as [| first rest]; [reflexivity |].
  cbn [length Nat.ltb Nat.leb]. rewrite !cat_cons.
  change (cat []) with "". now rewrite append_nil_r.
Qed.

(** The context is the heading and the three groups, exams first. *)
Lemma build_context_grouped (kept : list Routes.SearchHit) :
  Routes.build_context kept = Views.grouped_context kept.
Proof.
  unfold Routes.build_context, Views.grouped_context.
  rewrite !cat_cons. change (cat []) with "". rewrite append_nil_r.
  rewrite !section_titled_group.
  now rewrite (contexts_of_type Routes.type_exam),
    (contexts_of_type Routes.type_allocation),
    (contexts_of_type Routes.type_room_allocation).
Qed.

(** The request posted: the rules, then the context, then the query. *)
Lemma admin_request_shape (context : string) (query : value) :
  exists rules,
    Routes.admin_request context query
    = {| Routes.model := "llama-3.2-1b-instruct";
         Routes.messages :=
           [JObj [("role", JStr "system");
                  ("content", JStr (rules +:+ context))];
            JObj [("role", JStr "user"); ("content", query)]];
         Routes.temperature := 0.1%float;
         Routes.max_tokens := 600 |}.
Proof.
  unfold Routes.admin_request, Routes.admin_system_prompt.
  match goal with
  | |- context [cat ?pieces] =>
      let before := eval cbv [removelast] in (removelast pieces) in
      exists (cat before);
      change (cat pieces) with (cat (before ++ [context]))
  end.
  rewrite cat_app, (cat_cons context). change (cat []) with "".
  now rewrite append_nil_r.
Qed.

(** C4. On a semantic query whose search returned [results]: the results
    kept are exactly those with similarity at least 0.3, in the order of the
    search; the context built from them is the heading followed by three
    groups, [EXAMS:], [FACULTY ALLOCATIONS:] and [ROOM ALLOCATIONS:] in this
    order, each holding the contents of the kept results of its
    [metadata.type] a blank line apart and each left out when it has none;
    when no result is kept the endpoint answers with the fixed text and the
    only calls made are the embedding and the search; otherwise the
    chat-completion request is posted, with the rules followed by that
    context as system message and the query as user message. *)
Theorem admin_relevance_threshold (body query vector : value)
    (results : list Routes.SearchHit) (docs : list Routes.IndexedDocument)
    (w : Routes.World) :
  Routes.destructure body "query" = Returned query ->
  truthy query = true ->
  Routes.astraCollection w = Some docs ->
  obind (embeddings_post query) Routes.embedding_of = Returned vector ->
  find_result vector = Returned results ->
  let kept := Routes.relevant results in
  let outcome := Routes.admin embeddings_post find_result chat_post body w in
  kept
  = List.filter (fun r => PrimFloat.leb 0.3%float (Routes.similarity r))
                results /\
  (forall r, In r kept
             <-> In r results
                 /\ PrimFloat.leb 0.3%float (Routes.similarity r) = true) /\
  Routes.build_context kept = Views.grouped_context kept /\
  Permutation
    (Routes.contexts_of "exam" kept
     ++ Routes.contexts_of "allocation" kept
     ++ Routes.contexts_of "room_allocation" kept)
    (map (fun r => Routes.content (Routes.document r)) kept) /\
  (forall r, In r kept ->
             occurs (Routes.content (Routes.document r))
                    (Routes.build_context kept)) /\
  (kept = [] ->
   snd outcome
   = Routes.NoData "No relevant exam data available for this query." /\
   Routes.log (fst outcome)
   = Routes.log w ++ [Routes.Embeddings query;
                      Routes.VectorFind vector 7 0.25%float]) /\
  (kept <> [] ->
   Routes.log (fst outcome)
   = Routes.log w
     ++ [Routes.Embeddings query;
         Routes.VectorFind vector 7 0.25%float;
         Routes.ChatCompletions
           (Routes.admin_request (Routes.build_context kept) query)]) /\
  (kept <> [] ->
   exists rules,
     Routes.log (fst outcome)
     = Routes.log w
       ++ [Routes.Embeddings query;
           Routes.VectorFind vector 7 0.25%float;
           Routes.ChatCompletions
             {| Routes.model := "llama-3.2-1b-instruct";
                Routes.messages :=
                  [JObj [("role", JStr "system");
                         ("content",
                          JStr (rules +:+ Views.grouped_context kept))];
                   JObj [("role", JStr "user"); ("content", query)]];
                Routes.temperature := 0.1%float;
                Routes.max_tokens := 600 |}]).
Proof.
  intros Hquery Htruthy Hready Hvector Hfound kept outcome.
  split; [reflexivity |].
  split; [intros r; apply relevant_spec |].
  split; [apply build_context_grouped |].
  split; [apply contexts_partition |].
  split; [apply kept_content_rendered |].
  assert (Hrun : Routes.admin_try embeddings_post find_result chat_post body w
                 = if (length kept =? 0)%nat
                   then (Routes.logged (Routes.VectorFind vector 7 0.25%float)
                           (Routes.logged (Routes.Embeddings query) w),
                         Returned (Routes.NoData Routes.no_relevant_data))
                   else
                     let request :=
                       Routes.admin_request (Routes.build_context kept) query in
                     bind (Routes.call (Routes.ChatCompletions request)
                             (chat_post request))
                       (fun response =>
                          bind (lift (Routes.answer_of response))
                            (fun answer =>
                               ret (Routes.Answer answer
                                      (map (fun r => Routes.type (Routes.document r))
                                           kept)
                                      (Routes.similarity <$> head kept))))
                       (Routes.logged (Routes.VectorFind vector 7 0.25%float)
                          (Routes.logged (Routes.Embeddings query) w))).
  { unfold Routes.admin_try. unfold bind at 1, lift at 1.
    rewrite Hquery, Htruthy. cbn [negb].
    unfold bind at 1. rewrite getEmbedding_run, Hvector.
    unfold bind at 1, Routes.vector_search.
    cbn [Routes.logged Routes.astraCollection]. rewrite Hready, Hfound.
    fold kept. destruct (length kept =? 0)%nat; reflexivity. }
  assert (Hposted :
    kept <> [] ->
    Routes.log (fst outcome)
    = Routes.log w
      ++ [Routes.Embeddings query;
          Routes.VectorFind vector 7 0.25%float;
          Routes.ChatCompletions
            (Routes.admin_request (Routes.build_context kept) query)]).
  { subst outcome. unfold Routes.admin. rewrite Hrun.
    intros Hsome.
    destruct kept as [| r kept'] eqn:Hkept; [congruence |].
    cbn [length Nat.eqb]. cbv zeta.
    unfold bind, lift, ret, Routes.call.
    destruct (chat_post _) as [response | e]; cbn [fst].
    + destruct (Routes.answer_of response); cbn [fst Routes.logged Routes.log];
        now rewrite <- !app_assoc.
    + cbn [fst Routes.logged Routes.log]. now rewrite <- !app_assoc. }
  split; [| split; [exact Hposted |]].
  - subst outcome. unfold Routes.admin. rewrite Hrun.
    intros Hnone. rewrite Hnone. cbn. rewrite <- app_assoc. now split.
  - intros Hsome. rewrite (Hposted Hsome).
    destruct (admin_request_shape (Routes.build_context kept) query)
      as [rules Hshape].
    exists rules. now rewrite Hshape, build_context_grouped.
Qed.

End RoutesFacts.

(** ** The validated endpoint of [chatbot.js] *)

Section ChatbotFacts.

Variable trim : string -> string.
Variable GROQ_API_KEY vectorStore : value.
Variable kb_initialize : outcome value.
Variable kb_query : value -> outcome value.
Variable formatDocumentsAsString : value -> outcome string.
Variable invoke : list Chatbot.Message -> outcome value.
Variable addMessage : value -> string -> value -> value -> outcome value.

Lemma validateChatHistory_idempotent (chatHistory : value) :
  Chatbot.validateChatHistory (JArr (Chatbot.validateChatHistory chatHistory))
  = Chatbot.validateChatHistory chatHistory.
Proof.
  unfold Chatbot.validateChatHistory.
  destruct chatHistory as [| | | | | entries |]; try reflexivity.
  induction entries as [| entry entries IH]; [reflexivity |].
  cbn [List.filter].
  destruct (Chatbot.valid_entry entry) eqn:Hentry; [| exact IH].
  cbn [List.filter]. rewrite Hentry. now f_equal.
Qed.

(** A malformed message is rejected before anything is called. *)
Lemma generateResponse_rejects_message
    (userInput chatHistory sessionId userId : value)
    (log : list Chatbot.event) :
  Chatbot.invalid_message trim userInput = true ->
  Chatbot.generateResponse trim GROQ_API_KEY vectorStore kb_initialize kb_query
    formatDocumentsAsString invoke addMessage
    userInput chatHistory sessionId userId log
  = (log, Thrown (Error "Invalid message format")).
Proof.
  intros Hinvalid.
  unfold Chatbot.generateResponse, try_catch, bind at 1, lift at 1,
    Chatbot.validateMessage.
  now rewrite Hinvalid.
Qed.

(** Whatever the history is, the call goes the way it goes on the entries
    of it that are valid. *)
Lemma generateResponse_sanitizes_history
    (userInput chatHistory sessionId userId : value)
    (log : list Chatbot.event) :
  Chatbot.generateResponse trim GROQ_API_KEY vectorStore kb_initialize kb_query
    formatDocumentsAsString invoke addMessage
    userInput chatHistory sessionId userId log
  = Chatbot.generateResponse trim GROQ_API_KEY vectorStore kb_initialize
      kb_query formatDocumentsAsString invoke addMessage
      userInput (JArr (Chatbot.validateChatHistory chatHistory))
      sessionId userId log.
Proof.
  unfold Chatbot.generateResponse.
  now rewrite validateChatHistory_idempotent.
Qed.

(** With a well-formed message and the knowledge base in place, the
    knowledge base is queried: no history stops the call before that. *)
Lemma generateResponse_reaches_retrieval
    (userInput chatHistory sessionId userId : value)
    (log : list Chatbot.event) :
  Chatbot.invalid_message trim userInput = false ->
  truthy vectorStore = true ->
  exists later,
    fst (Chatbot.generateResponse trim GROQ_API_KEY vectorStore kb_initialize
           kb_query formatDocumentsAsString invoke addMessage
           userInput chatHistory sessionId userId log)
    = log ++ Chatbot.KbQuery userInput :: later.
Proof.
  intros Hvalid Hstore.
  unfold Chatbot.generateResponse, try_catch, bind at 1, lift at 1,
    Chatbot.validateMessage.
  rewrite Hvalid, Hstore. cbn [negb when].
  unfold bind at 1, ret at 1. unfold bind at 1, Chatbot.call at 1.
  destruct (kb_query userInput) as [relevantDocs | e];
    [| exists []; reflexivity].
  unfold bind at 1, lift at 1.
  destruct (formatDocumentsAsString relevantDocs) as [context | e];
    [| exists []; reflexivity].
  unfold bind at 1, lift at 1.
  destruct (Chatbot.history_messages _) as [past | e];
    [| exists []; reflexivity].
  unfold bind at 1, lift at 1.
  destruct Chatbot.initChatModel as [[] | e]; [| exists []; reflexivity].
  unfold bind at 1, Chatbot.call at 1.
  destruct (invoke _) as [response | e];
    [| eexists; cbn [fst]; rewrite <- app_assoc; reflexivity].
  unfold bind at 1, lift at 1.
  destruct (get response "content") as [responseContent | e];
    [| eexists; cbn [fst]; rewrite <- app_assoc; reflexivity].
  destruct (truthy sessionId); cbn [when].
  - unfold bind, Chatbot.call, ret.
    destruct (addMessage sessionId "user" userInput userId);
      [destruct (addMessage sessionId "assistant" responseContent userId) |];
      eexists; cbn [fst]; rewrite <- !app_assoc; reflexivity.
  - unfold bind, ret. eexists; cbn [fst]; rewrite <- app_assoc; reflexivity.
Qed.

End ChatbotFacts.

Lemma valid_entry_well_formed (entry : value) :
  Chatbot.valid_entry entry = Views.well_formed_entry entry.
Proof.
  unfold Chatbot.valid_entry, Views.well_formed_entry.
  destruct entry as [| | flag | n | text | items | props];
    cbn [truthy typeof_object get]; try reflexivity;
    try (now rewrite andb_false_r).
  destruct (assoc "role" props) as [[| | | | role | |] |];
    cbn [default is_str orb andb]; try reflexivity.
  destruct (assoc "content" props) as [[| | | | content | |] |];
    cbn [default typeof_string];
    try apply andb_false_r.
  apply andb_true_r.
Qed.

Lemma validateChatHistory_sanitized (chatHistory : value) :
  Chatbot.validateChatHistory chatHistory = Views.sanitized chatHistory.
Proof.
  destruct chatHistory; try reflexivity.
  cbn. apply filter_ext. exact valid_entry_well_formed.
Qed.

(** C9, as the code has it.  A malformed query is rejected before anything
    is retrieved: [generateResponse] of [chatbot.js] throws
    [Invalid message format] on a message that is not a non-blank string,
    and [POST /admin] answers [Query is required] on a missing query, nothing
    being called in either case.  A malformed history is not rejected: what
    the validator gives is nothing for a history that is not an array and,
    for an array, its entries that are objects with [role] [user] or
    [assistant] and a text as [content], in their order, the others being
    dropped; the call goes as it does on that history, and the knowledge
    base is queried. *)
Theorem malformed_query_rejected_history_sanitized
    (trim : string -> string) (GROQ_API_KEY vectorStore : value)
    (kb_initialize : outcome value) (kb_query : value -> outcome value)
    (formatDocumentsAsString : value -> outcome string)
    (invoke : list Chatbot.Message -> outcome value)
    (addMessage : value -> string -> value -> value -> outcome value)
    (embeddings_post : value -> outcome value)
    (find_result : value -> outcome (list Routes.SearchHit))
    (chat_post : Routes.ChatRequest -> outcome value) :
  let generateResponse :=
    Chatbot.generateResponse trim GROQ_API_KEY vectorStore kb_initialize
      kb_query formatDocumentsAsString invoke addMessage in
  (forall userInput chatHistory sessionId userId log,
     Chatbot.invalid_message trim userInput = true ->
     generateResponse userInput chatHistory sessionId userId log
     = (log, Thrown (Error "Invalid message format")))
  /\ (forall body query w,
        Routes.destructure body "query" = Returned query ->
        truthy query = false ->
        Routes.admin embeddings_post find_result chat_post body w
        = (w, Routes.Failed "Chatbot failed: Query is required"))
  /\ (forall chatHistory,
        Chatbot.validateChatHistory chatHistory = Views.sanitized chatHistory)
  /\ (forall userInput chatHistory sessionId userId log,
        generateResponse userInput chatHistory sessionId userId log
        = generateResponse userInput (JArr (Views.sanitized chatHistory))
            sessionId userId log)
  /\ (forall userInput chatHistory sessionId userId log,
        Chatbot.invalid_message trim userInput = false ->
        truthy vectorStore = true ->
        exists later,
          fst (generateResponse userInput chatHistory sessionId userId log)
          = log ++ Chatbot.KbQuery userInput :: later).
Proof.
  cbv zeta. split; [apply generateResponse_rejects_message |].
  split; [apply admin_rejects_missing_query |].
  split; [exact validateChatHistory_sanitized |].
  split.
  - intros userInput chatHistory sessionId userId log.
    rewrite <- validateChatHistory_sanitized.
    apply generateResponse_sanitizes_history.
  - apply generateResponse_reaches_retrieval.
Qed.

(** ** The properties at sample inputs *)

(** C1 fails for a caller that is absent: no user is given, the role is not
    Admin, and the bundle holds the global [stats], not [facultyStats]. *)
Lemma system_stats_absent_user_gets_global_stats :
  Controller.has_role JNull "Admin" = false /\
  Controller.fetchRelevantData Samples.ascii_lower Samples.empty_db
    (Samples.classified "system_stats") JNull []
  = ([Controller.DbCall "getSystemStats" []],
     Returned {| Controller.intent := JStr "system_stats";
                 Controller.data :=
                   [("stats", JObj [("totalExams", JNum 3);
                                    ("totalRooms", JNum 8)])];
                 Controller.userRole := JNull;
                 Controller.userName := JNull |}).
Proof. split; reflexivity. Qed.

Lemma system_stats_by_caller_witness :
  get (Samples.classified "system_stats") "intent"
  = Returned (JStr "system_stats") /\
  exists log' contextData,
    Controller.fetchRelevantData Samples.ascii_lower Samples.empty_db
      (Samples.classified "system_stats") Samples.rao []
    = (log', Returned contextData) /\
    assoc "stats" (Controller.data contextData) = None /\
    Controller.data contextData
    = [("facultyStats", JObj [("totalAllocations", JNum 0);
                              ("upcomingAllocations", JNum 0);
                              ("pastAllocations", JNum 0)])].
Proof.
  split; [reflexivity |].
  destruct (system_stats_by_caller Samples.ascii_lower Samples.empty_db
              (Samples.classified "system_stats") Samples.rao [] eq_refl)
    as (log' & contextData & Hrun & Hnone & Hdata).
  exists log', contextData. split; [exact Hrun |]. split; [exact Hnone |].
  exact Hdata.
Defined.

(** C5 fails on a lookup that finds nothing: the bundle holds the key
    [exams] with the empty list as its value. *)
Lemma exam_info_bundle_holds_empty_list :
  Controller.fetchRelevantData Samples.ascii_lower Samples.empty_db
    (Samples.classified "exam_info") JNull []
  = ([Controller.DbCall "findExams"
        [JObj [("name", JUndef); ("year", JUndef); ("semester", JUndef)]]],
     Returned {| Controller.intent := JStr "exam_info";
                 Controller.data := [("exams", JArr [])];
                 Controller.userRole := JNull;
                 Controller.userName := JNull |}).
Proof. reflexivity. Qed.

Lemma formatContextData_omits_empty_datasets_witness :
  Views.nothing_in (JArr []) = true /\
  (exists log' contextData rest,
     Controller.fetchRelevantData Samples.ascii_lower Samples.empty_db
       (Samples.classified "exam_info") JNull []
     = (log', Returned contextData) /\
     Controller.data contextData = ("exams", JArr []) :: rest) /\
  Controller.format_dataset Samples.plain_date ("exams", JArr [])
  = Returned "".
Proof.
  split; [reflexivity |].
  destruct (formatContextData_omits_empty_datasets Samples.ascii_lower
              Samples.plain_date)
    as (Hexams & _ & _ & _ & _ & Hnothing & _).
  split.
  - apply Hexams; reflexivity.
  - apply Hnothing. reflexivity.
Defined.

Lemma generateResponse_failure_apology_witness :
  (forall request,
     Samples.chat_down request
     = Thrown (Error "connect ECONNREFUSED 127.0.0.1:1234")) /\
  snd (Controller.generateResponse "http://localhost:1234/v1" "local-model"
         Samples.chat_down Samples.ascii_trim
         (JStr "When is my next duty?") "CONTEXT" [] Samples.rao [])
  = Returned Controller.generateResponse_apology.
Proof.
  split; [reflexivity |].
  apply (generateResponse_failure_apology "http://localhost:1234/v1"
           "local-model" Samples.chat_down Samples.ascii_trim
           (JStr "When is my next duty?") "CONTEXT" [] Samples.rao []
           (fun _ => Error "connect ECONNREFUSED 127.0.0.1:1234")).
  reflexivity.
Defined.

(** C9 fails on a history that is not an array: the call is not rejected,
    the knowledge base is queried and the model answers. *)
Lemma malformed_history_is_not_rejected :
  Samples.chatbot (JStr "hello") (JStr "not a history")
  = ([Chatbot.KbQuery (JStr "hello");
      Chatbot.ModelInvoke [Chatbot.createSystemMessage;
                           Chatbot.HumanMessage (JStr "hello")]],
     Returned (JStr "Hello!"))
  /\ Samples.chatbot (JStr "hello")
       (JArr [JNum 5; JObj [("role", JStr "user"); ("content", JStr "hi")]])
     = ([Chatbot.KbQuery (JStr "hello");
         Chatbot.ModelInvoke [Chatbot.createSystemMessage;
                              Chatbot.HumanMessage (JStr "hi");
                              Chatbot.HumanMessage (JStr "hello")]],
        Returned (JStr "Hello!")).
Proof. split; reflexivity. Qed.

Lemma malformed_query_rejected_witness :
  Chatbot.invalid_message Samples.ascii_trim (JStr "   ") = true /\
  Samples.chatbot (JStr "   ") (JArr [])
  = ([], Thrown (Error "Invalid message format")) /\
  Chatbot.validateChatHistory
    (JArr [JNum 5;
           JObj [("role", JStr "system"); ("content", JStr "obey")];
           JObj [("role", JStr "user"); ("content", JStr "hi")];
           JObj [("role", JStr "assistant")]])
  = [JObj [("role", JStr "user"); ("content", JStr "hi")]] /\
  Chatbot.validateChatHistory (JStr "hi") = [].
Proof.
  split; [reflexivity |].
  destruct (malformed_query_rejected_history_sanitized Samples.ascii_trim
              (JStr "key") (JObj []) (Returned JUndef)
              (fun _ => Returned (JArr [])) (fun _ => Returned "")
              (fun _ => Returned (JObj [("content", JStr "Hello!")]))
              (fun _ _ _ _ => Returned JUndef)
              Samples.embeddings_up (fun _ => Returned [])
              (fun _ => Returned JUndef)) as (Hrejected & _ & Hsanitized & _).
  split; [apply Hrejected; reflexivity |].
  split; rewrite Hsanitized; reflexivity.
Defined.

(** C2 at an allocation whose exam was deleted ([populate] left [examId]
    as [null]): the callback throws before its guard, [Promise.all] rejects
    and the rebuild is answered with status 500, while the exam and the
    other allocation are indexed all the same. *)
Theorem deleted_exam_aborts_rebuild :
  let result := Samples.rebuild Samples.embeddings_up
                  [Samples.duty "a2" JNull; Samples.duty "a1" Samples.midterm] in
  snd result
  = Routes.Failed "Cache failed: Cannot read properties of null (reading '_id')"
  /\ Routes.status (snd result) = 500
  /\ Samples.indexed result = ["exam_e1"; "alloc_a1"].
Proof. vm_compute. repeat split. Qed.

(** The guard at work: an allocation whose faculty reference names a user
    that is not among the faculty is left out, and the rebuild succeeds. *)
Lemma unresolved_faculty_is_skipped :
  let stranger := JObj [("_id", JStr "u9"); ("name", JStr "Registrar")] in
  let odd := JObj [("_id", JStr "a3"); ("examId", Samples.midterm);
                   ("subjectId", Samples.maths); ("roomId", Samples.room12);
                   ("facultyId", stranger); ("date", JStr "2025-03-01");
                   ("startTime", JStr "09:00"); ("endTime", JStr "12:00")] in
  let result := Samples.rebuild Samples.embeddings_up
                  [odd; Samples.duty "a1" Samples.midterm] in
  snd result
  = Routes.Cached
      "Data cached successfully: 1 exams, 2 allocations, 0 room allocations"
  /\ Samples.indexed result = ["exam_e1"; "alloc_a1"].
Proof. vm_compute. repeat split. Qed.

(** C3 fails where the embedding of one document fails: the rebuild is
    answered with status 500 and [Cache failed], though the other document
    is indexed. *)
Lemma failed_embedding_fails_the_rebuild :
  let result := Samples.rebuild Samples.embeddings_down_for_exams
                  [Samples.duty "a1" Samples.midterm] in
  snd result = Routes.Failed "Cache failed: Failed to generate embeddings"
  /\ Routes.status (snd result) = 500
  /\ Samples.indexed result = ["alloc_a1"].
Proof. vm_compute. repeat split. Qed.



Lemma admin_relevance_threshold_witness :
  let body := JObj [("query", JStr "When is the midterm?")] in
  let kept := Routes.relevant Samples.three_hits in
  map (fun r => Routes._id (Routes.document r)) kept = ["alloc_a1"; "exam_e1"]
  /\ Routes.build_context kept
     = cat ["Exam System Information:"; nl; nl;
            "EXAMS:"; nl; "summary of exam_e1"; nl; nl;
            "FACULTY ALLOCATIONS:"; nl; "summary of alloc_a1"; nl; nl]
  /\ (Routes.relevant [Samples.hit "roomalloc_ra1" Routes.type_room_allocation
                         0.27%float] = [] ->
      snd (Samples.ask [Samples.hit "roomalloc_ra1" Routes.type_room_allocation
                          0.27%float] body)
      = Routes.NoData "No relevant exam data available for this query.")
  /\ Routes.log (fst (Samples.ask Samples.three_hits body))
     = [Routes.Embeddings (JStr "When is the midterm?");
        Routes.VectorFind (JArr [JNum 1; JNum 2]) 7 0.25%float;
        Routes.ChatCompletions
          (Routes.admin_request (Routes.build_context kept)
             (JStr "When is the midterm?"))].
Proof.
  cbv zeta. split; [reflexivity |].
  assert (Hsample :=
    admin_relevance_threshold Samples.embeddings_up
      (fun _ => Returned Samples.three_hits)
      (fun _ => Returned (JObj [("data", JObj [("choices",
         JArr [JObj [("message",
           JObj [("content", JStr "On 1 March.")])]])])]))
      (JObj [("query", JStr "When is the midterm?")])
      (JStr "When is the midterm?") (JArr [JNum 1; JNum 2])
      Samples.three_hits
      [] Samples.fresh eq_refl eq_refl eq_refl eq_refl eq_refl).
  cbv zeta in Hsample.
  destruct Hsample as (_ & _ & Hgrouped & _ & _ & _ & Hsome & _).
  split; [rewrite Hgrouped; reflexivity |].
  split.
  - intros Hnone.
    destruct (admin_relevance_threshold Samples.embeddings_up
                (fun _ => Returned [Samples.hit "roomalloc_ra1"
                                      Routes.type_room_allocation 0.27%float])
                (fun _ => Returned (JObj [("data", JObj [("choices",
                   JArr [JObj [("message",
                     JObj [("content", JStr "On 1 March.")])]])])]))
                (JObj [("query", JStr "When is the midterm?")])
                (JStr "When is the midterm?") (JArr [JNum 1; JNum 2])
                [Samples.hit "roomalloc_ra1" Routes.type_room_allocation
                   0.27%float]
                [] Samples.fresh eq_refl eq_refl eq_refl eq_refl eq_refl)
      as (_ & _ & _ & _ & _ & Hempty & _).
    apply Hempty, Hnone.
  - apply Hsome. discriminate.
Defined.

Lemma embedding_failure_fails_rebuild_witness :
  exists after content build,
    Routes.rebuild_tasks Samples.plain_date Samples.embeddings_down_for_exams
      (fun _ => Returned JUndef)
      [Samples.midterm] [Samples.room12] [Samples.maths]
      [Samples.duty "a1" Samples.midterm] [] [Samples.rao]
    = Returned ([] ++ Routes.index_document Samples.embeddings_down_for_exams
                        (fun _ => Returned JUndef)
                        (Returned (Some (content, build))) :: after) /\
    Samples.embeddings_down_for_exams (JStr content)
    = Thrown (Error "timeout of 30000ms exceeded") /\
    exists reason,
      Samples.rebuild Samples.embeddings_down_for_exams
        [Samples.duty "a1" Samples.midterm]
      = (fst (Routes.settle_all after
                (Routes.logged (Routes.Embeddings (JStr content))
                   (Routes.sweep_started Samples.fresh))),
         Routes.Failed ("Cache failed: " +:+ message reason)).
Proof.
  do 3 eexists.
  match goal with
  | |- _ = Returned (_ ++ Routes.index_document _ _
                            (Returned (Some (?content, ?build))) :: ?after)
       /\ _ =>
      pose proof (embedding_failure_fails_rebuild Samples.plain_date
                    Samples.embeddings_down_for_exams (Returned JUndef)
                    (fun _ => Returned JUndef)
                    (Returned [Samples.midterm]) (Returned [Samples.room12])
                    (Returned [Samples.maths])
                    (Returned [Samples.duty "a1" Samples.midterm])
                    (Returned []) (Returned [Samples.rao])
                    Samples.fresh [] JUndef
                    [Samples.midterm] [Samples.room12] [Samples.maths]
                    [Samples.duty "a1" Samples.midterm] [] [Samples.rao]
                    [] after content build
                    (Error "timeout of 30000ms exceeded")
                    eq_refl eq_refl eq_refl eq_refl eq_refl eq_refl eq_refl
                    eq_refl) as Hrebuild
  end.
  split; [reflexivity |]. split; [reflexivity |].
  apply Hrebuild; reflexivity.
Defined.

(** ** Two scenarios of the router, run *)

(** An Admin asks which rooms are assigned for the Midterm ([room_info], no
    room-number slot): the rooms are fetched unfiltered, no allocation is,
    and the context has a [ROOMS:] section only. *)
Example room_info_without_room_number :
  let analysisResult :=
    JObj [("intent", JStr "room_info"); ("exam_name", JStr "Midterm")] in
  let run := Controller.fetchRelevantData Samples.ascii_lower Samples.campus_db analysisResult
               Samples.admin_user [] in
  fst run
  = [Controller.DbCall "findRooms"
       [JObj [("building", JUndef); ("roomNumber", JUndef); ("floor", JUndef)]]]
  /\ obind (snd run) (Controller.formatContextData Samples.plain_date)
     = Returned (cat [
         "CONTEXT INFORMATION FOR QUERY:"; nl;
         "Intent: room_info"; nl;
         "User Role: Admin"; nl;
         "User Name: Registrar"; nl;
         nl;
         "ROOMS:"; nl;
         "Room 1: A - 12"; nl;
         "  Floor: undefined, Capacity: 40"; nl;
         nl]).
Proof. split; reflexivity. Qed.

(** Dr. Rao, a faculty member, asks for next week's duties
    ([faculty_allocation], future, no faculty-name slot): the allocations are
    looked up under the caller's own id and name. *)
Example faculty_allocation_scoped_to_caller :
  let analysisResult :=
    JObj [("intent", JStr "faculty_allocation");
          ("time_period", JStr "future")] in
  fst (Controller.fetchRelevantData Samples.ascii_lower Samples.campus_db analysisResult
         Samples.rao [])
  = [Controller.DbCall "findFacultyAllocations"
       [JObj [("facultyName", JStr "Dr. Rao"); ("facultyId", JStr "f1");
              ("roomId", JUndef); ("date", JUndef); ("future", JBool true)]];
     Controller.DbCall "findFaculty" [JObj [("name", JStr "Dr. Rao")]]].
Proof. reflexivity. Qed.

(** A general query never reaches [searchAll]: the bundle comes back with no
    data. *)
Example general_query_fetches_nothing :
  Controller.fetchRelevantData Samples.ascii_lower Samples.campus_db (Samples.classified "general")
    Samples.rao []
  = ([], Returned {| Controller.intent := JStr "general";
                     Controller.data := [];
                     Controller.userRole := JStr "Faculty";
                     Controller.userName := JStr "Dr. Rao" |}).
Proof. reflexivity. Qed.

(* ===================================================================== *)
(** * Further properties of the three files                               *)
(* ===================================================================== *)

(** ** The intent router: what every query goes through *)

(** X1. A classification whose intent is none of the six the [switch]
    handles (the fallback [general_query] included) fetches nothing: the
    [default] case throws before [searchAll] is called, the [catch] swallows
    the error, and the bundle comes back with no data and no call made. *)
Theorem unhandled_intent_fetches_nothing (toLowerCase : string -> string)
    (dbService : Controller.DbService)
    (analysisResult user intent0 : value) (log : list Controller.event) :
  get analysisResult "intent" = Returned intent0 ->
  Views.handled (or_else intent0 (JStr "general_query")) = false ->
  Controller.fetchRelevantData toLowerCase dbService analysisResult user log
  = (log,
     Returned {| Controller.intent := or_else intent0 (JStr "general_query");
                 Controller.data := [];
                 Controller.userRole := Controller.user_field user "role";
                 Controller.userName := Controller.user_field user "name" |}).
Proof.
  intros Hintent Hunhandled.
  pose proof (fetchRelevantData_run toLowerCase dbService analysisResult user _ log Hintent)
    as Hrun.
  cbv zeta in Hrun. rewrite Hrun. clear Hrun.
  rewrite (fetch_try_run toLowerCase dbService analysisResult user _ _ _ Hintent).
  unfold Views.handled, Views.handled_intents in Hunhandled.
  cbn [existsb] in Hunhandled.
  repeat (apply orb_false_elim in Hunhandled;
          destruct Hunhandled as [? Hunhandled]).
  unfold Controller.switch_intent.
  repeat match goal with
         | H : is_str _ _ = false |- _ => rewrite H; clear H
         end.
  reflexivity.
Qed.

(** X2. [fetchRelevantData] throws only when it is given no classification:
    on [null] or [undefined] the read of [intent], which stands before the
    [try], throws a [TypeError] and no lookup is made; on every other value
    it returns a bundle, whatever the lookups do, with the intent (or
    [general_query]) and the caller's role and name. *)
Theorem fetchRelevantData_throws_only_without_classification
    (toLowerCase : string -> string)
    (dbService : Controller.DbService) (analysisResult user : value)
    (log : list Controller.event) :
  match analysisResult with
  | JUndef | JNull =>
      Controller.fetchRelevantData toLowerCase dbService analysisResult user log
      = (log, Thrown (cannot_read analysisResult "intent"))
  | _ =>
      exists log' contextData,
        Controller.fetchRelevantData toLowerCase dbService analysisResult user log
        = (log', Returned contextData) /\
        Controller.intent contextData
        = or_else (Controller.slot analysisResult "intent")
                  (JStr "general_query") /\
        Controller.userRole contextData = Controller.user_field user "role" /\
        Controller.userName contextData = Controller.user_field user "name"
  end.
Proof.
  assert (Hreturns : forall intent0,
            get analysisResult "intent" = Returned intent0 ->
            exists log' contextData,
              Controller.fetchRelevantData toLowerCase dbService analysisResult user log
              = (log', Returned contextData) /\
              Controller.intent contextData
              = or_else (Controller.slot analysisResult "intent")
                        (JStr "general_query") /\
              Controller.userRole contextData
              = Controller.user_field user "role" /\
              Controller.userName contextData
              = Controller.user_field user "name").
  { intros intent0 Hintent.
    pose proof (fetchRelevantData_run toLowerCase dbService analysisResult user _ log
                  Hintent) as Hrun.
    cbv zeta in Hrun. rewrite Hrun.
    eexists _, _. split; [reflexivity |]. cbn.
    unfold Controller.slot. rewrite Hintent. repeat split. }
  destruct analysisResult; try reflexivity; eapply Hreturns; reflexivity.
Qed.

(** X3. A Faculty caller's [faculty_allocation] query is looked up under
    the caller's own name and id, whatever faculty the classification
    names: the first call made is [findFacultyAllocations] with
    [facultyName] and [facultyId] those of the caller. *)
Theorem faculty_allocation_uses_callers_identity
    (toLowerCase : string -> string)
    (dbService : Controller.DbService) (analysisResult user : value)
    (log : list Controller.event) :
  get analysisResult "intent" = Returned (JStr "faculty_allocation") ->
  Controller.has_role user "Faculty" = true ->
  truthy (Controller.user_field user "_id") = true ->
  exists later contextData,
    Controller.fetchRelevantData toLowerCase dbService analysisResult user log
    = (log
       ++ Controller.DbCall "findFacultyAllocations"
            [JObj ([("facultyName", Controller.user_field user "name");
                    ("facultyId", Controller.user_field user "_id");
                    ("roomId", Controller.slot analysisResult "room_id");
                    ("date", Controller.slot analysisResult "date")]
                   ++ Controller.time_params
                        (Controller.slot analysisResult "time_period"))]
       :: later,
       Returned contextData).
Proof.
  intros Hintent Hrole Hid.
  pose proof (fetchRelevantData_run toLowerCase dbService analysisResult user _ log Hintent)
    as Hrun.
  cbv zeta in Hrun. rewrite Hrun. clear Hrun.
  rewrite (fetch_try_run toLowerCase dbService analysisResult user _ _ _ Hintent).
  unfold Controller.switch_intent. simpl (is_str _ _).
  unfold Controller.faculty_id_of, Controller.faculty_name_of.
  rewrite Hrole.
  unfold Controller.case_faculty_allocation, Controller.await_db,
    Controller.set_data, when, bind, lift, ret.
  rewrite !(get_slot _ _ _ _ Hintent).
  replace (or_else (Controller.user_field user "_id")
             (Controller.slot analysisResult "faculty_id"))
    with (Controller.user_field user "_id")
    by (unfold or_else; now rewrite Hid).
  destruct (Controller.findFacultyAllocations dbService _);
    [| eexists [], _; reflexivity].
  cbn [fst snd].
  destruct (truthy (Controller.user_field user "name"));
    [| eexists [], _; reflexivity].
  destruct (Controller.findFaculty dbService _);
    eexists [_], _; cbn [fst snd]; rewrite <- app_assoc; reflexivity.
Qed.

(** X4. A Faculty caller asking about faculty without naming anyone, or
    naming a text whose lower-case form is a part of the lower-case form of
    their own name, both as the host's [toLowerCase] gives them, gets their
    own record from the request itself: no lookup is made and the bundle
    holds [faculty = [user]]. *)
Theorem faculty_info_about_oneself_needs_no_lookup
    (toLowerCase : string -> string)
    (dbService : Controller.DbService) (analysisResult user : value)
    (log : list Controller.event) :
  get analysisResult "intent" = Returned (JStr "faculty_info") ->
  Controller.has_role user "Faculty" = true ->
  truthy (Controller.user_field user "_id") = true ->
  (truthy (Controller.slot analysisResult "faculty_name") = false
   \/ exists mine asked,
        Controller.user_field user "name" = JStr mine /\
        Controller.slot analysisResult "faculty_name" = JStr asked /\
        includes (toLowerCase mine) (toLowerCase asked) = true) ->
  Controller.fetchRelevantData toLowerCase dbService analysisResult user log
  = (log,
     Returned {| Controller.intent := JStr "faculty_info";
                 Controller.data := [("faculty", JArr [user])];
                 Controller.userRole := Controller.user_field user "role";
                 Controller.userName := Controller.user_field user "name" |}).
Proof.
  intros Hintent Hrole Hid Hself.
  pose proof (fetchRelevantData_run toLowerCase dbService analysisResult user _ log Hintent)
    as Hrun.
  cbv zeta in Hrun. rewrite Hrun. clear Hrun.
  rewrite (fetch_try_run toLowerCase dbService analysisResult user _ _ _ Hintent).
  unfold Controller.switch_intent. simpl (is_str _ _).
  unfold Controller.faculty_id_of, Controller.faculty_name_of.
  rewrite Hrole.
  unfold Controller.case_faculty_info, Controller.set_data, bind, lift.
  rewrite !(get_slot _ _ _ _ Hintent), Hid.
  destruct Hself as [Hnone | (mine & asked & Hmine & Hasked & Hpart)].
  - rewrite Hnone. reflexivity.
  - rewrite Hmine, Hasked. cbn [truthy negb string_of obind].
    destruct (negb (asked =? ""))%string; cbn [negb obind]; [| reflexivity].
    rewrite Hpart. reflexivity.
Qed.

(** X5. In [exam_info], a lookup that rejects ends the retrieval where it
    stands: when [findExams] resolves and [findSubjects] rejects, the bundle
    keeps the exams found, holds no [subjects], and the caller's own
    allocations are not looked up any more. *)
Theorem exam_info_keeps_exams_when_subjects_fail
    (toLowerCase : string -> string)
    (dbService : Controller.DbService) (analysisResult user exams : value)
    (e : error) (log : list Controller.event) :
  get analysisResult "intent" = Returned (JStr "exam_info") ->
  let examArgs :=
    JObj [("name", Controller.slot analysisResult "exam_name");
          ("year", Controller.slot analysisResult "exam_year");
          ("semester", Controller.slot analysisResult "semester")] in
  let subjectArgs :=
    JObj [("name", Controller.slot analysisResult "subject_name");
          ("subjectCode", Controller.slot analysisResult "subject_code");
          ("semester", Controller.slot analysisResult "semester");
          ("date", Controller.slot analysisResult "date")] in
  truthy (or_else (Controller.slot analysisResult "subject_name")
                  (Controller.slot analysisResult "subject_code")) = true ->
  Controller.findExams dbService examArgs = Returned exams ->
  Controller.findSubjects dbService subjectArgs = Thrown e ->
  Controller.fetchRelevantData toLowerCase dbService analysisResult user log
  = (log ++ [Controller.DbCall "findExams" [examArgs];
             Controller.DbCall "findSubjects" [subjectArgs]],
     Returned {| Controller.intent := JStr "exam_info";
                 Controller.data := [("exams", exams)];
                 Controller.userRole := Controller.user_field user "role";
                 Controller.userName := Controller.user_field user "name" |}).
Proof.
  intros Hintent examArgs subjectArgs Hnamed Hexams Hsubjects.
  pose proof (fetchRelevantData_run toLowerCase dbService analysisResult user _ log Hintent)
    as Hrun.
  cbv zeta in Hrun. rewrite Hrun. clear Hrun.
  rewrite (fetch_try_run toLowerCase dbService analysisResult user _ _ _ Hintent).
  unfold Controller.switch_intent. simpl (is_str _ _).
  unfold Controller.case_exam_info, Controller.await_db, Controller.set_data,
    when, bind, lift, ret.
  rewrite !(get_slot _ _ _ _ Hintent).
  fold examArgs. rewrite Hexams. cbn [fst snd set_prop].
  rewrite Hnamed. fold subjectArgs. rewrite Hsubjects.
  cbn [fst snd]. rewrite <- app_assoc. reflexivity.
Qed.

(** X6. A [student_allocation] query that names a room is answered from
    one lookup: the seating of that room; the caller's own rooms are not
    consulted, Faculty or not. *)
Theorem student_allocation_of_named_room_is_one_lookup
    (toLowerCase : string -> string)
    (dbService : Controller.DbService) (analysisResult user : value)
    (log : list Controller.event) :
  get analysisResult "intent" = Returned (JStr "student_allocation") ->
  truthy (Controller.slot analysisResult "room_number") = true ->
  let args :=
    JObj ([("roomNumber", Controller.slot analysisResult "room_number");
           ("semester", Controller.slot analysisResult "semester");
           ("student", Controller.slot analysisResult "student");
           ("date", Controller.slot analysisResult "date")]
          ++ Controller.time_params
               (Controller.slot analysisResult "time_period")) in
  Controller.fetchRelevantData toLowerCase dbService analysisResult user log
  = (log ++ [Controller.DbCall "findStudentAllocations" [args]],
     Returned {| Controller.intent := JStr "student_allocation";
                 Controller.data :=
                   match Controller.findStudentAllocations dbService args with
                   | Returned found => [("studentAllocations", found)]
                   | Thrown _ => []
                   end;
                 Controller.userRole := Controller.user_field user "role";
                 Controller.userName := Controller.user_field user "name" |}).
Proof.
  intros Hintent Hroom args.
  pose proof (fetchRelevantData_run toLowerCase dbService analysisResult user _ log Hintent)
    as Hrun.
  cbv zeta in Hrun. rewrite Hrun. clear Hrun.
  rewrite (fetch_try_run toLowerCase dbService analysisResult user _ _ _ Hintent).
  unfold Controller.switch_intent. simpl (is_str _ _).
  unfold Controller.case_student_allocation, Controller.await_db,
    Controller.set_data, when, bind, lift, ret.
  rewrite !(get_slot _ _ _ _ Hintent). fold args.
  rewrite Hroom, andb_false_r.
  destruct (Controller.findStudentAllocations dbService args); reflexivity.
Qed.

(** ** [processQuery]: which apology, and after which calls *)

Section ProcessQueryFacts.

Variable LM_STUDIO_API_URL MODEL_NAME : string.
Variable axios_post : Controller.ChatRequest -> outcome value.
Variable trim : string -> string.
Variable analyzeQuery : value -> outcome value.
Variable toLowerCase : string -> string.
Variable dbService : Controller.DbService.
Variable toLocaleDateString : value -> string.

(** X7. When the analyzer rejects, or resolves to [null] or [undefined],
    [processQuery] returns the processing apology having called the
    analyzer only: neither the data service nor the chat endpoint is
    reached. *)
Theorem processQuery_apologizes_without_classification
    (query : value) (conversationHistory : list value) (user : value)
    (log : list Controller.event) (e : error) :
  obind (analyzeQuery query) (fun analysisResult => get analysisResult "intent")
  = Thrown e ->
  Controller.processQuery LM_STUDIO_API_URL MODEL_NAME axios_post trim
    analyzeQuery toLowerCase dbService toLocaleDateString query conversationHistory user log
  = (log ++ [Controller.AnalyzeQuery query],
     Returned Controller.processQuery_apology).
Proof.
  intros Hfails.
  unfold Controller.processQuery, try_catch, bind at 1.
  destruct (analyzeQuery query) as [analysisResult | e0]; cbn [obind] in Hfails;
    [| reflexivity].
  unfold bind at 1, Controller.fetchRelevantData, bind at 1, lift at 1.
  rewrite Hfails. reflexivity.
Qed.

(** X8. When analysis, retrieval and formatting go through, [processQuery]
    is [generateResponse] on the formatted context: one chat request, and
    as text the model's answer or, when the request fails, the generation
    apology (never the processing one). *)
Theorem processQuery_ends_in_generateResponse
    (query : value) (conversationHistory : list value) (user : value)
    (log log' : list Controller.event) (analysisResult : value)
    (contextData : Controller.ContextData) (context : string) :
  analyzeQuery query = Returned analysisResult ->
  Controller.fetchRelevantData toLowerCase dbService analysisResult user
    (log ++ [Controller.AnalyzeQuery query])
  = (log', Returned contextData) ->
  Controller.formatContextData toLocaleDateString contextData
  = Returned context ->
  exists prompt,
    Controller.system_prompt context user = Returned prompt /\
    let request := Controller.request_sent LM_STUDIO_API_URL MODEL_NAME query
                     prompt conversationHistory in
    Controller.processQuery LM_STUDIO_API_URL MODEL_NAME axios_post trim
      analyzeQuery toLowerCase dbService toLocaleDateString query conversationHistory user
      log
    = (log' ++ [Controller.ChatCompletions request],
       match obind (axios_post request) (Controller.response_text trim) with
       | Returned text => Returned text
       | Thrown _ => Returned Controller.generateResponse_apology
       end).
Proof.
  intros Hanalysis Hfetch Hformat.
  destruct (generateResponse_run LM_STUDIO_API_URL MODEL_NAME axios_post trim
              query context conversationHistory user log')
    as (prompt & Hprompt & Hrun).
  exists prompt. split; [exact Hprompt |]. cbv zeta in *.
  unfold Controller.processQuery, try_catch, bind at 1.
  rewrite Hanalysis. unfold bind at 1. rewrite Hfetch.
  unfold bind at 1, lift at 1. rewrite Hformat.
  unfold bind, ret. rewrite Hrun.
  destruct (obind _ _); reflexivity.
Qed.

(** X9. A response of the chat endpoint that does not hold a string at
    [data.choices[0].message.content] is answered with the generation
    apology, like a request that failed. *)
Theorem generateResponse_apologizes_for_malformed_response
    (query : value) (context : string) (conversationHistory : list value)
    (user : value) (log : list Controller.event)
    (response : Controller.ChatRequest -> value) :
  (forall request, axios_post request = Returned (response request)) ->
  (forall request text,
     Controller.response_text trim (response request) <> Returned text) ->
  snd (Controller.generateResponse LM_STUDIO_API_URL MODEL_NAME axios_post
         trim query context conversationHistory user log)
  = Returned Controller.generateResponse_apology.
Proof.
  intros Hanswers Hmalformed.
  destruct (generateResponse_run LM_STUDIO_API_URL MODEL_NAME axios_post trim
              query context conversationHistory user log)
    as (prompt & _ & Hrun).
  cbv zeta in Hrun. rewrite Hrun, Hanswers. cbn [snd obind].
  destruct (Controller.response_text trim _) as [text | e] eqn:Htext;
    [| reflexivity].
  now apply Hmalformed in Htext.
Qed.

End ProcessQueryFacts.

(** ** The context formatter: empty bundles and samples *)

Lemma mapM_ext_returned {A B} (f : A -> outcome B) (g : A -> B) (l : list A)
    (ys : list B) :
  (forall x y, f x = Returned y -> y = g x) ->
  mapM f l = Returned ys -> ys = map g l.
Proof.
  intros Hfg. revert ys. induction l as [| x l IH]; intros ys; cbn.
  - now intros [= <-].
  - destruct (f x) as [y | e] eqn:Hx; cbn; [| discriminate].
    destruct (mapM f l) as [ys' | e]; cbn; [| discriminate].
    intros [= <-]. f_equal; [now apply Hfg | now apply IH].
Qed.

Lemma gt_length (items : list value) (n : nat) :
  gt (JNum (Z.of_nat (length items))) (Z.of_nat n) = (n <? length items)%nat.
Proof.
  unfold gt. cbn [to_number].
  destruct (Nat.ltb_spec n (length items)) as [Hlt | Hge].
  - apply Z.ltb_lt. lia.
  - apply Z.ltb_ge. lia.
Qed.

Lemma non_empty_array (first : value) (rest : list value) :
  Controller.non_empty (JArr (first :: rest)) = Returned true.
Proof. reflexivity. Qed.

(** One step of a chain of reads that is known to have returned. *)
Ltac returned H :=
  match type of H with
  | obind ?o _ = Returned _ =>
      let x := fresh "x" in
      let Hx := fresh "H" x in
      destruct o as [x |] eqn:Hx; cbn [obind] in H; [| discriminate H]
  end.

(** X10. A bundle none of whose datasets has anything in it (each is
    falsy, an empty list or an empty object; no dataset at all included) is
    formatted as the header alone, and the formatter does not throw on it. *)
Theorem formatContextData_of_empty_bundle_is_the_header
    (toLocaleDateString : value -> string)
    (contextData : Controller.ContextData) :
  Forall (fun entry => Controller.is_empty_dataset (snd entry) = true)
         (Controller.data contextData) ->
  Controller.formatContextData toLocaleDateString contextData
  = Returned (Controller.format_header contextData).
Proof.
  intros Hempty. unfold Controller.formatContextData.
  assert (Hsections :
    forall entries,
      Forall (fun entry => Controller.is_empty_dataset (snd entry) = true)
             entries ->
      exists sections,
        mapM (Controller.format_dataset toLocaleDateString) entries
        = Returned sections
        /\ cat sections = "").
  { induction 1 as [| [dataType data] entries Hentry _ (sections & Hrun & Hcat)].
    - exists []. now split.
    - cbn [mapM snd] in *.
      rewrite (format_dataset_empty _ _ _ Hentry), Hrun. cbn [obind].
      exists ("" :: sections). split; [reflexivity |].
      now rewrite cat_cons. }
  apply Hsections in Hempty.
  destruct Hempty as (sections & -> & Hcat). cbn [obind].
  now rewrite Hcat, append_nil_r.
Qed.

(** X11. Of the subjects of an exam the formatter gives the count and the
    names of the first three only (a populated subject by its name, a raw id
    as it is), followed by an ellipsis exactly when there are more than
    three. *)
Theorem render_exam_samples_three_subjects (index : Z) (exam : value)
    (items : list value) (text : string) :
  get exam "subjects" = Returned (JArr items) ->
  items <> [] ->
  Controller.render_exam index exam = Returned text ->
  occurs
    (cat ["  Subjects: "; string_of_Z (Z.of_nat (length items)); " subjects";
          nl;
          "  Sample Subjects: ";
          join ", " (map (fun s => join_item (Views.subject_label s))
                         (take 3 items));
          (if (3 <? length items)%nat then "..." else ""); nl])
    text.
Proof.
  intros Hsubjects Hsome Hrender.
  unfold Controller.render_exam in Hrender.
  do 5 returned Hrender.
  rewrite Hsubjects in Hrender. cbn [obind] in Hrender.
  destruct items as [| first rest]; [congruence |].
  rewrite non_empty_array in Hrender.
  cbn [obind get String.eqb Ascii.eqb Bool.eqb slice0 array_of] in Hrender.
  returned Hrender. injection Hrender as <-.
  returned Hx4. injection Hx4 as <-.
  apply mapM_ext_returned with (g := Views.subject_label) in Hx5.
  - subst x5.
    pose proof (gt_length (first :: rest) 3) as Hmore.
    change (Z.of_nat 3) with 3 in Hmore. cbn [length] in *.
    rewrite Hmore, map_map.
    apply occurs_cat. in_list.
  - intros s label Hlabel.
    destruct (get s "name") as [n |] eqn:Hname; cbn [obind] in Hlabel;
      [| discriminate].
    injection Hlabel as <-.
    unfold Views.subject_label, Controller.slot. now rewrite Hname.
Qed.

(** X12. Of the students of a seating the formatter lists the first five
    only, followed by an ellipsis exactly when there are more than five. *)
Theorem render_student_allocation_samples_five_students
    (toLocaleDateString : value -> string) (index : Z) (allocation : value)
    (items : list value) (text : string) :
  get allocation "students" = Returned (JArr items) ->
  items <> [] ->
  Controller.render_student_allocation toLocaleDateString index allocation
  = Returned text ->
  occurs
    (cat ["  Students Count: "; string_of_Z (Z.of_nat (length items)); nl;
          cat ["  Sample Students: ";
               join ", " (map join_item (take 5 items));
               (if (5 <? length items)%nat then "..." else ""); nl]])
    text.
Proof.
  intros Hstudents Hsome Hrender.
  unfold Controller.render_student_allocation in Hrender.
  do 9 returned Hrender.
  rewrite Hstudents in Hrender. cbn [obind] in Hrender.
  destruct items as [| first rest]; [congruence |].
  rewrite non_empty_array in Hrender.
  cbn [obind get String.eqb Ascii.eqb Bool.eqb slice0 array_of truthy]
    in Hrender.
  injection Hrender as <-.
  pose proof (gt_length (first :: rest) 5) as Hmore.
  change (Z.of_nat 5) with 5 in Hmore. cbn [length] in *. rewrite Hmore.
  cbn [to_str].
  match goal with
  | |- occurs _ (cat (?a :: ?b :: ?c :: ?d :: ?e :: ?f :: ?g :: ?h :: ?i
                        :: ?j :: ?rest)) =>
      change (cat (a :: b :: c :: d :: e :: f :: g :: h :: i :: j :: rest))
        with (cat ([a; b; c; d; e; f; g; h; i; j] ++ rest))
  end.
  rewrite cat_app. apply occurs_append_r.
  match goal with
  | |- occurs _ (cat (?a :: ?b :: ?c :: ?d :: ?rest)) =>
      change (cat (a :: b :: c :: d :: rest)) with (cat ([a; b; c; d] ++ rest))
  end.
  rewrite cat_app. apply occurs_append_l, occurs_refl.
Qed.

(** Membership in one of the lists appended. *)
Ltac in_app := repeat (apply in_or_app; first [left; assumption | right]);
               try assumption.

(** ** The validated endpoint of [chatbot.js], call by call *)

Lemma valid_entry_fields (entry : value) :
  Chatbot.valid_entry entry = true ->
  exists role content,
    get entry "role" = Returned role /\
    get entry "content" = Returned content /\
    (is_str role "user" || is_str role "assistant" = true).
Proof.
  unfold Chatbot.valid_entry. intros Hvalid.
  apply andb_prop in Hvalid as [Hvalid Hcontent].
  apply andb_prop in Hvalid as [_ Hrole].
  destruct (get entry "role") as [role |]; [| discriminate].
  destruct (get entry "content") as [content |]; [| discriminate].
  eauto.
Qed.

Lemma history_messages_of_valid (entries : list value) :
  Forall (fun entry => Chatbot.valid_entry entry = true) entries ->
  Chatbot.history_messages entries = Returned (map Views.to_message entries).
Proof.
  induction 1 as [| entry entries Hentry _ IH]; [reflexivity |].
  destruct (valid_entry_fields entry Hentry)
    as (role & content & Hrole & Hcontent & Hknown).
  cbn [Chatbot.history_messages map]. rewrite Hrole, Hcontent, IH.
  cbn [obind]. unfold Views.to_message, Controller.slot.
  rewrite Hrole, Hcontent.
  destruct (is_str role "user"); [reflexivity |].
  cbn [orb] in Hknown. now rewrite Hknown.
Qed.

Lemma validateChatHistory_valid (chatHistory : value) :
  Forall (fun entry => Chatbot.valid_entry entry = true)
         (Chatbot.validateChatHistory chatHistory).
Proof.
  unfold Chatbot.validateChatHistory.
  destruct chatHistory; try constructor.
  apply List.Forall_forall. intros entry Hin.
  now apply filter_In in Hin.
Qed.

(** X13. The history that reaches the model is the valid entries of the
    one given, one message each and in their order: a [user] entry becomes a
    human message, an [assistant] entry an AI message, with the entry's
    content; the conversion does not throw and drops nothing. *)
Theorem validated_history_becomes_one_message_each (chatHistory : value) :
  Chatbot.history_messages (Chatbot.validateChatHistory chatHistory)
  = Returned (map Views.to_message (Chatbot.validateChatHistory chatHistory)).
Proof. apply history_messages_of_valid, validateChatHistory_valid. Qed.

Section ChatbotCalls.

Variable trim : string -> string.
Variable GROQ_API_KEY vectorStore : value.
Variable kb_initialize : outcome value.
Variable kb_query : value -> outcome value.
Variable formatDocumentsAsString : value -> outcome string.
Variable invoke : list Chatbot.Message -> outcome value.
Variable addMessage : value -> string -> value -> value -> outcome value.

(** The endpoint from the query of the knowledge base on, the message being
    well formed and the knowledge base in place. *)
Lemma generateResponse_from_retrieval
    (userInput chatHistory sessionId userId : value)
    (log : list Chatbot.event) :
  Chatbot.invalid_message trim userInput = false ->
  truthy vectorStore = true ->
  Chatbot.generateResponse trim GROQ_API_KEY vectorStore kb_initialize kb_query
    formatDocumentsAsString invoke addMessage
    userInput chatHistory sessionId userId log
  = match kb_query userInput with
    | Thrown e => (log ++ [Chatbot.KbQuery userInput], Thrown e)
    | Returned relevantDocs =>
        match formatDocumentsAsString relevantDocs with
        | Thrown e => (log ++ [Chatbot.KbQuery userInput], Thrown e)
        | Returned context =>
            if negb (truthy GROQ_API_KEY) then
              (log ++ [Chatbot.KbQuery userInput],
               Thrown (Error "GROQ_API_KEY environment variable is not set"))
            else
              let messages := Views.prompt_messages context chatHistory userInput in
              let asked := log ++ [Chatbot.KbQuery userInput;
                                   Chatbot.ModelInvoke messages] in
              match obind (invoke messages)
                          (fun response => get response "content") with
              | Thrown e => (asked, Thrown e)
              | Returned responseContent =>
                  if truthy sessionId then
                    let user_turn :=
                      Chatbot.AddMessage sessionId "user" userInput userId in
                    let assistant_turn :=
                      Chatbot.AddMessage sessionId "assistant" responseContent
                        userId in
                    match addMessage sessionId "user" userInput userId with
                    | Thrown e => (asked ++ [user_turn], Thrown e)
                    | Returned _ =>
                        (asked ++ [user_turn; assistant_turn],
                         match addMessage sessionId "assistant" responseContent
                                 userId with
                         | Thrown e => Thrown e
                         | Returned _ => Returned responseContent
                         end)
                    end
                  else (asked, Returned responseContent)
              end
        end
    end.
Proof.
  intros Hvalid Hstore.
  unfold Chatbot.generateResponse, try_catch, bind at 1, lift at 1,
    Chatbot.validateMessage.
  rewrite Hvalid, Hstore. cbn [negb when].
  unfold bind at 1, ret at 1. unfold bind at 1, Chatbot.call at 1.
  destruct (kb_query userInput) as [relevantDocs | e]; [| reflexivity].
  unfold bind at 1, lift at 1.
  destruct (formatDocumentsAsString relevantDocs) as [context | e];
    [| reflexivity].
  unfold bind at 1, lift at 1.
  rewrite (history_messages_of_valid _ (validateChatHistory_valid chatHistory)).
  unfold bind at 1, lift at 1, Chatbot.initChatModel.
  destruct (negb (truthy GROQ_API_KEY)); [reflexivity |].
  cbv zeta. unfold Views.prompt_messages.
  replace (if negb (context =? "")%string
           then [Chatbot.createSystemMessage] ++ [Chatbot.context_message context]
           else [Chatbot.createSystemMessage])
    with ([Chatbot.createSystemMessage]
          ++ (if negb (context =? "")%string
              then [Chatbot.context_message context] else []))
    by (now destruct (negb (context =? "")%string)).
  unfold bind at 1, Chatbot.call at 1.
  destruct (invoke _) as [response | e]; cbn [obind];
    [| rewrite <- app_assoc; reflexivity].
  unfold bind at 1, lift at 1.
  destruct (get response "content") as [responseContent | e];
    [| rewrite <- app_assoc; reflexivity].
  destruct (truthy sessionId); cbn [when].
  - unfold bind, Chatbot.call, ret.
    destruct (addMessage sessionId "user" userInput userId);
      [destruct (addMessage sessionId "assistant" responseContent userId) |];
      rewrite <- !app_assoc; reflexivity.
  - unfold bind, ret. rewrite <- app_assoc. reflexivity.
Qed.


(** With the knowledge base not yet in place, [initialize] is called first;
    a rejection ends the call there. *)
Lemma generateResponse_initialize_rejects
    (userInput chatHistory sessionId userId : value)
    (log : list Chatbot.event) (e : error) :
  Chatbot.invalid_message trim userInput = false ->
  truthy vectorStore = false ->
  kb_initialize = Thrown e ->
  Chatbot.generateResponse trim GROQ_API_KEY vectorStore kb_initialize kb_query
    formatDocumentsAsString invoke addMessage
    userInput chatHistory sessionId userId log
  = (log ++ [Chatbot.KbInitialize], Thrown e).
Proof.
  intros Hvalid Hstore Hrejects.
  unfold Chatbot.generateResponse, try_catch, bind at 1, lift at 1,
    Chatbot.validateMessage.
  rewrite Hvalid, Hstore. cbn [negb when].
  unfold bind at 1, bind at 1, Chatbot.call at 1.
  now rewrite Hrejects.
Qed.

(** Once [initialize] has resolved, the call goes as it does with the
    knowledge base ready. *)
Lemma generateResponse_initialize_resolves
    (userInput chatHistory sessionId userId initialized : value)
    (log : list Chatbot.event) :
  Chatbot.invalid_message trim userInput = false ->
  truthy vectorStore = false ->
  kb_initialize = Returned initialized ->
  Chatbot.generateResponse trim GROQ_API_KEY vectorStore kb_initialize kb_query
    formatDocumentsAsString invoke addMessage
    userInput chatHistory sessionId userId log
  = Chatbot.generateResponse trim GROQ_API_KEY (JBool true) kb_initialize
      kb_query formatDocumentsAsString invoke addMessage
      userInput chatHistory sessionId userId (log ++ [Chatbot.KbInitialize]).
Proof.
  intros Hvalid Hstore Hresolves.
  unfold Chatbot.generateResponse, try_catch, bind at 1, lift at 1,
    Chatbot.validateMessage.
  rewrite Hvalid, Hstore. cbn [negb when].
  unfold bind at 1, bind at 1, Chatbot.call at 1.
  now rewrite Hresolves.
Qed.

Lemma no_session_quiet_from_retrieval
    (userInput chatHistory sessionId userId : value)
    (log : list Chatbot.event) :
  Chatbot.invalid_message trim userInput = false ->
  truthy vectorStore = true ->
  truthy sessionId = false ->
  exists added,
    fst (Chatbot.generateResponse trim GROQ_API_KEY vectorStore kb_initialize
           kb_query formatDocumentsAsString invoke addMessage
           userInput chatHistory sessionId userId log)
    = log ++ added
    /\ existsb Views.is_add_message added = false.
Proof.
  intros Hvalid Hstore Hsession.
  rewrite (generateResponse_from_retrieval _ _ _ _ _ Hvalid Hstore), Hsession.
  destruct (kb_query userInput) as [relevantDocs | e];
    [| eexists; split; reflexivity].
  destruct (formatDocumentsAsString relevantDocs) as [context | e];
    [| eexists; split; reflexivity].
  destruct (negb (truthy GROQ_API_KEY)); [eexists; split; reflexivity |].
  cbv zeta. destruct (obind _ _); eexists; split; reflexivity.
Qed.

End ChatbotCalls.

(** X14. Without a session id nothing is saved: whatever the inputs and
    whatever the services answer, no [addMessage] call is among the calls
    [generateResponse] makes. *)
Theorem no_session_nothing_saved
    (trim : string -> string) (GROQ_API_KEY vectorStore : value)
    (kb_initialize : outcome value) (kb_query : value -> outcome value)
    (formatDocumentsAsString : value -> outcome string)
    (invoke : list Chatbot.Message -> outcome value)
    (addMessage : value -> string -> value -> value -> outcome value)
    (userInput chatHistory sessionId userId : value)
    (log : list Chatbot.event) :
  truthy sessionId = false ->
  exists added,
    fst (Chatbot.generateResponse trim GROQ_API_KEY vectorStore kb_initialize
           kb_query formatDocumentsAsString invoke addMessage
           userInput chatHistory sessionId userId log)
    = log ++ added
    /\ existsb Views.is_add_message added = false.
Proof.
  intros Hsession.
  destruct (Chatbot.invalid_message trim userInput) eqn:Hvalid.
  { rewrite generateResponse_rejects_message by exact Hvalid.
    exists []. split; [now rewrite app_nil_r | reflexivity]. }
  destruct (truthy vectorStore) eqn:Hstore.
  { now apply no_session_quiet_from_retrieval. }
  destruct kb_initialize as [v | e] eqn:Hinitialize.
  - rewrite (generateResponse_initialize_resolves trim GROQ_API_KEY vectorStore
               (Returned v) kb_query formatDocumentsAsString invoke addMessage
               userInput chatHistory sessionId userId v log Hvalid Hstore
               eq_refl).
    destruct (no_session_quiet_from_retrieval trim GROQ_API_KEY (JBool true)
                (Returned v) kb_query formatDocumentsAsString invoke addMessage
                userInput chatHistory sessionId userId
                (log ++ [Chatbot.KbInitialize]) Hvalid eq_refl Hsession)
      as (added & Hlog & Hquiet).
    exists (Chatbot.KbInitialize :: added).
    split; [| exact Hquiet].
    rewrite Hlog, <- app_assoc. reflexivity.
  - rewrite (generateResponse_initialize_rejects trim GROQ_API_KEY vectorStore
               (Thrown e) kb_query formatDocumentsAsString invoke addMessage
               userInput chatHistory sessionId userId log e Hvalid Hstore
               eq_refl).
    exists [Chatbot.KbInitialize]. split; reflexivity.
Qed.

(** X15. The API key is looked at only once the knowledge base has been
    queried and its documents formatted: with a well-formed message and no
    [GROQ_API_KEY], the call throws
    [GROQ_API_KEY environment variable is not set] after the query, and the
    model is not invoked. *)
Theorem missing_api_key_found_after_retrieval
    (trim : string -> string) (GROQ_API_KEY vectorStore : value)
    (kb_initialize : outcome value) (kb_query : value -> outcome value)
    (formatDocumentsAsString : value -> outcome string)
    (invoke : list Chatbot.Message -> outcome value)
    (addMessage : value -> string -> value -> value -> outcome value)
    (userInput chatHistory sessionId userId relevantDocs : value)
    (context : string) (log : list Chatbot.event) :
  Chatbot.invalid_message trim userInput = false ->
  truthy vectorStore = true ->
  kb_query userInput = Returned relevantDocs ->
  formatDocumentsAsString relevantDocs = Returned context ->
  truthy GROQ_API_KEY = false ->
  Chatbot.generateResponse trim GROQ_API_KEY vectorStore kb_initialize kb_query
    formatDocumentsAsString invoke addMessage
    userInput chatHistory sessionId userId log
  = (log ++ [Chatbot.KbQuery userInput],
     Thrown (Error "GROQ_API_KEY environment variable is not set")).
Proof.
  intros Hvalid Hstore Hdocs Hcontext Hkey.
  rewrite (generateResponse_from_retrieval _ _ _ _ _ _ _ _ _ _ _ _ _
             Hvalid Hstore).
  now rewrite Hdocs, Hcontext, Hkey.
Qed.

(** X16. The knowledge base is initialized on first use: when its vector
    store is not there yet, [initialize] is called before anything else; if
    it rejects, the call rejects with the same error and nothing more is
    called; if it resolves, the call goes on as it does with the knowledge
    base ready. *)
Theorem knowledge_base_initialized_on_first_use
    (trim : string -> string) (GROQ_API_KEY vectorStore : value)
    (kb_initialize : outcome value) (kb_query : value -> outcome value)
    (formatDocumentsAsString : value -> outcome string)
    (invoke : list Chatbot.Message -> outcome value)
    (addMessage : value -> string -> value -> value -> outcome value)
    (userInput chatHistory sessionId userId : value)
    (log : list Chatbot.event) :
  Chatbot.invalid_message trim userInput = false ->
  truthy vectorStore = false ->
  Chatbot.generateResponse trim GROQ_API_KEY vectorStore kb_initialize kb_query
    formatDocumentsAsString invoke addMessage
    userInput chatHistory sessionId userId log
  = match kb_initialize with
    | Thrown e => (log ++ [Chatbot.KbInitialize], Thrown e)
    | Returned _ =>
        Chatbot.generateResponse trim GROQ_API_KEY (JBool true) kb_initialize
          kb_query formatDocumentsAsString invoke addMessage
          userInput chatHistory sessionId userId (log ++ [Chatbot.KbInitialize])
    end.
Proof.
  intros Hvalid Hstore.
  destruct kb_initialize as [initialized | e] eqn:Hinitialize.
  - exact (generateResponse_initialize_resolves trim GROQ_API_KEY vectorStore
             (Returned initialized) kb_query formatDocumentsAsString invoke
             addMessage userInput chatHistory sessionId userId initialized log
             Hvalid Hstore eq_refl).
  - exact (generateResponse_initialize_rejects trim GROQ_API_KEY vectorStore
             (Thrown e) kb_query formatDocumentsAsString invoke addMessage
             userInput chatHistory sessionId userId log e Hvalid Hstore
             eq_refl).
Qed.

(** X17. A request that goes through, with a session: the knowledge base
    is queried, the model is invoked once on the system message, the context
    message (when the context is not empty), one message per valid history
    entry and the user's message, then the user's turn and the assistant's
    turn are saved in this order, and the model's content is returned. *)
Theorem answered_request_is_saved_turn_by_turn
    (trim : string -> string) (GROQ_API_KEY vectorStore : value)
    (kb_initialize : outcome value) (kb_query : value -> outcome value)
    (formatDocumentsAsString : value -> outcome string)
    (invoke : list Chatbot.Message -> outcome value)
    (addMessage : value -> string -> value -> value -> outcome value)
    (userInput chatHistory sessionId userId relevantDocs : value)
    (context : string) (response responseContent saved1 saved2 : value)
    (log : list Chatbot.event) :
  Chatbot.invalid_message trim userInput = false ->
  truthy vectorStore = true ->
  truthy GROQ_API_KEY = true ->
  truthy sessionId = true ->
  kb_query userInput = Returned relevantDocs ->
  formatDocumentsAsString relevantDocs = Returned context ->
  let messages := Views.prompt_messages context chatHistory userInput in
  invoke messages = Returned response ->
  get response "content" = Returned responseContent ->
  addMessage sessionId "user" userInput userId = Returned saved1 ->
  addMessage sessionId "assistant" responseContent userId = Returned saved2 ->
  Chatbot.generateResponse trim GROQ_API_KEY vectorStore kb_initialize kb_query
    formatDocumentsAsString invoke addMessage
    userInput chatHistory sessionId userId log
  = (log ++ [Chatbot.KbQuery userInput;
             Chatbot.ModelInvoke messages;
             Chatbot.AddMessage sessionId "user" userInput userId;
             Chatbot.AddMessage sessionId "assistant" responseContent userId],
     Returned responseContent).
Proof.
  intros Hvalid Hstore Hkey Hsession Hdocs Hcontext messages Hresponse
    Hcontent Hsaved1 Hsaved2.
  rewrite (generateResponse_from_retrieval _ _ _ _ _ _ _ _ _ _ _ _ _
             Hvalid Hstore).
  rewrite Hdocs, Hcontext, Hkey. cbn [negb]. cbv zeta. fold messages.
  rewrite Hresponse. cbn [obind]. rewrite Hcontent, Hsession, Hsaved1, Hsaved2.
  now rewrite <- app_assoc.
Qed.

(** X18. Saving comes after the answer and can still fail the request:
    when the model has answered and saving the user's turn rejects, the call
    rejects with that error; the answer is not returned and the assistant's
    turn is not saved. *)
Theorem failed_save_loses_the_answer
    (trim : string -> string) (GROQ_API_KEY vectorStore : value)
    (kb_initialize : outcome value) (kb_query : value -> outcome value)
    (formatDocumentsAsString : value -> outcome string)
    (invoke : list Chatbot.Message -> outcome value)
    (addMessage : value -> string -> value -> value -> outcome value)
    (userInput chatHistory sessionId userId relevantDocs : value)
    (context : string) (response responseContent : value) (e : error)
    (log : list Chatbot.event) :
  Chatbot.invalid_message trim userInput = false ->
  truthy vectorStore = true ->
  truthy GROQ_API_KEY = true ->
  truthy sessionId = true ->
  kb_query userInput = Returned relevantDocs ->
  formatDocumentsAsString relevantDocs = Returned context ->
  let messages := Views.prompt_messages context chatHistory userInput in
  invoke messages = Returned response ->
  get response "content" = Returned responseContent ->
  addMessage sessionId "user" userInput userId = Thrown e ->
  Chatbot.generateResponse trim GROQ_API_KEY vectorStore kb_initialize kb_query
    formatDocumentsAsString invoke addMessage
    userInput chatHistory sessionId userId log
  = (log ++ [Chatbot.KbQuery userInput;
             Chatbot.ModelInvoke messages;
             Chatbot.AddMessage sessionId "user" userInput userId],
     Thrown e).
Proof.
  intros Hvalid Hstore Hkey Hsession Hdocs Hcontext messages Hresponse
    Hcontent Hsaved.
  rewrite (generateResponse_from_retrieval _ _ _ _ _ _ _ _ _ _ _ _ _
             Hvalid Hstore).
  rewrite Hdocs, Hcontext, Hkey. cbn [negb]. cbv zeta. fold messages.
  rewrite Hresponse. cbn [obind]. rewrite Hcontent, Hsession, Hsaved.
  now rewrite <- app_assoc.
Qed.

(** ** The cache rebuild as a function of the collection *)

Section StoreFacts.

Variable formatDate : value -> string.
Variable embeddings_post : value -> outcome value.
Variable deleteAll_result : outcome value.
Variable insertOne_result : Routes.IndexedDocument -> outcome value.
Variable Exam_find Room_find Subject_find Allocation_find
         RoomAllocation_find Faculty_find : outcome (list value).

Lemma store_only_lift {A} (o : outcome A) : Views.store_only (lift o).
Proof. intros w1 w2 Hsame. now split. Qed.

Lemma store_only_ret {A} (a : A) : Views.store_only (ret a).
Proof. intros w1 w2 Hsame. now split. Qed.

Lemma store_only_throw {A} (e : error) :
  Views.store_only (throw e : M Routes.World A).
Proof. intros w1 w2 Hsame. now split. Qed.

Lemma store_only_bind {A B} (m : M Routes.World A) (k : A -> M Routes.World B) :
  Views.store_only m -> (forall a, Views.store_only (k a)) ->
  Views.store_only (bind m k).
Proof.
  intros Hm Hk w1 w2 Hsame. unfold bind.
  destruct (Hm w1 w2 Hsame) as [Hout Hstore].
  destruct (m w1) as [w1' [a1 | e1]], (m w2) as [w2' [a2 | e2]];
    cbn [fst snd] in *; try discriminate.
  - injection Hout as <-. now apply Hk.
  - injection Hout as <-. now split.
Qed.

Lemma store_only_try_catch {A} (m : M Routes.World A)
    (h : error -> M Routes.World A) :
  Views.store_only m -> (forall e, Views.store_only (h e)) ->
  Views.store_only (try_catch m h).
Proof.
  intros Hm Hh w1 w2 Hsame. unfold try_catch.
  destruct (Hm w1 w2 Hsame) as [Hout Hstore].
  destruct (m w1) as [w1' [a1 | e1]], (m w2) as [w2' [a2 | e2]];
    cbn [fst snd] in *; try discriminate.
  - split; [exact Hout | exact Hstore].
  - injection Hout as <-. now apply Hh.
Qed.

Lemma store_only_call {A} (e : Routes.event) (result : outcome A) :
  Views.store_only (Routes.call e result).
Proof. intros w1 w2 Hsame. now split. Qed.

Lemma store_only_getEmbedding (text : value) :
  Views.store_only (Routes.getEmbedding embeddings_post text).
Proof.
  intros w1 w2 Hsame. rewrite !getEmbedding_run. now split.
Qed.

Lemma store_only_insertOne (doc : Routes.IndexedDocument) :
  Views.store_only (Routes.insertOne insertOne_result doc).
Proof.
  intros w1 w2 Hsame. unfold Routes.insertOne.
  destruct (insertOne_result doc); cbn [fst snd Routes.astraCollection Routes.logged];
    [rewrite Hsame |]; now split.
Qed.

Lemma store_only_deleteAll :
  Views.store_only (Routes.deleteAll deleteAll_result).
Proof.
  intros w1 w2 Hsame. unfold Routes.deleteAll.
  destruct deleteAll_result; cbn [fst snd Routes.astraCollection Routes.logged];
    [rewrite Hsame |]; now split.
Qed.

Lemma store_only_index_document (prepared : outcome Routes.Prepared) :
  Views.store_only
    (Routes.index_document embeddings_post insertOne_result prepared).
Proof.
  unfold Routes.index_document.
  apply store_only_bind; [apply store_only_lift |].
  intros [[content build] |]; [| apply store_only_ret].
  apply store_only_bind; [apply store_only_getEmbedding |]. intros vector.
  apply store_only_bind; [apply store_only_lift |]. intros doc.
  apply store_only_insertOne.
Qed.

Lemma store_only_settled {A} (task : M Routes.World A) :
  Views.store_only task -> Views.store_only (Routes.settled task).
Proof.
  intros Htask w1 w2 Hsame. unfold Routes.settled.
  destruct (Htask w1 w2 Hsame) as [Hout Hstore].
  destruct (task w1), (task w2); cbn [fst snd] in *. split; congruence.
Qed.

Lemma settle_all_store_only {A} (tasks : list (M Routes.World A)) :
  Forall Views.store_only tasks ->
  forall w1 w2,
    Routes.astraCollection w1 = Routes.astraCollection w2 ->
    snd (Routes.settle_all tasks w1) = snd (Routes.settle_all tasks w2) /\
    Routes.astraCollection (fst (Routes.settle_all tasks w1))
    = Routes.astraCollection (fst (Routes.settle_all tasks w2)).
Proof.
  induction 1 as [| task tasks Htask _ IH]; intros w1 w2 Hsame; [now split |].
  cbn [Routes.settle_all].
  destruct (Htask w1 w2 Hsame) as [Hout Hstore].
  destruct (task w1) as [w1' r1], (task w2) as [w2' r2]; cbn [fst snd] in *.
  destruct (IH w1' w2' Hstore) as [Houts Hstores].
  destruct (Routes.settle_all tasks w1'), (Routes.settle_all tasks w2');
    cbn [fst snd] in *.
  split; congruence.
Qed.

Lemma store_only_promise_all {A} (tasks : list (M Routes.World A)) :
  Forall Views.store_only tasks -> Views.store_only (Routes.promise_all tasks).
Proof.
  intros Htasks w1 w2 Hsame. unfold Routes.promise_all.
  destruct (settle_all_store_only tasks Htasks w1 w2 Hsame) as [Houts Hstore].
  destruct (Routes.settle_all tasks w1), (Routes.settle_all tasks w2);
    cbn [fst snd] in *.
  split; congruence.
Qed.

Lemma Forall_map_index_document {A} (prepare : A -> outcome Routes.Prepared)
    (records : list A) :
  Forall Views.store_only
    (map (fun record =>
            Routes.index_document embeddings_post insertOne_result
              (prepare record)) records).
Proof.
  apply List.Forall_forall. intros task Hin.
  apply in_map_iff in Hin as (record & <- & _).
  apply store_only_index_document.
Qed.

Lemma rebuild_tasks_store_only
    (exams rooms subjects allocations roomAllocations faculties : list value)
    (tasks : list (M Routes.World value)) :
  Routes.rebuild_tasks formatDate embeddings_post insertOne_result
    exams rooms subjects allocations roomAllocations faculties
  = Returned tasks ->
  Forall Views.store_only tasks.
Proof.
  unfold Routes.rebuild_tasks.
  destruct (Routes.by_id exams); cbn [obind]; [| discriminate].
  destruct (Routes.by_id rooms); cbn [obind]; [| discriminate].
  destruct (Routes.by_id subjects); cbn [obind]; [| discriminate].
  destruct (Routes.by_id faculties); cbn [obind]; [| discriminate].
  intros [= <-].
  repeat (apply Forall_app; split); apply Forall_map_index_document.
Qed.

Lemma store_only_bind_lift {A B} (o : outcome A) (k : A -> M Routes.World B) :
  (forall a, o = Returned a -> Views.store_only (k a)) ->
  Views.store_only (bind (lift o) k).
Proof.
  intros Hk. destruct o as [a | e].
  - exact (Hk a eq_refl).
  - intros w1 w2 Hsame. now split.
Qed.

(** The whole [try] block of [/cache-data] reads nothing of the world but
    the collection. *)
Lemma store_only_cache_data_try :
  Views.store_only
    (Routes.cache_data_try formatDate embeddings_post deleteAll_result
       insertOne_result Exam_find Room_find Subject_find Allocation_find
       RoomAllocation_find Faculty_find).
Proof.
  unfold Routes.cache_data_try.
  apply store_only_bind.
  { intros w1 w2 Hsame. cbn [fst snd]. now rewrite Hsame. }
  intros ready. destruct (negb ready); [apply store_only_throw |].
  apply store_only_bind; [apply store_only_deleteAll |]. intros _.
  do 6 (apply store_only_bind;
        [apply store_only_settled, store_only_call |]; intros ?).
  do 6 (apply store_only_bind; [apply store_only_lift |]; intros ?).
  apply store_only_bind_lift. intros tasks Htasks.
  apply store_only_bind; [| intros; apply store_only_ret].
  eapply store_only_promise_all, rebuild_tasks_store_only, Htasks.
Qed.

(** *** What a rebuild leaves of the collection it finds *)

Lemma keeps_ready_bind {A B} (m : M Routes.World A) (k : A -> M Routes.World B) :
  Views.keeps_ready m -> (forall a, Views.keeps_ready (k a)) ->
  Views.keeps_ready (bind m k).
Proof.
  intros Hm Hk w docs Hready. unfold bind.
  destruct (Hm w docs Hready) as [docs' Hstore].
  destruct (m w) as [w' [a | e]]; cbn [fst] in *.
  - now apply (Hk a w' docs').
  - eauto.
Qed.

Lemma keeps_ready_pure {A} (m : M Routes.World A) :
  (forall w, fst (m w) = w) -> Views.keeps_ready m.
Proof. intros Hpure w docs Hready. rewrite Hpure. eauto. Qed.

Lemma keeps_ready_call {A} (e : Routes.event) (result : outcome A) :
  Views.keeps_ready (Routes.call e result).
Proof. intros w docs Hready. cbn. eauto. Qed.

Lemma keeps_ready_getEmbedding (text : value) :
  Views.keeps_ready (Routes.getEmbedding embeddings_post text).
Proof. intros w docs Hready. rewrite getEmbedding_run. cbn. eauto. Qed.

Lemma keeps_ready_insertOne (doc : Routes.IndexedDocument) :
  Views.keeps_ready (Routes.insertOne insertOne_result doc).
Proof.
  intros w docs Hready. unfold Routes.insertOne.
  destruct (insertOne_result doc); cbn; rewrite Hready; cbn; eauto.
Qed.

Lemma keeps_ready_deleteAll :
  Views.keeps_ready (Routes.deleteAll deleteAll_result).
Proof.
  intros w docs Hready. unfold Routes.deleteAll.
  destruct deleteAll_result; cbn; rewrite Hready; cbn; eauto.
Qed.

Lemma keeps_ready_index_document (prepared : outcome Routes.Prepared) :
  Views.keeps_ready
    (Routes.index_document embeddings_post insertOne_result prepared).
Proof.
  unfold Routes.index_document.
  apply keeps_ready_bind; [now apply keeps_ready_pure |].
  intros [[content build] |]; [| now apply keeps_ready_pure].
  apply keeps_ready_bind; [apply keeps_ready_getEmbedding |]. intros vector.
  apply keeps_ready_bind; [now apply keeps_ready_pure |]. intros doc.
  apply keeps_ready_insertOne.
Qed.

Lemma keeps_ready_settled {A} (task : M Routes.World A) :
  Views.keeps_ready task -> Views.keeps_ready (Routes.settled task).
Proof.
  intros Htask w docs Hready. unfold Routes.settled.
  destruct (Htask w docs Hready) as [docs' Hstore].
  destruct (task w). eauto.
Qed.

Lemma keeps_ready_promise_all {A} (tasks : list (M Routes.World A)) :
  Forall Views.keeps_ready tasks -> Views.keeps_ready (Routes.promise_all tasks).
Proof.
  intros Htasks. unfold Routes.promise_all.
  induction Htasks as [| task tasks Htask _ IH]; intros w docs Hready.
  - cbn. eauto.
  - cbn [Routes.settle_all].
    destruct (Htask w docs Hready) as [docs1 Hstore].
    destruct (task w) as [w1 r]. cbn [fst] in Hstore.
    destruct (IH w1 docs1 Hstore) as [docs2 Hrest].
    destruct (Routes.settle_all tasks w1). cbn [fst] in *. eauto.
Qed.

Lemma rebuild_tasks_keep_ready
    (exams rooms subjects allocations roomAllocations faculties : list value)
    (tasks : list (M Routes.World value)) :
  Routes.rebuild_tasks formatDate embeddings_post insertOne_result
    exams rooms subjects allocations roomAllocations faculties
  = Returned tasks ->
  Forall Views.keeps_ready tasks.
Proof.
  unfold Routes.rebuild_tasks.
  destruct (Routes.by_id exams); cbn [obind]; [| discriminate].
  destruct (Routes.by_id rooms); cbn [obind]; [| discriminate].
  destruct (Routes.by_id subjects); cbn [obind]; [| discriminate].
  destruct (Routes.by_id faculties); cbn [obind]; [| discriminate].
  intros [= <-].
  repeat (apply Forall_app; split); apply List.Forall_forall;
    intros task Hin; apply in_map_iff in Hin as (record & <- & _);
    apply keeps_ready_index_document.
Qed.

Lemma keeps_ready_cache_data_try :
  Views.keeps_ready
    (Routes.cache_data_try formatDate embeddings_post deleteAll_result
       insertOne_result Exam_find Room_find Subject_find Allocation_find
       RoomAllocation_find Faculty_find).
Proof.
  unfold Routes.cache_data_try.
  apply keeps_ready_bind; [now apply keeps_ready_pure |].
  intros ready. destruct (negb ready); [now apply keeps_ready_pure |].
  apply keeps_ready_bind; [apply keeps_ready_deleteAll |]. intros _.
  do 6 (apply keeps_ready_bind;
        [apply keeps_ready_settled, keeps_ready_call |]; intros ?).
  do 6 (apply keeps_ready_bind; [now apply keeps_ready_pure |]; intros ?).
  intros w docs Hready. unfold bind at 1, lift at 1.
  destruct (Routes.rebuild_tasks _ _ _ _ _ _ _ _ _) as [tasks | e] eqn:Htasks;
    [| cbn; eauto].
  revert w docs Hready.
  apply keeps_ready_bind; [| intros; now apply keeps_ready_pure].
  eapply keeps_ready_promise_all, rebuild_tasks_keep_ready, Htasks.
Qed.

(** A rebuild that gets its [deleteAll] through starts from the empty
    collection, whatever the collection held. *)
Lemma cache_data_try_from_empty (w : Routes.World)
    (docs : list Routes.IndexedDocument) (deleted : value) :
  Routes.astraCollection w = Some docs ->
  deleteAll_result = Returned deleted ->
  Routes.cache_data_try formatDate embeddings_post deleteAll_result
    insertOne_result Exam_find Room_find Subject_find Allocation_find
    RoomAllocation_find Faculty_find w
  = Routes.cache_data_try formatDate embeddings_post deleteAll_result
      insertOne_result Exam_find Room_find Subject_find Allocation_find
      RoomAllocation_find Faculty_find
      {| Routes.log := Routes.log w; Routes.astraCollection := Some [] |}.
Proof.
  intros Hready Hdeleted. unfold Routes.cache_data_try.
  unfold bind at 1. unfold bind at 14. cbn [Routes.astraCollection].
  rewrite Hready. cbn [negb].
  unfold bind at 1. unfold bind at 13. unfold Routes.deleteAll.
  rewrite Hdeleted. cbn [Routes.astraCollection Routes.log].
  rewrite Hready. reflexivity.
Qed.

Lemma cache_data_response (w : Routes.World) :
  Routes.cache_data formatDate embeddings_post deleteAll_result
    insertOne_result Exam_find Room_find Subject_find Allocation_find
    RoomAllocation_find Faculty_find w
  = let run := Routes.cache_data_try formatDate embeddings_post
                 deleteAll_result insertOne_result Exam_find Room_find
                 Subject_find Allocation_find RoomAllocation_find Faculty_find
                 w in
    (fst run,
     match snd run with
     | Returned text => Routes.Cached text
     | Thrown err => Routes.Failed ("Cache failed: " +:+ message err)
     end).
Proof.
  unfold Routes.cache_data. cbv zeta.
  now destruct (Routes.cache_data_try _ _ _ _ _ _ _ _ _ _ w) as [w' [text | e]].
Qed.

End StoreFacts.

(** X19. A rebuild whose [deleteAll] resolves forgets what the collection
    held: run on two collections with different documents, it answers the
    same and leaves the same documents. *)
Theorem rebuild_forgets_previous_documents
    (formatDate : value -> string) (embeddings_post : value -> outcome value)
    (deleteAll_result : outcome value)
    (insertOne_result : Routes.IndexedDocument -> outcome value)
    (Exam_find Room_find Subject_find Allocation_find RoomAllocation_find
       Faculty_find : outcome (list value))
    (w1 w2 : Routes.World) (docs1 docs2 : list Routes.IndexedDocument)
    (deleted : value) :
  Routes.astraCollection w1 = Some docs1 ->
  Routes.astraCollection w2 = Some docs2 ->
  deleteAll_result = Returned deleted ->
  let rebuild :=
    Routes.cache_data formatDate embeddings_post deleteAll_result
      insertOne_result Exam_find Room_find Subject_find Allocation_find
      RoomAllocation_find Faculty_find in
  snd (rebuild w1) = snd (rebuild w2) /\
  Routes.astraCollection (fst (rebuild w1))
  = Routes.astraCollection (fst (rebuild w2)).
Proof.
  intros Hready1 Hready2 Hdeleted. cbv zeta.
  rewrite !cache_data_response. cbv zeta. cbn [fst snd].
  rewrite (cache_data_try_from_empty formatDate embeddings_post
             deleteAll_result insertOne_result Exam_find Room_find
             Subject_find Allocation_find RoomAllocation_find Faculty_find
             w1 docs1 deleted Hready1 Hdeleted).
  rewrite (cache_data_try_from_empty formatDate embeddings_post
             deleteAll_result insertOne_result Exam_find Room_find
             Subject_find Allocation_find RoomAllocation_find Faculty_find
             w2 docs2 deleted Hready2 Hdeleted).
  destruct (store_only_cache_data_try formatDate embeddings_post
              deleteAll_result insertOne_result Exam_find Room_find
              Subject_find Allocation_find RoomAllocation_find Faculty_find
              {| Routes.log := Routes.log w1; Routes.astraCollection := Some [] |}
              {| Routes.log := Routes.log w2; Routes.astraCollection := Some [] |}
              eq_refl) as [Hout Hstore].
  now rewrite Hout, Hstore.
Qed.

(** X20. Rebuilding twice is rebuilding once: with the sources and the
    services answering as before, a second [POST /cache-data] gives the
    same response and leaves the collection with the same documents as the
    first did; nothing accumulates. *)
Theorem rebuild_twice_same_as_once
    (formatDate : value -> string) (embeddings_post : value -> outcome value)
    (deleteAll_result : outcome value)
    (insertOne_result : Routes.IndexedDocument -> outcome value)
    (Exam_find Room_find Subject_find Allocation_find RoomAllocation_find
       Faculty_find : outcome (list value))
    (w : Routes.World) :
  let rebuild :=
    Routes.cache_data formatDate embeddings_post deleteAll_result
      insertOne_result Exam_find Room_find Subject_find Allocation_find
      RoomAllocation_find Faculty_find in
  snd (rebuild (fst (rebuild w))) = snd (rebuild w) /\
  Routes.astraCollection (fst (rebuild (fst (rebuild w))))
  = Routes.astraCollection (fst (rebuild w)).
Proof.
  cbv zeta.
  destruct (Routes.astraCollection w) as [docs |] eqn:Hready.
  - destruct (keeps_ready_cache_data_try formatDate embeddings_post
                deleteAll_result insertOne_result Exam_find Room_find
                Subject_find Allocation_find RoomAllocation_find Faculty_find
                w docs Hready) as [docs' Hkept].
    destruct deleteAll_result as [deleted | e] eqn:Hdeleted.
    + rewrite !cache_data_response. cbv zeta. cbn [fst snd].
      rewrite (cache_data_try_from_empty formatDate embeddings_post
                 (Returned deleted) insertOne_result Exam_find Room_find
                 Subject_find Allocation_find RoomAllocation_find Faculty_find
                 _ docs' deleted Hkept eq_refl).
      rewrite (cache_data_try_from_empty formatDate embeddings_post
                 (Returned deleted) insertOne_result Exam_find Room_find
                 Subject_find Allocation_find RoomAllocation_find Faculty_find
                 w docs deleted Hready eq_refl) at 2 4.
      match goal with
      | |- context [Routes.cache_data_try _ _ _ _ _ _ _ _ _ _
                      {| Routes.log := Routes.log ?w1;
                         Routes.astraCollection := Some [] |}] =>
          destruct (store_only_cache_data_try formatDate embeddings_post
                      (Returned deleted) insertOne_result Exam_find Room_find
                      Subject_find Allocation_find RoomAllocation_find
                      Faculty_find
                      {| Routes.log := Routes.log w1;
                         Routes.astraCollection := Some [] |}
                      {| Routes.log := Routes.log w;
                         Routes.astraCollection := Some [] |}
                      eq_refl) as [Hout Hstore]
      end.
      now rewrite Hout, Hstore.
    + assert (Hsame :
        Routes.astraCollection
          (fst (Routes.cache_data formatDate embeddings_post (Thrown e)
                  insertOne_result Exam_find Room_find Subject_find
                  Allocation_find RoomAllocation_find Faculty_find w))
        = Routes.astraCollection w).
      { unfold Routes.cache_data, Routes.cache_data_try, bind at 1.
        rewrite Hready. cbn [negb]. unfold bind at 1, Routes.deleteAll.
        cbn [fst Routes.logged Routes.astraCollection]. exact Hready. }
      rewrite !cache_data_response. cbv zeta. cbn [fst snd].
      rewrite cache_data_response in Hsame. cbv zeta in Hsame.
      cbn [fst] in Hsame.
      destruct (store_only_cache_data_try formatDate embeddings_post
                  (Thrown e) insertOne_result Exam_find Room_find Subject_find
                  Allocation_find RoomAllocation_find Faculty_find _ _ Hsame)
        as [Hout Hstore].
      now rewrite Hout, Hstore.
  - assert (Hnot : Routes.cache_data formatDate embeddings_post
                     deleteAll_result insertOne_result Exam_find Room_find
                     Subject_find Allocation_find RoomAllocation_find
                     Faculty_find w
                   = (w, Routes.Failed "Cache failed: Database not ready")).
    { unfold Routes.cache_data, Routes.cache_data_try, bind at 1.
      now rewrite Hready. }
    rewrite Hnot. cbn [fst]. rewrite Hnot. now split.
Qed.

(** ** The tasks of a rebuild, one by one *)

Section TaskFacts.

Variable formatDate : value -> string.
Variable embeddings_post : value -> outcome value.
Variable deleteAll_result : outcome value.
Variable insertOne_result : Routes.IndexedDocument -> outcome value.
Variable find_result : value -> outcome (list Routes.SearchHit).
Variable chat_post : Routes.ChatRequest -> outcome value.
Variable Exam_find Room_find Subject_find Allocation_find
         RoomAllocation_find Faculty_find : outcome (list value).

(** A task that fulfils past its guard has made two calls: the embedding of
    the summary and the insertion of the document built around it. *)
Lemma index_document_fulfilled (content : string)
    (build : value -> outcome Routes.IndexedDocument)
    (w w' : Routes.World) (v : value) :
  Routes.index_document embeddings_post insertOne_result
    (Returned (Some (content, build))) w = (w', Returned v) ->
  exists vector doc,
    obind (embeddings_post (JStr content)) Routes.embedding_of = Returned vector
    /\ build vector = Returned doc
    /\ w' = {| Routes.log := Routes.log w
                             ++ [Routes.Embeddings (JStr content);
                                 Routes.InsertOne doc];
               Routes.astraCollection :=
                 (fun docs => docs ++ [doc]) <$> Routes.astraCollection w |}.
Proof.
  unfold Routes.index_document, bind at 1, lift at 1. cbn [obind].
  unfold bind at 1. rewrite getEmbedding_run.
  destruct (obind _ _) as [vector | e] eqn:Hvector; [| discriminate].
  unfold bind, lift.
  destruct (build vector) as [doc | e] eqn:Hbuilt; [| discriminate].
  unfold Routes.insertOne.
  destruct (insertOne_result doc); [| discriminate].
  intros [= <- <-]. exists vector, doc.
  split; [reflexivity |]. split; [exact Hbuilt |].
  cbn [Routes.logged Routes.log Routes.astraCollection].
  now rewrite <- app_assoc.
Qed.

Lemma prepare_exam_document (subjects : list value)
    (facultyMap roomMap : gmap string value) (exam : value)
    (content : string) (build : value -> outcome Routes.IndexedDocument)
    (vector : value) (doc : Routes.IndexedDocument) :
  Routes.prepare_exam formatDate subjects facultyMap roomMap exam
  = Returned (Some (content, build)) ->
  build vector = Returned doc ->
  exists id,
    get exam "_id" = Returned id
    /\ Routes._id doc = "exam_" +:+ to_str id
    /\ Routes.content doc = content
    /\ Routes.embedding doc = vector
    /\ Routes.type doc = Routes.type_exam.
Proof.
  unfold Routes.prepare_exam. intros Hprepared.
  do 9 returned Hprepared. injection Hprepared as <- <-.
  intros Hbuilt. do 6 returned Hbuilt. injection Hbuilt as <-.
  eexists. repeat split.
Qed.

Lemma prepare_alloc_document
    (examMap subjectMap roomMap facultyMap : gmap string value)
    (alloc : value) (content : string)
    (build : value -> outcome Routes.IndexedDocument)
    (vector : value) (doc : Routes.IndexedDocument) :
  Routes.prepare_alloc formatDate examMap subjectMap roomMap facultyMap alloc
  = Returned (Some (content, build)) ->
  build vector = Returned doc ->
  exists id,
    get alloc "_id" = Returned id
    /\ Routes._id doc = "alloc_" +:+ to_str id
    /\ Routes.content doc = content
    /\ Routes.embedding doc = vector
    /\ Routes.type doc = Routes.type_allocation.
Proof.
  unfold Routes.prepare_alloc. intros Hprepared.
  do 4 returned Hprepared.
  destruct (_ || _) in Hprepared; [discriminate |].
  do 2 returned Hprepared. injection Hprepared as <- <-.
  intros Hbuilt. do 7 returned Hbuilt. injection Hbuilt as <-.
  eexists. repeat split.
Qed.

Lemma prepare_room_alloc_document
    (examMap roomMap subjectMap : gmap string value)
    (roomAlloc : value) (content : string)
    (build : value -> outcome Routes.IndexedDocument)
    (vector : value) (doc : Routes.IndexedDocument) :
  Routes.prepare_room_alloc formatDate examMap roomMap subjectMap roomAlloc
  = Returned (Some (content, build)) ->
  build vector = Returned doc ->
  exists id,
    get roomAlloc "_id" = Returned id
    /\ Routes._id doc = "roomalloc_" +:+ to_str id
    /\ Routes.content doc = content
    /\ Routes.embedding doc = vector
    /\ Routes.type doc = Routes.type_room_allocation.
Proof.
  unfold Routes.prepare_room_alloc. intros Hprepared.
  do 4 returned Hprepared.
  destruct (_ || _) in Hprepared; [discriminate |].
  do 2 returned Hprepared. injection Hprepared as <- <-.
  intros Hbuilt. do 8 returned Hbuilt. injection Hbuilt as <-.
  eexists. repeat split.
Qed.

(** What a task that fulfils has done, given what its callback prepared. *)
Lemma task_fulfilled (prepared : outcome Routes.Prepared) (record : value)
    (kind : Routes.DocType) (w w' : Routes.World) (v : value) :
  (forall content build vector doc,
     prepared = Returned (Some (content, build)) ->
     build vector = Returned doc ->
     exists id,
       get record "_id" = Returned id
       /\ Routes._id doc = Views.kind_prefix kind +:+ to_str id
       /\ Routes.content doc = content
       /\ Routes.embedding doc = vector
       /\ Routes.type doc = kind) ->
  Routes.index_document embeddings_post insertOne_result prepared w
  = (w', Returned v) ->
  (w' = w /\ v = JNull)
  \/ exists doc id,
       get record "_id" = Returned id
       /\ Routes._id doc = Views.kind_prefix (Routes.type doc) +:+ to_str id
       /\ obind (embeddings_post (JStr (Routes.content doc)))
                Routes.embedding_of
          = Returned (Routes.embedding doc)
       /\ Routes.log w'
          = Routes.log w ++ [Routes.Embeddings (JStr (Routes.content doc));
                             Routes.InsertOne doc]
       /\ Routes.astraCollection w'
          = (fun docs => docs ++ [doc]) <$> Routes.astraCollection w.
Proof.
  intros Hshape Hrun.
  destruct prepared as [[[content build] |] | e].
  - right.
    destruct (index_document_fulfilled content build w w' v Hrun)
      as (vector & doc & Hvector & Hbuilt & ->).
    destruct (Hshape content build vector doc eq_refl Hbuilt)
      as (id & Hid & Hname & Hcontent & Hembedding & Hkind).
    exists doc, id. rewrite Hkind, Hcontent, Hembedding. now repeat split.
  - left. now injection Hrun as <- <-.
  - discriminate.
Qed.

End TaskFacts.

(** X21. Every task of a rebuild that fulfils has either skipped its
    record, making no call at all, or made exactly two calls: the embedding
    of a summary and the insertion of one document, which holds that
    summary as content and the vector the service gave for it, under the id
    of its source record prefixed by its kind ([exam_], [alloc_],
    [roomalloc_]). *)
Theorem fulfilled_task_indexed_its_summary
    (formatDate : value -> string) (embeddings_post : value -> outcome value)
    (insertOne_result : Routes.IndexedDocument -> outcome value)
    (exams rooms subjects allocations roomAllocations faculties : list value)
    (tasks : list (M Routes.World value)) (task : M Routes.World value)
    (w w' : Routes.World) (v : value) :
  Routes.rebuild_tasks formatDate embeddings_post insertOne_result
    exams rooms subjects allocations roomAllocations faculties
  = Returned tasks ->
  In task tasks ->
  task w = (w', Returned v) ->
  (w' = w /\ v = JNull)
  \/ exists doc record id,
       In record (exams ++ allocations ++ roomAllocations)
       /\ get record "_id" = Returned id
       /\ Routes._id doc = Views.kind_prefix (Routes.type doc) +:+ to_str id
       /\ obind (embeddings_post (JStr (Routes.content doc)))
                Routes.embedding_of
          = Returned (Routes.embedding doc)
       /\ Routes.log w'
          = Routes.log w ++ [Routes.Embeddings (JStr (Routes.content doc));
                             Routes.InsertOne doc]
       /\ Routes.astraCollection w'
          = (fun docs => docs ++ [doc]) <$> Routes.astraCollection w.
Proof.
  unfold Routes.rebuild_tasks. intros Htasks Hin Hrun.
  do 4 returned Htasks. injection Htasks as <-.
  assert (Hfound : forall record kind prepared,
            In record (exams ++ allocations ++ roomAllocations) ->
            (forall content build vector doc,
               prepared = Returned (Some (content, build)) ->
               build vector = Returned doc ->
               exists id,
                 get record "_id" = Returned id
                 /\ Routes._id doc = Views.kind_prefix kind +:+ to_str id
                 /\ Routes.content doc = content
                 /\ Routes.embedding doc = vector
                 /\ Routes.type doc = kind) ->
            Routes.index_document embeddings_post insertOne_result prepared w
            = (w', Returned v) ->
            (w' = w /\ v = JNull)
            \/ exists doc record id,
                 In record (exams ++ allocations ++ roomAllocations)
                 /\ get record "_id" = Returned id
                 /\ Routes._id doc
                    = Views.kind_prefix (Routes.type doc) +:+ to_str id
                 /\ obind (embeddings_post (JStr (Routes.content doc)))
                          Routes.embedding_of
                    = Returned (Routes.embedding doc)
                 /\ Routes.log w'
                    = Routes.log w
                      ++ [Routes.Embeddings (JStr (Routes.content doc));
                          Routes.InsertOne doc]
                 /\ Routes.astraCollection w'
                    = (fun docs => docs ++ [doc]) <$> Routes.astraCollection w).
  { intros record kind prepared Hrecord Hshape Htask.
    destruct (task_fulfilled embeddings_post insertOne_result prepared record
                kind w w' v Hshape Htask)
      as [Hskipped | (doc & id & Hdone)]; [now left |].
    right. exists doc, record, id. now split. }
  apply in_app_or in Hin as [Hin | Hin];
    [| apply in_app_or in Hin as [Hin | Hin]];
    apply in_map_iff in Hin as (record & <- & Hrecord).
  - refine (Hfound record Routes.type_exam _ _ _ Hrun); [in_app |].
    intros content build vector doc Hprepared Hbuilt.
    exact (prepare_exam_document formatDate _ _ _ _ _ _ _ _ Hprepared Hbuilt).
  - refine (Hfound record Routes.type_allocation _ _ _ Hrun); [in_app |].
    intros content build vector doc Hprepared Hbuilt.
    exact (prepare_alloc_document formatDate _ _ _ _ _ _ _ _ _ Hprepared
             Hbuilt).
  - refine (Hfound record Routes.type_room_allocation _ _ _ Hrun);
      [in_app |].
    intros content build vector doc Hprepared Hbuilt.
    exact (prepare_room_alloc_document formatDate _ _ _ _ _ _ _ _ Hprepared
             Hbuilt).
Qed.

(** ** Skipped records, the size of the collection, and [/admin] *)

Section RebuildFacts.

Variable formatDate : value -> string.
Variable embeddings_post : value -> outcome value.
Variable deleteAll_result : outcome value.
Variable insertOne_result : Routes.IndexedDocument -> outcome value.
Variable find_result : value -> outcome (list Routes.SearchHit).
Variable chat_post : Routes.ChatRequest -> outcome value.
Variable Exam_find Room_find Subject_find Allocation_find
         RoomAllocation_find Faculty_find : outcome (list value).

(** X22. An allocation whose four references are there but one of which
    names a record the lookup maps do not hold is skipped in silence: its
    task fulfils with [null], and neither the embedding service nor the
    collection is called for it. *)
Theorem unresolved_allocation_is_skipped_without_a_call
    (examMap subjectMap roomMap facultyMap : gmap string value)
    (alloc : value) (examKey subjectKey roomKey facultyKey : string)
    (w : Routes.World) :
  Routes.ref_id alloc "examId" = Returned examKey ->
  Routes.ref_id alloc "subjectId" = Returned subjectKey ->
  Routes.ref_id alloc "roomId" = Returned roomKey ->
  Routes.ref_id alloc "facultyId" = Returned facultyKey ->
  truthy (Routes.map_get examMap examKey)
  && truthy (Routes.map_get subjectMap subjectKey)
  && truthy (Routes.map_get roomMap roomKey)
  && truthy (Routes.map_get facultyMap facultyKey) = false ->
  Routes.index_document embeddings_post insertOne_result
    (Routes.prepare_alloc formatDate examMap subjectMap roomMap facultyMap
       alloc) w
  = (w, Returned JNull).
Proof.
  intros Hexam Hsubject Hroom Hfaculty Hmissing.
  rewrite (prepare_alloc_skips_unresolved formatDate _ _ _ _ _ _ _ _ _
             Hexam Hsubject Hroom Hfaculty Hmissing).
  apply index_document_skipped.
Qed.

Lemma index_document_adds_at_most_one (prepared : outcome Routes.Prepared) :
  Views.adds_at_most_one
    (Routes.index_document embeddings_post insertOne_result prepared).
Proof.
  intros w docs Hready. unfold Routes.index_document, bind at 1, lift at 1.
  destruct prepared as [[[content build] |] | e]; cbn [obind];
    try (exists docs; cbn [fst]; split; [exact Hready | lia]).
  unfold bind at 1. rewrite getEmbedding_run.
  destruct (obind _ _) as [vector | e];
    [| exists docs; cbn [fst Routes.logged Routes.astraCollection];
       split; [exact Hready | lia]].
  unfold bind, lift.
  destruct (build vector) as [doc | e];
    [| exists docs; cbn [fst Routes.logged Routes.astraCollection];
       split; [exact Hready | lia]].
  unfold Routes.insertOne.
  destruct (insertOne_result doc);
    cbn [fst Routes.logged Routes.astraCollection]; rewrite Hready.
  - exists (docs ++ [doc]). split; [reflexivity |].
    rewrite length_app. cbn [length]. lia.
  - exists docs. split; [reflexivity | lia].
Qed.

Lemma settle_all_adds_at_most_one_each {A} (tasks : list (M Routes.World A)) :
  Forall Views.adds_at_most_one tasks ->
  forall w docs,
    Routes.astraCollection w = Some docs ->
    exists docs',
      Routes.astraCollection (fst (Routes.settle_all tasks w)) = Some docs' /\
      (length docs' <= length docs + length tasks)%nat.
Proof.
  induction 1 as [| task tasks Htask _ IH]; intros w docs Hready.
  - exists docs. cbn [Routes.settle_all fst length]. split; [exact Hready | lia].
  - cbn [Routes.settle_all].
    destruct (Htask w docs Hready) as (docs1 & Hstore & Hone).
    destruct (task w) as [w1 r]. cbn [fst] in Hstore.
    destruct (IH w1 docs1 Hstore) as (docs2 & Hrest & Hmany).
    destruct (Routes.settle_all tasks w1) as [w2 rs]. cbn [fst] in *.
    exists docs2. split; [exact Hrest |]. cbn [length]. lia.
Qed.

Lemma rebuild_tasks_count
    (exams rooms subjects allocations roomAllocations faculties : list value)
    (tasks : list (M Routes.World value)) :
  Routes.rebuild_tasks formatDate embeddings_post insertOne_result
    exams rooms subjects allocations roomAllocations faculties
  = Returned tasks ->
  Forall Views.adds_at_most_one tasks /\
  length tasks
  = (length exams + length allocations + length roomAllocations)%nat.
Proof.
  unfold Routes.rebuild_tasks. intros Htasks.
  do 4 returned Htasks. injection Htasks as <-. split.
  - repeat (apply Forall_app; split); apply List.Forall_forall;
      intros task Hin; apply in_map_iff in Hin as (record & <- & _);
      apply index_document_adds_at_most_one.
  - rewrite !length_app, !length_map. lia.
Qed.

(** X23. After a rebuild the collection holds at most one document per
    source record: with [deleteAll] and the six queries resolved, there are
    no more documents than exams, allocations and room allocations
    together, whatever became of the tasks. *)
Theorem collection_never_outgrows_its_sources (w : Routes.World)
    (docs : list Routes.IndexedDocument) (deleted : value)
    (exams rooms subjects allocations roomAllocations faculties : list value) :
  Routes.astraCollection w = Some docs ->
  deleteAll_result = Returned deleted ->
  Exam_find = Returned exams ->
  Room_find = Returned rooms ->
  Subject_find = Returned subjects ->
  Allocation_find = Returned allocations ->
  RoomAllocation_find = Returned roomAllocations ->
  Faculty_find = Returned faculties ->
  exists docs',
    Routes.astraCollection
      (fst (Routes.cache_data formatDate embeddings_post deleteAll_result
              insertOne_result Exam_find Room_find Subject_find
              Allocation_find RoomAllocation_find Faculty_find w))
    = Some docs' /\
    (length docs'
     <= length exams + length allocations + length roomAllocations)%nat.
Proof.
  intros Hready Hdeleted Hexams Hrooms Hsubjects Hallocs Hroomallocs Hfaculties.
  destruct (Routes.rebuild_tasks formatDate embeddings_post insertOne_result
              exams rooms subjects allocations roomAllocations faculties)
    as [tasks | e] eqn:Htasks.
  - rewrite (cache_data_run formatDate embeddings_post deleteAll_result
               insertOne_result Exam_find Room_find Subject_find
               Allocation_find RoomAllocation_find Faculty_find
               w docs deleted _ _ _ _ _ _ _ Hready Hdeleted Hexams
               Hrooms Hsubjects Hallocs Hroomallocs Hfaculties Htasks).
    destruct (rebuild_tasks_count _ _ _ _ _ _ _ Htasks) as [Hone Hcount].
    destruct (settle_all_adds_at_most_one_each tasks Hone
                (Routes.sweep_started w) [] eq_refl)
      as (docs' & Hstore & Hbound).
    exists docs'. cbn [fst]. unfold Routes.promise_all.
    destruct (Routes.settle_all tasks (Routes.sweep_started w)).
    cbn [fst] in *. split; [exact Hstore |]. cbn [length] in Hbound. lia.
  - subst. exists [].
    unfold Routes.cache_data, Routes.cache_data_try.
    unfold bind at 1. rewrite Hready. cbn [negb].
    unfold bind at 1, Routes.deleteAll. rewrite Hready.
    unfold bind, lift, ret, Routes.settled, Routes.find_all, Routes.call,
      Routes.logged.
    cbn [Routes.log Routes.astraCollection fmap option_fmap option_map obind].
    rewrite Htasks. cbn [fst Routes.astraCollection]. split; [reflexivity |].
    cbn [length]. lia.
Qed.

(** X24. [POST /admin] while the collection is not there: the embedding
    of the query is requested first, and only then does the search fail on
    the missing collection; the answer is a 500 with the engine's message,
    and neither the search nor the chat endpoint is called. *)
Theorem admin_without_collection_fails_after_embedding
    (body query vector : value) (w : Routes.World) :
  Routes.destructure body "query" = Returned query ->
  truthy query = true ->
  Routes.astraCollection w = None ->
  obind (embeddings_post query) Routes.embedding_of = Returned vector ->
  Routes.admin embeddings_post find_result chat_post body w
  = (Routes.logged (Routes.Embeddings query) w,
     Routes.Failed
       "Chatbot failed: Cannot read properties of undefined (reading 'find')").
Proof.
  intros Hquery Htruthy Hnone Hvector.
  unfold Routes.admin, Routes.admin_try. unfold bind at 1, lift at 1.
  rewrite Hquery, Htruthy. cbn [negb].
  unfold bind at 1. rewrite getEmbedding_run, Hvector.
  unfold bind at 1, Routes.vector_search.
  cbn [Routes.logged Routes.astraCollection]. now rewrite Hnone.
Qed.

(** X25. [POST /admin] with results to go on: the response is decided by
    the chat call.  When it resolves with a content, that content is the
    answer, sent with the types of the results kept, in their order, and the
    similarity of the first of them; when it rejects or its response cannot
    be read down to [choices[0].message], the answer is a 500 carrying the
    error's message. *)
Theorem admin_answers_with_the_chat_content
    (body query vector : value) (results : list Routes.SearchHit)
    (first : Routes.SearchHit) (others : list Routes.SearchHit)
    (docs : list Routes.IndexedDocument) (w : Routes.World) :
  Routes.destructure body "query" = Returned query ->
  truthy query = true ->
  Routes.astraCollection w = Some docs ->
  obind (embeddings_post query) Routes.embedding_of = Returned vector ->
  find_result vector = Returned results ->
  Routes.relevant results = first :: others ->
  let request :=
    Routes.admin_request (Routes.build_context (first :: others)) query in
  snd (Routes.admin embeddings_post find_result chat_post body w)
  = match obind (chat_post request) Routes.answer_of with
    | Returned answer =>
        Routes.Answer answer
          (map (fun r => Routes.type (Routes.document r)) (first :: others))
          (Some (Routes.similarity first))
    | Thrown err => Routes.Failed ("Chatbot failed: " +:+ message err)
    end.
Proof.
  intros Hquery Htruthy Hready Hvector Hfound Hkept request.
  unfold Routes.admin, Routes.admin_try. unfold bind at 1, lift at 1.
  rewrite Hquery, Htruthy. cbn [negb].
  unfold bind at 1. rewrite getEmbedding_run, Hvector.
  unfold bind at 1, Routes.vector_search.
  cbn [Routes.logged Routes.astraCollection]. rewrite Hready, Hfound, Hkept.
  cbn [length Nat.eqb]. fold request.
  unfold bind, lift, ret, Routes.call.
  destruct (chat_post request) as [response | e]; cbn [obind]; [| reflexivity].
  destruct (Routes.answer_of response); reflexivity.
Qed.

End RebuildFacts.

(** ** The start of the service *)

Section StartupFacts.

Variable connect_result dropCollection_result : outcome value.
Variable createCollection_result : outcome (list Routes.IndexedDocument).

(** X26. Whether the old collection could be dropped makes no difference
    to [initializeServices]: once the client is connected and
    [createCollection] resolves, the three calls have been made in order,
    [astraCollection] is the collection created and the function returns,
    whatever [dropCollection] answered. *)
Theorem initializeServices_ignores_the_drop_outcome
    (handle : value) (docs : list Routes.IndexedDocument)
    (calls : list Startup.event) (w : Routes.World) :
  connect_result = Returned handle ->
  createCollection_result = Returned docs ->
  Startup.initializeServices connect_result dropCollection_result
    createCollection_result (calls, w)
  = ((calls ++ [Startup.Connect;
                Startup.DropCollection "exam_embeddings";
                Startup.CreateCollection "exam_embeddings" 768 "cosine"],
      {| Routes.log := Routes.log w; Routes.astraCollection := Some docs |}),
     Returned tt).
Proof.
  intros Hconnect Hcreate.
  unfold Startup.initializeServices, try_catch, bind, ret, Startup.call,
    Startup.set_collection.
  rewrite Hconnect, Hcreate. cbn [fst snd].
  destruct dropCollection_result; cbn [fst snd]; now rewrite <- !app_assoc.
Qed.

End StartupFacts.

(** X27. A start that fails leaves the endpoints without their collection
    and says so only in the log: when the client cannot be set up or
    [createCollection] rejects, [initializeServices] rejects with that
    error, the call at the end of the module swallows it, [astraCollection]
    stays undefined, and a later [POST /cache-data] answers
    [Cache failed: Database not ready] without a single call. *)
Theorem failed_start_leaves_cache_data_unready
    (connect_result dropCollection_result : outcome value)
    (createCollection_result : outcome (list Routes.IndexedDocument))
    (formatDate : value -> string) (embeddings_post : value -> outcome value)
    (deleteAll_result : outcome value)
    (insertOne_result : Routes.IndexedDocument -> outcome value)
    (Exam_find Room_find Subject_find Allocation_find RoomAllocation_find
       Faculty_find : outcome (list value))
    (calls : list Startup.event) (w : Routes.World) (e : error) :
  Routes.astraCollection w = None ->
  (connect_result = Thrown e
   \/ exists handle,
        connect_result = Returned handle /\
        createCollection_result = Thrown e) ->
  snd (Startup.initializeServices connect_result dropCollection_result
         createCollection_result (calls, w))
  = Thrown e /\
  let started :=
    Startup.startup connect_result dropCollection_result
      createCollection_result (calls, w) in
  snd started = Returned tt /\
  snd (fst started) = w /\
  Routes.cache_data formatDate embeddings_post deleteAll_result
    insertOne_result Exam_find Room_find Subject_find Allocation_find
    RoomAllocation_find Faculty_find (snd (fst started))
  = (w, Routes.Failed "Cache failed: Database not ready").
Proof.
  intros Hnone Hfails.
  assert (Hinit :
    exists calls',
      Startup.initializeServices connect_result dropCollection_result
        createCollection_result (calls, w)
      = ((calls', w), Thrown e)).
  { unfold Startup.initializeServices, try_catch, bind, ret, throw,
      Startup.call, Startup.set_collection.
    destruct Hfails as [-> | (handle & -> & ->)].
    - cbn [fst snd]. eauto.
    - destruct dropCollection_result; cbn [fst snd]; eauto. }
  destruct Hinit as [calls' Hinit].
  split; [now rewrite Hinit |].
  cbv zeta. unfold Startup.startup, try_catch. rewrite Hinit.
  cbn [ret fst snd]. split; [reflexivity |]. split; [reflexivity |].
  unfold Routes.cache_data, Routes.cache_data_try, bind at 1.
  now rewrite Hnone.
Qed.

(** ** The keys of a bundle, and the widened seating query *)

Section KeyFacts.

Variable toLowerCase : string -> string.
Variable dbService : Controller.DbService.

Lemma set_prop_known (k : string) (v : value) (data : list (string * value)) :
  In k Views.router_keys -> Views.known_keys data ->
  Views.known_keys (set_prop k v data).
Proof.
  intros Hk. unfold Views.known_keys.
  induction 1 as [| [k' v'] data Hentry Hdata IH]; cbn [set_prop].
  - constructor; [exact Hk | constructor].
  - destruct (String.eqb k' k); constructor; assumption.
Qed.

Lemma keeps_keys_bind {A B} (m : M Controller.W A) (k : A -> M Controller.W B) :
  Views.keeps_keys m -> (forall a, Views.keeps_keys (k a)) ->
  Views.keeps_keys (bind m k).
Proof.
  intros Hm Hk w Hw. unfold bind. specialize (Hm w Hw).
  destruct (m w) as [w' [a | e]]; cbn [fst] in *; [now apply Hk | exact Hm].
Qed.

Lemma keeps_keys_lift {A} (o : outcome A) : Views.keeps_keys (lift o).
Proof. intros w Hw. exact Hw. Qed.

Lemma keeps_keys_ret {A} (a : A) :
  Views.keeps_keys (ret a : M Controller.W A).
Proof. intros w Hw. exact Hw. Qed.

Lemma keeps_keys_throw {A} (e : error) :
  Views.keeps_keys (throw e : M Controller.W A).
Proof. intros w Hw. exact Hw. Qed.

Lemma keeps_keys_await_db (method : string) (args : list value)
    (result : outcome value) :
  Views.keeps_keys (Controller.await_db method args result).
Proof. intros w Hw. exact Hw. Qed.

Lemma keeps_keys_set_data (k : string) (v : value) :
  In k Views.router_keys -> Views.keeps_keys (Controller.set_data k v).
Proof. intros Hk w Hw. now apply set_prop_known. Qed.

Lemma keeps_keys_when (c : bool) (m : M Controller.W unit) :
  Views.keeps_keys m -> Views.keeps_keys (when c m).
Proof. intros Hm. destruct c; [exact Hm | apply keeps_keys_ret]. Qed.

(** The steps of a [case], taken one after the other. *)
Ltac keys :=
  repeat first
    [ apply keeps_keys_lift
    | apply keeps_keys_ret
    | apply keeps_keys_throw
    | apply keeps_keys_await_db
    | apply keeps_keys_set_data; cbn; tauto
    | apply keeps_keys_when
    | apply keeps_keys_bind; [| intros ?]
    | match goal with
      | |- Views.keeps_keys (if ?c then _ else _) => destruct c
      | |- Views.keeps_keys (let _ := _ in _) => cbv zeta
      end ].

Lemma keeps_keys_switch_intent
    (analysisResult user intent facultyId facultyName : value)
    (timeParams : list (string * value)) :
  Views.keeps_keys
    (Controller.switch_intent toLowerCase dbService analysisResult user intent facultyId
       facultyName timeParams).
Proof.
  unfold Controller.switch_intent, Controller.case_exam_info,
    Controller.case_faculty_allocation, Controller.case_room_info,
    Controller.case_student_allocation, Controller.case_faculty_info,
    Controller.case_system_stats, Controller.case_default,
    Controller.count_allocations.
  keys.
Qed.

Lemma keeps_keys_fetch_try (analysisResult user intent : value)
    (timeParams : list (string * value)) :
  Views.keeps_keys
    (Controller.fetch_try toLowerCase dbService analysisResult user intent timeParams).
Proof.
  unfold Controller.fetch_try. keys. apply keeps_keys_switch_intent.
Qed.

End KeyFacts.

(** X28. Whatever the classification, the caller and the answers of the
    data service, a bundle that [fetchRelevantData] returns holds datasets
    under the thirteen keys of its six handled cases only: [searchResults]
    and [facultyData], which only the [default] case would store, are never
    in it. *)
Theorem bundle_never_holds_search_results (toLowerCase : string -> string)
    (dbService : Controller.DbService)
    (analysisResult user : value) (log log' : list Controller.event)
    (contextData : Controller.ContextData) :
  Controller.fetchRelevantData toLowerCase dbService analysisResult user log
  = (log', Returned contextData) ->
  Views.known_keys (Controller.data contextData)
  /\ assoc "searchResults" (Controller.data contextData) = None
  /\ assoc "facultyData" (Controller.data contextData) = None.
Proof.
  intros Hrun.
  assert (Hknown : Views.known_keys (Controller.data contextData)).
  { destruct (get analysisResult "intent") as [intent0 |] eqn:Hintent.
    - pose proof (fetchRelevantData_run toLowerCase dbService analysisResult user _ log
                    Hintent) as Hfetch.
      cbv zeta in Hfetch. rewrite Hfetch in Hrun.
      injection Hrun as _ <-. cbn [Controller.data].
      apply (keeps_keys_fetch_try toLowerCase dbService analysisResult user _ _ (log, [])).
      constructor.
    - unfold Controller.fetchRelevantData, bind at 1, lift at 1 in Hrun.
      rewrite Hintent in Hrun. discriminate. }
  split; [exact Hknown |].
  assert (Habsent : forall k,
            ~ In k Views.router_keys ->
            assoc k (Controller.data contextData) = None).
  { intros k Hk. unfold Views.known_keys in Hknown.
    induction Hknown as [| [k' v'] data Hentry _ IH]; [reflexivity |].
    cbn [assoc]. destruct (String.eqb_spec k' k) as [-> | _]; [| exact IH].
    now destruct Hk. }
  split; apply Habsent; cbn; intuition discriminate.
Qed.

(** X29. A Faculty caller's seating query that names no room is widened
    to the rooms of the caller's own duties: after the seating lookup the
    caller's allocations are fetched and, when there are some, the seating
    is looked up again for their rooms, by id (of a populated room, or the
    reference itself) and by number, the allocations without a room left
    out; the result is stored under [facultyRoomStudents]. *)
Theorem student_allocation_follows_callers_duties
    (toLowerCase : string -> string)
    (dbService : Controller.DbService) (analysisResult user seats : value)
    (duty : value) (duties ids numbers : list value)
    (log : list Controller.event) :
  get analysisResult "intent" = Returned (JStr "student_allocation") ->
  Controller.has_role user "Faculty" = true ->
  truthy (Controller.user_field user "_id") = true ->
  truthy (Controller.slot analysisResult "room_number") = false ->
  let timeParams :=
    Controller.time_params (Controller.slot analysisResult "time_period") in
  let seatArgs :=
    JObj ([("roomNumber", Controller.slot analysisResult "room_number");
           ("semester", Controller.slot analysisResult "semester");
           ("student", Controller.slot analysisResult "student");
           ("date", Controller.slot analysisResult "date")] ++ timeParams) in
  let own :=
    JObj ([("facultyId", Controller.user_field user "_id");
           ("date", Controller.slot analysisResult "date")] ++ timeParams) in
  let rooms :=
    JObj ([("roomIds", JArr (List.filter truthy ids));
           ("roomNumbers", JArr (List.filter truthy numbers));
           ("date", Controller.slot analysisResult "date")] ++ timeParams) in
  Controller.findStudentAllocations dbService seatArgs = Returned seats ->
  Controller.findFacultyAllocations dbService own
  = Returned (JArr (duty :: duties)) ->
  mapM Controller.room_id_of (duty :: duties) = Returned ids ->
  mapM Controller.room_number_of (duty :: duties) = Returned numbers ->
  Controller.fetchRelevantData toLowerCase dbService analysisResult user log
  = (log ++ [Controller.DbCall "findStudentAllocations" [seatArgs];
             Controller.DbCall "findFacultyAllocations" [own];
             Controller.DbCall "findStudentAllocations" [rooms]],
     Returned {| Controller.intent := JStr "student_allocation";
                 Controller.data :=
                   ("studentAllocations", seats)
                   :: match Controller.findStudentAllocations dbService rooms
                      with
                      | Returned found => [("facultyRoomStudents", found)]
                      | Thrown _ => []
                      end;
                 Controller.userRole := Controller.user_field user "role";
                 Controller.userName := Controller.user_field user "name" |}).
Proof.
  intros Hintent Hrole Hid Hroom timeParams seatArgs own rooms Hseats Hduties
    Hids Hnumbers.
  pose proof (fetchRelevantData_run toLowerCase dbService analysisResult user _ log Hintent)
    as Hrun.
  cbv zeta in Hrun. rewrite Hrun. clear Hrun.
  rewrite (fetch_try_run toLowerCase dbService analysisResult user _ _ _ Hintent).
  unfold Controller.switch_intent. simpl (is_str _ _).
  unfold Controller.faculty_id_of. rewrite Hrole.
  unfold Controller.case_student_allocation, Controller.await_db,
    Controller.set_data, when, bind, lift, ret.
  rewrite !(get_slot _ _ _ _ Hintent). fold timeParams. fold seatArgs.
  rewrite Hseats, Hid, Hroom. cbn [negb andb fst snd set_prop].
  fold own. rewrite Hduties.
  cbn [truthy get String.eqb Ascii.eqb Bool.eqb obind fst snd array_of].
  replace (gt_zero (JNum (Z.of_nat (length (duty :: duties))))) with true
    by reflexivity.
  rewrite Hids. cbn [obind]. rewrite Hnumbers. cbn [obind]. fold rooms.
  destruct (Controller.findStudentAllocations dbService rooms);
    cbn [fst snd set_prop String.eqb Ascii.eqb Bool.eqb];
    now rewrite <- !app_assoc.
Qed.

(** ** The further properties at sample inputs *)

Lemma unhandled_intent_fetches_nothing_witness :
  let analysisResult := JObj [("faculty_name", JStr "Iyer")] in
  get analysisResult "intent" = Returned JUndef /\
  Views.handled (or_else JUndef (JStr "general_query")) = false /\
  Controller.fetchRelevantData Samples.ascii_lower Samples.campus_db analysisResult Samples.rao []
  = ([], Returned {| Controller.intent := JStr "general_query";
                     Controller.data := [];
                     Controller.userRole := JStr "Faculty";
                     Controller.userName := JStr "Dr. Rao" |}).
Proof.
  cbv zeta. split; [reflexivity |]. split; [reflexivity |].
  exact (unhandled_intent_fetches_nothing Samples.ascii_lower Samples.campus_db
           (JObj [("faculty_name", JStr "Iyer")]) Samples.rao JUndef []
           eq_refl eq_refl).
Defined.

Lemma faculty_allocation_uses_callers_identity_witness :
  let analysisResult :=
    JObj [("intent", JStr "faculty_allocation");
          ("faculty_name", JStr "Dr. Iyer"); ("faculty_id", JStr "f2")] in
  Controller.has_role Samples.rao "Faculty" = true /\
  exists later contextData,
    Controller.fetchRelevantData Samples.ascii_lower Samples.campus_db analysisResult Samples.rao []
    = (Controller.DbCall "findFacultyAllocations"
         [JObj [("facultyName", JStr "Dr. Rao"); ("facultyId", JStr "f1");
                ("roomId", JUndef); ("date", JUndef)]]
       :: later,
       Returned contextData).
Proof.
  cbv zeta. split; [reflexivity |].
  exact (faculty_allocation_uses_callers_identity Samples.ascii_lower Samples.campus_db
           (JObj [("intent", JStr "faculty_allocation");
                  ("faculty_name", JStr "Dr. Iyer");
                  ("faculty_id", JStr "f2")])
           Samples.rao [] eq_refl eq_refl eq_refl).
Defined.

Lemma faculty_info_about_oneself_witness :
  let analysisResult :=
    JObj [("intent", JStr "faculty_info"); ("faculty_name", JStr "RAO")] in
  includes (Samples.ascii_lower "Dr. Rao") (Samples.ascii_lower "RAO") = true /\
  Controller.fetchRelevantData Samples.ascii_lower Samples.campus_db analysisResult Samples.rao []
  = ([], Returned {| Controller.intent := JStr "faculty_info";
                     Controller.data := [("faculty", JArr [Samples.rao])];
                     Controller.userRole := JStr "Faculty";
                     Controller.userName := JStr "Dr. Rao" |}).
Proof.
  cbv zeta. split; [reflexivity |].
  apply (faculty_info_about_oneself_needs_no_lookup Samples.ascii_lower Samples.campus_db
           (JObj [("intent", JStr "faculty_info");
                  ("faculty_name", JStr "RAO")])
           Samples.rao []); [reflexivity | reflexivity | reflexivity |].
  right. exists "Dr. Rao", "RAO". repeat split.
Defined.

Lemma exam_info_keeps_exams_witness :
  let analysisResult :=
    JObj [("intent", JStr "exam_info"); ("subject_name", JStr "Maths")] in
  Controller.findSubjects Samples.db_without_subjects
    (JObj [("name", JStr "Maths"); ("subjectCode", JUndef);
           ("semester", JUndef); ("date", JUndef)])
  = Thrown (Error "subjects unavailable") /\
  Controller.fetchRelevantData Samples.ascii_lower Samples.db_without_subjects analysisResult
    Samples.rao []
  = ([Controller.DbCall "findExams"
        [JObj [("name", JUndef); ("year", JUndef); ("semester", JUndef)]];
      Controller.DbCall "findSubjects"
        [JObj [("name", JStr "Maths"); ("subjectCode", JUndef);
               ("semester", JUndef); ("date", JUndef)]]],
     Returned {| Controller.intent := JStr "exam_info";
                 Controller.data := [("exams", JArr [Samples.midterm])];
                 Controller.userRole := JStr "Faculty";
                 Controller.userName := JStr "Dr. Rao" |}).
Proof.
  cbv zeta. split; [reflexivity |].
  exact (exam_info_keeps_exams_when_subjects_fail Samples.ascii_lower
           Samples.db_without_subjects
           (JObj [("intent", JStr "exam_info");
                  ("subject_name", JStr "Maths")])
           Samples.rao (JArr [Samples.midterm])
           (Error "subjects unavailable") [] eq_refl eq_refl eq_refl eq_refl).
Defined.

Lemma student_allocation_of_named_room_witness :
  let analysisResult :=
    JObj [("intent", JStr "student_allocation"); ("room_number", JNum 12)] in
  truthy (Controller.slot analysisResult "room_number") = true /\
  Controller.fetchRelevantData Samples.ascii_lower Samples.campus_db analysisResult Samples.rao []
  = ([Controller.DbCall "findStudentAllocations"
        [JObj [("roomNumber", JNum 12); ("semester", JUndef);
               ("student", JUndef); ("date", JUndef)]]],
     Returned {| Controller.intent := JStr "student_allocation";
                 Controller.data := [("studentAllocations", JArr [])];
                 Controller.userRole := JStr "Faculty";
                 Controller.userName := JStr "Dr. Rao" |}).
Proof.
  cbv zeta. split; [reflexivity |].
  exact (student_allocation_of_named_room_is_one_lookup Samples.ascii_lower Samples.campus_db
           (JObj [("intent", JStr "student_allocation");
                  ("room_number", JNum 12)])
           Samples.rao [] eq_refl eq_refl).
Defined.

Lemma processQuery_apologizes_without_classification_witness :
  let analyzeQuery := fun _ : value => Returned JNull in
  obind (analyzeQuery (JStr "Where do I sit?"))
        (fun analysisResult => get analysisResult "intent")
  = Thrown (TypeError "Cannot read properties of null (reading 'intent')") /\
  Controller.processQuery "http://localhost:1234/v1" "local-model"
    Samples.chat_down Samples.ascii_trim analyzeQuery Samples.ascii_lower
    Samples.campus_db
    Samples.plain_date (JStr "Where do I sit?") [] Samples.rao []
  = ([Controller.AnalyzeQuery (JStr "Where do I sit?")],
     Returned Controller.processQuery_apology).
Proof.
  cbv zeta. split; [reflexivity |].
  exact (processQuery_apologizes_without_classification
           "http://localhost:1234/v1" "local-model" Samples.chat_down
           Samples.ascii_trim (fun _ => Returned JNull)
           Samples.ascii_lower Samples.campus_db
           Samples.plain_date (JStr "Where do I sit?") [] Samples.rao []
           (TypeError "Cannot read properties of null (reading 'intent')")
           eq_refl).
Defined.

Lemma processQuery_ends_in_generateResponse_witness :
  let analyzeQuery :=
    fun _ : value => Returned (Samples.classified "room_info") in
  Controller.processQuery "http://localhost:1234/v1" "local-model"
    Samples.chat_down Samples.ascii_trim analyzeQuery Samples.ascii_lower
    Samples.campus_db
    Samples.plain_date (JStr "Which rooms are there?") [] Samples.admin_user []
  = ([Controller.AnalyzeQuery (JStr "Which rooms are there?");
      Controller.DbCall "findRooms"
        [JObj [("building", JUndef); ("roomNumber", JUndef);
               ("floor", JUndef)]];
      Controller.ChatCompletions
        (Controller.request_sent "http://localhost:1234/v1" "local-model"
           (JStr "Which rooms are there?")
           (cat ["You are an intelligent assistant for a university exam management system.";
                 " You are speaking with an administrator who manages the exam system.";
                 " You should provide comprehensive information about exams, rooms, faculty allocations, and student seating arrangements.";
                 Controller.guidelines;
                 "CONTEXT INFORMATION FOR QUERY:"; nl;
                 "Intent: room_info"; nl;
                 "User Role: Admin"; nl;
                 "User Name: Registrar"; nl;
                 nl;
                 "ROOMS:"; nl;
                 "Room 1: A - 12"; nl;
                 "  Floor: undefined, Capacity: 40"; nl;
                 nl])
           [])],
     Returned Controller.generateResponse_apology).
Proof.
  cbv zeta.
  edestruct (processQuery_ends_in_generateResponse
               "http://localhost:1234/v1" "local-model" Samples.chat_down
               Samples.ascii_trim
               (fun _ => Returned (Samples.classified "room_info"))
               Samples.ascii_lower Samples.campus_db Samples.plain_date
               (JStr "Which rooms are there?") [] Samples.admin_user [])
    as (prompt & Hprompt & Hrun);
    [reflexivity | lazy; reflexivity | lazy; reflexivity |].
  cbv zeta in Hrun. rewrite Hrun. clear Hrun.
  injection Hprompt as <-. reflexivity.
Defined.

Lemma generateResponse_apologizes_for_malformed_response_witness :
  (forall request,
     Samples.chat_garbled request
     = Returned (JObj [("data", JObj [("choices", JArr [])])])) /\
  snd (Controller.generateResponse "http://localhost:1234/v1" "local-model"
         Samples.chat_garbled Samples.ascii_trim
         (JStr "When is my next duty?") "CONTEXT" [] Samples.rao [])
  = Returned Controller.generateResponse_apology.
Proof.
  split; [reflexivity |].
  apply (generateResponse_apologizes_for_malformed_response
           "http://localhost:1234/v1" "local-model" Samples.chat_garbled
           Samples.ascii_trim (JStr "When is my next duty?") "CONTEXT" []
           Samples.rao []
           (fun _ => JObj [("data", JObj [("choices", JArr [])])])).
  - reflexivity.
  - intros request text. discriminate.
Defined.

Lemma formatContextData_of_empty_bundle_witness :
  let contextData :=
    {| Controller.intent := JStr "exam_info";
       Controller.data := [("exams", JArr []); ("subjects", JNull);
                           ("facultyStats", JObj [])];
       Controller.userRole := JStr "Admin";
       Controller.userName := JUndef |} in
  Forall (fun entry => Controller.is_empty_dataset (snd entry) = true)
         (Controller.data contextData) /\
  Controller.formatContextData Samples.plain_date contextData
  = Returned (cat ["CONTEXT INFORMATION FOR QUERY:"; nl;
                   "Intent: exam_info"; nl;
                   "User Role: Admin"; nl;
                   nl]).
Proof.
  cbv zeta. split; [repeat constructor |].
  apply (formatContextData_of_empty_bundle_is_the_header Samples.plain_date
           {| Controller.intent := JStr "exam_info";
              Controller.data := [("exams", JArr []); ("subjects", JNull);
                                  ("facultyStats", JObj [])];
              Controller.userRole := JStr "Admin";
              Controller.userName := JUndef |}).
  repeat constructor.
Defined.

Lemma render_exam_samples_three_subjects_witness :
  exists text,
    Controller.render_exam 0 Samples.crowded_exam = Returned text /\
    occurs (cat ["  Subjects: "; "4"; " subjects"; nl;
                 "  Sample Subjects: "; "Maths, Paper 2, Paper 3"; "..."; nl])
           text.
Proof.
  eexists. split; [reflexivity |].
  apply (render_exam_samples_three_subjects 0 Samples.crowded_exam
           [Samples.maths; Samples.paper 2; Samples.paper 3; JStr "s9"]);
    [reflexivity | discriminate | reflexivity].
Defined.

Lemma render_student_allocation_samples_five_students_witness :
  exists text,
    Controller.render_student_allocation Samples.plain_date 0 Samples.seating
    = Returned text /\
    occurs (cat ["  Students Count: "; "6"; nl;
                 cat ["  Sample Students: "; "U01, U02, U03, U04, U05"; "...";
                      nl]])
           text.
Proof.
  eexists. split; [reflexivity |].
  apply (render_student_allocation_samples_five_students Samples.plain_date 0
           Samples.seating
           [JStr "U01"; JStr "U02"; JStr "U03"; JStr "U04"; JStr "U05";
            JStr "U06"]);
    [reflexivity | discriminate | reflexivity].
Defined.

Lemma no_session_nothing_saved_witness :
  truthy JNull = false /\
  exists added,
    fst (Samples.chatbot (JStr "hello") (JArr [])) = [] ++ added /\
    existsb Views.is_add_message added = false.
Proof.
  split; [reflexivity |].
  exact (no_session_nothing_saved Samples.ascii_trim (JStr "key") (JObj [])
           (Returned JUndef) (fun _ => Returned (JArr []))
           (fun _ => Returned "")
           (fun _ => Returned (JObj [("content", JStr "Hello!")]))
           (fun _ _ _ _ => Returned JUndef)
           (JStr "hello") (JArr []) JNull JNull [] eq_refl).
Defined.

Lemma missing_api_key_found_after_retrieval_witness :
  truthy JUndef = false /\
  Chatbot.generateResponse Samples.ascii_trim JUndef (JObj [])
    (Returned JUndef) (fun _ => Returned (JArr [])) (fun _ => Returned "")
    (fun _ => Returned (JObj [("content", JStr "Hello!")]))
    (fun _ _ _ _ => Returned JUndef)
    (JStr "hello") (JArr []) JNull JNull []
  = ([Chatbot.KbQuery (JStr "hello")],
     Thrown (Error "GROQ_API_KEY environment variable is not set")).
Proof.
  split; [reflexivity |].
  exact (missing_api_key_found_after_retrieval Samples.ascii_trim JUndef
           (JObj []) (Returned JUndef) (fun _ => Returned (JArr []))
           (fun _ => Returned "")
           (fun _ => Returned (JObj [("content", JStr "Hello!")]))
           (fun _ _ _ _ => Returned JUndef)
           (JStr "hello") (JArr []) JNull JNull (JArr []) "" []
           eq_refl eq_refl eq_refl eq_refl eq_refl).
Defined.

Lemma knowledge_base_initialized_on_first_use_witness :
  truthy JNull = false /\
  Chatbot.generateResponse Samples.ascii_trim (JStr "key") JNull
    (Thrown (Error "index not found")) (fun _ => Returned (JArr []))
    (fun _ => Returned "")
    (fun _ => Returned (JObj [("content", JStr "Hello!")]))
    (fun _ _ _ _ => Returned JUndef)
    (JStr "hello") (JArr []) JNull JNull []
  = ([Chatbot.KbInitialize], Thrown (Error "index not found")).
Proof.
  split; [reflexivity |].
  exact (knowledge_base_initialized_on_first_use Samples.ascii_trim
           (JStr "key") JNull (Thrown (Error "index not found"))
           (fun _ => Returned (JArr [])) (fun _ => Returned "")
           (fun _ => Returned (JObj [("content", JStr "Hello!")]))
           (fun _ _ _ _ => Returned JUndef)
           (JStr "hello") (JArr []) JNull JNull [] eq_refl eq_refl).
Defined.

Lemma answered_request_is_saved_witness :
  let history :=
    JArr [JObj [("role", JStr "user"); ("content", JStr "hi")];
          JObj [("role", JStr "system"); ("content", JStr "be brief")];
          JObj [("role", JStr "assistant"); ("content", JStr "Hi there.")]] in
  truthy (JStr "s1") = true /\
  Samples.chatbot_in_session (fun _ _ _ _ => Returned JUndef)
    (JStr "hello") history
  = ([Chatbot.KbQuery (JStr "hello");
      Chatbot.ModelInvoke [Chatbot.createSystemMessage;
                           Chatbot.HumanMessage (JStr "hi");
                           Chatbot.AIMessage (JStr "Hi there.");
                           Chatbot.HumanMessage (JStr "hello")];
      Chatbot.AddMessage (JStr "s1") "user" (JStr "hello") (JStr "u1");
      Chatbot.AddMessage (JStr "s1") "assistant" (JStr "Hello!") (JStr "u1")],
     Returned (JStr "Hello!")).
Proof.
  cbv zeta. split; [reflexivity |].
  exact (answered_request_is_saved_turn_by_turn Samples.ascii_trim
           (JStr "key") (JObj []) (Returned JUndef)
           (fun _ => Returned (JArr [])) (fun _ => Returned "")
           (fun _ => Returned (JObj [("content", JStr "Hello!")]))
           (fun _ _ _ _ => Returned JUndef)
           (JStr "hello")
           (JArr [JObj [("role", JStr "user"); ("content", JStr "hi")];
                  JObj [("role", JStr "system"); ("content", JStr "be brief")];
                  JObj [("role", JStr "assistant");
                        ("content", JStr "Hi there.")]])
           (JStr "s1") (JStr "u1") (JArr []) ""
           (JObj [("content", JStr "Hello!")]) (JStr "Hello!") JUndef JUndef []
           eq_refl eq_refl eq_refl eq_refl eq_refl eq_refl eq_refl eq_refl
           eq_refl eq_refl).
Defined.

Lemma failed_save_loses_the_answer_witness :
  let addMessage :=
    fun (_ : value) (_ : string) (_ _ : value) =>
      @Thrown value (Error "conversation store unavailable") in
  addMessage (JStr "s1") "user" (JStr "hello") (JStr "u1")
  = Thrown (Error "conversation store unavailable") /\
  Samples.chatbot_in_session addMessage (JStr "hello") (JArr [])
  = ([Chatbot.KbQuery (JStr "hello");
      Chatbot.ModelInvoke [Chatbot.createSystemMessage;
                           Chatbot.HumanMessage (JStr "hello")];
      Chatbot.AddMessage (JStr "s1") "user" (JStr "hello") (JStr "u1")],
     Thrown (Error "conversation store unavailable")).
Proof.
  cbv zeta. split; [reflexivity |].
  exact (failed_save_loses_the_answer Samples.ascii_trim
           (JStr "key") (JObj []) (Returned JUndef)
           (fun _ => Returned (JArr [])) (fun _ => Returned "")
           (fun _ => Returned (JObj [("content", JStr "Hello!")]))
           (fun _ _ _ _ => Thrown (Error "conversation store unavailable"))
           (JStr "hello") (JArr []) (JStr "s1") (JStr "u1") (JArr []) ""
           (JObj [("content", JStr "Hello!")]) (JStr "Hello!")
           (Error "conversation store unavailable") []
           eq_refl eq_refl eq_refl eq_refl eq_refl eq_refl eq_refl eq_refl
           eq_refl).
Defined.

Lemma rebuild_forgets_previous_documents_witness :
  let rebuild :=
    Routes.cache_data Samples.plain_date Samples.embeddings_up
      (Returned JUndef) (fun _ => Returned JUndef)
      (Returned [Samples.midterm]) (Returned [Samples.room12])
      (Returned [Samples.maths])
      (Returned [Samples.duty "a1" Samples.midterm]) (Returned [])
      (Returned [Samples.rao]) in
  Routes.astraCollection Samples.stale
  = Some [Routes.document (Samples.hit "exam_e0" Routes.type_exam 0.5%float)]
  /\ snd (rebuild Samples.fresh) = snd (rebuild Samples.stale)
  /\ Routes.astraCollection (fst (rebuild Samples.fresh))
     = Routes.astraCollection (fst (rebuild Samples.stale)).
Proof.
  cbv zeta. split; [reflexivity |].
  exact (rebuild_forgets_previous_documents Samples.plain_date
           Samples.embeddings_up (Returned JUndef) (fun _ => Returned JUndef)
           (Returned [Samples.midterm]) (Returned [Samples.room12])
           (Returned [Samples.maths])
           (Returned [Samples.duty "a1" Samples.midterm]) (Returned [])
           (Returned [Samples.rao])
           Samples.fresh Samples.stale []
           [Routes.document (Samples.hit "exam_e0" Routes.type_exam 0.5%float)]
           JUndef eq_refl eq_refl eq_refl).
Defined.

Lemma fulfilled_task_indexed_its_summary_witness :
  exists tasks task w' v,
    Routes.rebuild_tasks Samples.plain_date Samples.embeddings_up
      (fun _ => Returned JUndef)
      [Samples.midterm] [Samples.room12] [Samples.maths]
      [Samples.duty "a1" Samples.midterm] [] [Samples.rao]
    = Returned tasks /\
    In task tasks /\
    task Samples.fresh = (w', Returned v) /\
    ((w' = Samples.fresh /\ v = JNull)
     \/ exists doc record id,
          In record ([Samples.midterm] ++ [Samples.duty "a1" Samples.midterm]
                     ++ [])
          /\ get record "_id" = Returned id
          /\ Routes._id doc = Views.kind_prefix (Routes.type doc) +:+ to_str id
          /\ obind (Samples.embeddings_up (JStr (Routes.content doc)))
                   Routes.embedding_of
             = Returned (Routes.embedding doc)
          /\ Routes.log w'
             = Routes.log Samples.fresh
               ++ [Routes.Embeddings (JStr (Routes.content doc));
                   Routes.InsertOne doc]
          /\ Routes.astraCollection w'
             = (fun docs => docs ++ [doc])
               <$> Routes.astraCollection Samples.fresh).
Proof.
  do 4 eexists.
  split; [reflexivity |]. split; [right; left; reflexivity |].
  split; [reflexivity |].
  eapply (fulfilled_task_indexed_its_summary Samples.plain_date
            Samples.embeddings_up (fun _ => Returned JUndef)
            [Samples.midterm] [Samples.room12] [Samples.maths]
            [Samples.duty "a1" Samples.midterm] [] [Samples.rao]);
    [reflexivity | right; left; reflexivity | reflexivity].
Defined.

Lemma unresolved_allocation_is_skipped_witness :
  let examMap : gmap string value := {[ "e1" := Samples.midterm ]} in
  let subjectMap : gmap string value := {[ "s1" := Samples.maths ]} in
  let roomMap : gmap string value := {[ "r1" := Samples.room12 ]} in
  let facultyMap : gmap string value := {[ "f1" := Samples.rao ]} in
  Routes.ref_id Samples.stray_duty "facultyId" = Returned "u9" /\
  truthy (Routes.map_get facultyMap "u9") = false /\
  Routes.index_document Samples.embeddings_up (fun _ => Returned JUndef)
    (Routes.prepare_alloc Samples.plain_date examMap subjectMap roomMap
       facultyMap Samples.stray_duty) Samples.fresh
  = (Samples.fresh, Returned JNull).
Proof.
  cbv zeta. split; [reflexivity |]. split; [reflexivity |].
  apply (unresolved_allocation_is_skipped_without_a_call Samples.plain_date
           Samples.embeddings_up (fun _ => Returned JUndef)
           {[ "e1" := Samples.midterm ]} {[ "s1" := Samples.maths ]}
           {[ "r1" := Samples.room12 ]} {[ "f1" := Samples.rao ]}
           Samples.stray_duty "e1" "s1" "r1" "u9" Samples.fresh);
    reflexivity.
Defined.

Lemma collection_never_outgrows_its_sources_witness :
  exists docs',
    Routes.astraCollection
      (fst (Samples.rebuild Samples.embeddings_up
              [Samples.stray_duty; Samples.duty "a1" Samples.midterm]))
    = Some docs' /\
    (length docs' <= 1 + 2 + 0)%nat.
Proof.
  exact (collection_never_outgrows_its_sources Samples.plain_date
           Samples.embeddings_up (Returned JUndef) (fun _ => Returned JUndef)
           (Returned [Samples.midterm]) (Returned [Samples.room12])
           (Returned [Samples.maths])
           (Returned [Samples.stray_duty; Samples.duty "a1" Samples.midterm])
           (Returned []) (Returned [Samples.rao])
           Samples.fresh [] JUndef
           [Samples.midterm] [Samples.room12] [Samples.maths]
           [Samples.stray_duty; Samples.duty "a1" Samples.midterm] []
           [Samples.rao]
           eq_refl eq_refl eq_refl eq_refl eq_refl eq_refl eq_refl eq_refl).
Defined.

Lemma admin_without_collection_witness :
  let body := JObj [("query", JStr "When is the midterm?")] in
  Routes.astraCollection Samples.unready = None /\
  Routes.admin Samples.embeddings_up
    (fun _ => Returned Samples.three_hits) (fun _ => Returned JUndef)
    body Samples.unready
  = ({| Routes.log := [Routes.Embeddings (JStr "When is the midterm?")];
        Routes.astraCollection := None |},
     Routes.Failed
       "Chatbot failed: Cannot read properties of undefined (reading 'find')").
Proof.
  cbv zeta. split; [reflexivity |].
  exact (admin_without_collection_fails_after_embedding Samples.embeddings_up
           (fun _ => Returned Samples.three_hits) (fun _ => Returned JUndef)
           (JObj [("query", JStr "When is the midterm?")])
           (JStr "When is the midterm?") (JArr [JNum 1; JNum 2])
           Samples.unready eq_refl eq_refl eq_refl eq_refl).
Defined.

Lemma admin_answers_with_the_chat_content_witness :
  let body := JObj [("query", JStr "When is the midterm?")] in
  Routes.relevant Samples.three_hits
  = [Samples.hit "alloc_a1" Routes.type_allocation 0.41%float;
     Samples.hit "exam_e1" Routes.type_exam 0.3%float] /\
  snd (Samples.ask Samples.three_hits body)
  = Routes.Answer (JStr "On 1 March.")
      [Routes.type_allocation; Routes.type_exam] (Some 0.41%float).
Proof.
  cbv zeta. split; [reflexivity |].
  exact (admin_answers_with_the_chat_content Samples.embeddings_up
           (fun _ => Returned Samples.three_hits)
           (fun _ => Returned (JObj [("data", JObj [("choices",
              JArr [JObj [("message",
                JObj [("content", JStr "On 1 March.")])]])])]))
           (JObj [("query", JStr "When is the midterm?")])
           (JStr "When is the midterm?") (JArr [JNum 1; JNum 2])
           Samples.three_hits
           (Samples.hit "alloc_a1" Routes.type_allocation 0.41%float)
           [Samples.hit "exam_e1" Routes.type_exam 0.3%float]
           [] Samples.fresh eq_refl eq_refl eq_refl eq_refl eq_refl eq_refl).
Defined.

Lemma initializeServices_ignores_the_drop_outcome_witness :
  Startup.initializeServices (Returned (JObj []))
    (Thrown (Error "Collection exam_embeddings not found")) (Returned [])
    ([], Samples.unready)
  = (([Startup.Connect;
       Startup.DropCollection "exam_embeddings";
       Startup.CreateCollection "exam_embeddings" 768 "cosine"],
      Samples.fresh),
     Returned tt).
Proof.
  exact (initializeServices_ignores_the_drop_outcome (Returned (JObj []))
           (Thrown (Error "Collection exam_embeddings not found"))
           (Returned []) (JObj []) [] [] Samples.unready eq_refl eq_refl).
Defined.

Lemma failed_start_leaves_cache_data_unready_witness :
  let started :=
    Startup.startup (Returned (JObj [])) (Returned JUndef)
      (Thrown (Error "401 Unauthorized")) ([], Samples.unready) in
  snd started = Returned tt /\
  snd (fst started) = Samples.unready /\
  Routes.cache_data Samples.plain_date Samples.embeddings_up
    (Returned JUndef) (fun _ => Returned JUndef)
    (Returned [Samples.midterm]) (Returned [Samples.room12])
    (Returned [Samples.maths])
    (Returned [Samples.duty "a1" Samples.midterm]) (Returned [])
    (Returned [Samples.rao]) (snd (fst started))
  = (Samples.unready, Routes.Failed "Cache failed: Database not ready").
Proof.
  cbv zeta.
  destruct (failed_start_leaves_cache_data_unready (Returned (JObj []))
              (Returned JUndef) (Thrown (Error "401 Unauthorized"))
              Samples.plain_date Samples.embeddings_up (Returned JUndef)
              (fun _ => Returned JUndef)
              (Returned [Samples.midterm]) (Returned [Samples.room12])
              (Returned [Samples.maths])
              (Returned [Samples.duty "a1" Samples.midterm]) (Returned [])
              (Returned [Samples.rao])
              [] Samples.unready (Error "401 Unauthorized") eq_refl
              (or_intror (ex_intro _ (JObj []) (conj eq_refl eq_refl))))
    as (_ & Hstarted & Hworld & Hcache).
  split; [exact Hstarted |]. split; [exact Hworld |]. exact Hcache.
Defined.

Lemma student_allocation_follows_callers_duties_witness :
  let analysisResult :=
    JObj [("intent", JStr "student_allocation");
          ("time_period", JStr "future")] in
  mapM Controller.room_id_of [Samples.duty "a1" Samples.midterm]
  = Returned [JStr "r1"] /\
  mapM Controller.room_number_of [Samples.duty "a1" Samples.midterm]
  = Returned [JNum 12] /\
  Controller.fetchRelevantData Samples.ascii_lower Samples.campus_db analysisResult Samples.rao []
  = ([Controller.DbCall "findStudentAllocations"
        [JObj [("roomNumber", JUndef); ("semester", JUndef);
               ("student", JUndef); ("date", JUndef);
               ("future", JBool true)]];
      Controller.DbCall "findFacultyAllocations"
        [JObj [("facultyId", JStr "f1"); ("date", JUndef);
               ("future", JBool true)]];
      Controller.DbCall "findStudentAllocations"
        [JObj [("roomIds", JArr [JStr "r1"]); ("roomNumbers", JArr [JNum 12]);
               ("date", JUndef); ("future", JBool true)]]],
     Returned {| Controller.intent := JStr "student_allocation";
                 Controller.data := [("studentAllocations", JArr []);
                                     ("facultyRoomStudents", JArr [])];
                 Controller.userRole := JStr "Faculty";
                 Controller.userName := JStr "Dr. Rao" |}).
Proof.
  cbv zeta. split; [reflexivity |]. split; [reflexivity |].
  exact (student_allocation_follows_callers_duties Samples.ascii_lower Samples.campus_db
           (JObj [("intent", JStr "student_allocation");
                  ("time_period", JStr "future")])
           Samples.rao (JArr []) (Samples.duty "a1" Samples.midterm) []
           [JStr "r1"] [JNum 12] []
           eq_refl eq_refl eq_refl eq_refl eq_refl eq_refl eq_refl eq_refl).
Defined.

Lemma bundle_never_holds_search_results_witness :
  exists log' contextData,
    Controller.fetchRelevantData Samples.ascii_lower Samples.campus_db
      (Samples.classified "room_info") Samples.rao []
    = (log', Returned contextData) /\
    Views.known_keys (Controller.data contextData) /\
    assoc "searchResults" (Controller.data contextData) = None /\
    assoc "facultyData" (Controller.data contextData) = None.
Proof.
  do 2 eexists. split; [lazy; reflexivity |].
  eapply (bundle_never_holds_search_results Samples.ascii_lower Samples.campus_db
            (Samples.classified "room_info") Samples.rao []).
  lazy. reflexivity.
Defined.
